(** * gocommerce: carts, pricing and order creation

    A shallow embedding of the Go packages [money], [catalog], [cart],
    [pricing], [tax], [shipping], [inventory], [payments] and [orders], and
    the properties of the money arithmetic, the cart and its service, the
    pricing computation, the order state machine and the order-creation and
    cancellation orchestration that follow from the code.

    Conventions of the embedding:
    - Go's [int64] (and [int], on a 64-bit platform) is a [Z] together with
      the wrap-around of every arithmetic operation, written out in
      [Int64];
    - Go's [float64] is [spec_float] at precision 53, with the IEEE-754
      operations of the standard library ([Float64]);
    - a Go function returning a value and an [error] returns a pair whose
      second component is [option error] ([None] is [nil]); a function
      returning a pointer and an [error], where the pointer is only read
      when the error is [nil], returns a sum;
    - collaborators behind Go interfaces (repositories, calculators,
      gateways) are records of functions; those with effects thread their
      own state explicitly;
    - a Go [*string] is an [option string] holding the pointee; where the
      code compares two such pointers ([Cart.AddItem], [Cart.Merge]) the
      identity of two non-nil pointers is given by an aliasing oracle, a
      parameter of the function;
    - [time.Now()] is a parameter [now]. *)

From Stdlib Require Import ZArith Zdiv Lia Bool Morphisms Setoid.
From Stdlib Require Import Floats.SpecFloat.
From stdpp Require Import base option list gmap strings fin_maps pretty.

Local Open Scope Z_scope.

(** ** Machine integers *)

Module Int64.

Definition min_int : Z := - 2 ^ 63.
Definition max_int : Z := 2 ^ 63 - 1.
Definition modulus : Z := 2 ^ 64.

Definition in_range (z : Z) : Prop := min_int <= z <= max_int.

(** Two's complement wrap-around of a mathematical integer. *)
Definition wrap (z : Z) : Z := (z + 2 ^ 63) mod modulus - 2 ^ 63.

Definition add (x y : Z) : Z := wrap (x + y).
Definition sub (x y : Z) : Z := wrap (x - y).
Definition mul (x y : Z) : Z := wrap (x * y).
(** Go's [/] and [%] truncate toward zero. *)
Definition quo (x y : Z) : Z := wrap (Z.quot x y).
Definition rem (x y : Z) : Z := Z.rem x y.

(** Sum of a list of [int64] values, accumulated left to right. *)
Definition sum (l : list Z) : Z := fold_left add l 0.

End Int64.

(** ** Floating point *)

Module Float64.

Definition prec : Z := 53.
Definition emax : Z := 1024.

Definition float64 : Type := spec_float.

(** [float64(x)] for an [int64] [x]: rounding to nearest even. *)
Definition of_int64 (x : Z) : float64 := binary_normalize prec emax x 0 false.

Definition mul (x y : float64) : float64 := SFmul prec emax x y.

(** [int64(f)]: the fractional part is discarded (truncation toward
    zero).  When the value is not representable Go leaves the result to
    the implementation; amd64 yields the smallest [int64]. *)
Definition to_int64 (f : float64) : Z :=
  match f with
  | S754_zero _ => 0
  | S754_finite s m e =>
      let mag := if 0 <=? e then Z.pos m * 2 ^ e
                 else Z.quot (Z.pos m) (2 ^ (- e)) in
      let v := if s then - mag else mag in
      if (Int64.min_int <=? v) && (v <=? Int64.max_int) then v
      else Int64.min_int
  | S754_infinity _ | S754_nan => Int64.min_int
  end.

(** The [float64] literals used below. *)
Definition lit_0_10 : float64 := S754_finite false 7205759403792794 (-56).
Definition lit_500 : float64 := of_int64 500.

End Float64.

(** ** Errors

    The sentinel error values of the packages, in one type. *)

Inductive error : Type :=
  | ErrCurrencyMismatch
  | ErrNegativeAmount
  | ErrInvalidCurrency
  | ErrPromotionInvalid
  | ErrMinPurchaseNotMet
  | ErrInsufficientStock
  | ErrInvalidSKU
  | ErrReservationFailed
  | ErrOrderNotFound
  | ErrInvalidStatus
  | ErrEmptyCart
  | ErrInvalidAddress
  | ErrPaymentFailed
  | ErrOther (msg : string).

(** ** Package money *)

Module money.

Record Money : Type := mkMoney {
  Amount : Z;
  Currency : string
}.

(** The zero value [Money{}]. *)
Definition empty : Money := mkMoney 0 "".

Definition New (amount : Z) (currency : string) : Money * option error :=
  if String.eqb currency "" then (empty, Some ErrInvalidCurrency)
  else (mkMoney amount currency, None).

Definition Zero (currency : string) : Money := mkMoney 0 currency.

Definition Add (m other : Money) : Money * option error :=
  if negb (String.eqb (Currency m) (Currency other))
  then (empty, Some ErrCurrencyMismatch)
  else (mkMoney (Int64.add (Amount m) (Amount other)) (Currency m), None).

Definition Subtract (m other : Money) : Money * option error :=
  if negb (String.eqb (Currency m) (Currency other))
  then (empty, Some ErrCurrencyMismatch)
  else (mkMoney (Int64.sub (Amount m) (Amount other)) (Currency m), None).

Definition Multiply (m : Money) (factor : Float64.float64) : Money :=
  mkMoney (Float64.to_int64 (Float64.mul (Float64.of_int64 (Amount m)) factor))
          (Currency m).

Definition MultiplyInt (m : Money) (factor : Z) : Money :=
  mkMoney (Int64.mul (Amount m) factor) (Currency m).

Definition IsNegative (m : Money) : bool := Amount m <? 0.
Definition IsZero (m : Money) : bool := Amount m =? 0.
Definition IsPositive (m : Money) : bool := 0 <? Amount m.

Definition LessThan (m other : Money) : bool * option error :=
  if negb (String.eqb (Currency m) (Currency other))
  then (false, Some ErrCurrencyMismatch)
  else (Amount m <? Amount other, None).

Definition GreaterThan (m other : Money) : bool * option error :=
  if negb (String.eqb (Currency m) (Currency other))
  then (false, Some ErrCurrencyMismatch)
  else (Amount other <? Amount m, None).

Definition Equals (m other : Money) : bool :=
  (Amount m =? Amount other) && String.eqb (Currency m) (Currency other).

(** The loop of [Allocate]: [k] iterations remain, [i] is the loop
    index. *)
Fixpoint Allocate_loop (base remainder : Z) (currency : string)
    (i : Z) (k : nat) : list Money :=
  match k with
  | O => []
  | S k' =>
      let amount := if i <? remainder then Int64.add base 1 else base in
      mkMoney amount currency
        :: Allocate_loop base remainder currency (i + 1) k'
  end.

Definition Allocate (m : Money) (n : Z) : list Money :=
  if n <=? 0 then []
  else
    let base := Int64.quo (Amount m) n in
    let remainder := Int64.rem (Amount m) n in
    Allocate_loop base remainder (Currency m) 0 (Z.to_nat n).

(** Sum of the minor units of a list of values. *)
Definition total (l : list Money) : Z := Int64.sum (map Amount l).

End money.

Import money.

(** ** Package catalog *)

Module catalog.

Definition ProductStatus : Type := string.
Definition ProductStatusDraft : ProductStatus := "draft".
Definition ProductStatusActive : ProductStatus := "active".
Definition ProductStatusDiscontinued : ProductStatus := "discontinued".

Module Variant.
Record t : Type := mk {
  ID : string;
  ProductID : string;
  SKU : string;
  Name : string;
  Price : Money;
  Attributes : gmap string string;
  Images : list string;
  IsAvailable : bool;
  CreatedAt : Z;
  UpdatedAt : Z
}.
End Variant.

Module Product.
Record t : Type := mk {
  ID : string;
  SKU : string;
  Name : string;
  Description : string;
  BrandID : string;
  CategoryID : string;
  BasePrice : Money;
  Status : ProductStatus;
  Images : list string;
  Attributes : gmap string string;
  CreatedAt : Z;
  UpdatedAt : Z
}.

Definition IsActive (p : t) : bool := String.eqb (Status p) ProductStatusActive.

(** [GetEffectivePrice]: [variant] is a pointer, nil is [None]. *)
Definition GetEffectivePrice (p : t) (variant : option Variant.t) : Money :=
  match variant with
  | Some v => if negb (IsZero (Variant.Price v)) then Variant.Price v
              else BasePrice p
  | None => BasePrice p
  end.
End Product.

(** The product and variant repositories, as far as the cart service
    calls them: the lookup by id. *)
Module ProductRepository.
Record t : Type := mk {
  FindByID : string -> Product.t + error
}.
End ProductRepository.

Module VariantRepository.
Record t : Type := mk {
  FindByID : string -> Variant.t + error
}.
End VariantRepository.

End catalog.

(** ** Package cart *)

Module cart.

Module CartItem.
Record t : Type := mk {
  ID : string;
  ProductID : string;
  VariantID : option string;
  SKU : string;
  Name : string;
  Price : Money;
  Quantity : Z;
  Attributes : gmap string string;
  AddedAt : Z
}.

(** The assignment to [Quantity] of an element of the slice. *)
Definition set_Quantity (v : Z) (item : t) : t :=
  mk (ID item) (ProductID item) (VariantID item) (SKU item) (Name item)
    (Price item) v (Attributes item) (AddedAt item).
End CartItem.

Module Cart.
Record t : Type := mk {
  ID : string;
  UserID : string;
  SessionID : string;
  Items : list CartItem.t;
  CreatedAt : Z;
  UpdatedAt : Z;
  ExpiresAt : option Z
}.

Definition IsEmpty (c : t) : bool := Nat.eqb (length (Items c)) 0.

Definition set_Items (v : list CartItem.t) (c : t) : t :=
  mk (ID c) (UserID c) (SessionID c) v (CreatedAt c) (UpdatedAt c)
    (ExpiresAt c).
Definition set_UpdatedAt (v : Z) (c : t) : t :=
  mk (ID c) (UserID c) (SessionID c) (Items c) (CreatedAt c) v (ExpiresAt c).

(** The search loops of the methods: the index of the first element,
    from index [i] on, that the test accepts. *)
Fixpoint indexWhere (test : nat -> CartItem.t -> bool)
    (items : list CartItem.t) (i : nat) : option nat :=
  match items with
  | [] => None
  | item :: rest =>
      if test i item then Some i else indexWhere test rest (S i)
  end.

(** [VariantID] is a [*string], of which the embedding keeps the string
    pointed to.  The test [existing.VariantID == item.VariantID] compares
    the two pointers, not the two strings: two nil pointers are equal, a
    nil and a non-nil pointer differ, and two non-nil pointers are equal
    exactly when they are one pointer, which [same] tells. *)
Definition samePointer (same : bool) (a b : option string) : bool :=
  match a, b with
  | None, None => true
  | Some _, Some _ => same
  | _, _ => false
  end.

(** The test of [AddItem] and [Merge] on an existing line. *)
Definition sameProduct (same : bool) (existing item : CartItem.t) : bool :=
  String.eqb (CartItem.ProductID existing) (CartItem.ProductID item)
  && samePointer same (CartItem.VariantID existing) (CartItem.VariantID item).

(** [c.Items[i].Quantity += quantity]. *)
Definition addQuantity (quantity : Z) (existing : CartItem.t) : CartItem.t :=
  CartItem.set_Quantity (Int64.add (CartItem.Quantity existing) quantity)
    existing.

(** The body shared by [AddItem] and by one round of [Merge]: the first
    line of the same product and variant gets the quantity, and the item
    is appended when there is none. *)
Definition addOrAppend (aliased : nat -> bool) (item : CartItem.t)
    (items : list CartItem.t) : list CartItem.t :=
  match
    indexWhere (fun i existing => sameProduct (aliased i) existing item)
      items 0
  with
  | Some i => alter (addQuantity (CartItem.Quantity item)) i items
  | None => items ++ [item]
  end.

(** [AddItem].  [aliased i] tells whether the variant pointer of [item]
    is the variant pointer of the line at index [i]; it is consulted for
    two non-nil pointers only. *)
Definition AddItem (now : Z) (aliased : nat -> bool) (item : CartItem.t)
    (c : t) : t :=
  set_UpdatedAt now (set_Items (addOrAppend aliased item (Items c)) c).

(** [RemoveItem]: the returned boolean and the cart afterwards. *)
Definition RemoveItem (now : Z) (itemID : string) (c : t) : bool * t :=
  match
    indexWhere (fun _ item => String.eqb (CartItem.ID item) itemID)
      (Items c) 0
  with
  | Some i =>
      (true,
       set_UpdatedAt now
         (set_Items (take i (Items c) ++ drop (S i) (Items c)) c))
  | None => (false, c)
  end.

Definition UpdateItemQuantity (now : Z) (itemID : string) (quantity : Z)
    (c : t) : bool * t :=
  if quantity <=? 0 then RemoveItem now itemID c
  else
    match
      indexWhere (fun _ item => String.eqb (CartItem.ID item) itemID)
        (Items c) 0
    with
    | Some i =>
        (true,
         set_UpdatedAt now
           (set_Items (alter (CartItem.set_Quantity quantity) i (Items c)) c))
    | None => (false, c)
    end.

Definition Clear (now : Z) (c : t) : t := set_UpdatedAt now (set_Items [] c).

(** [ItemCount]: [count += item.Quantity] over the lines. *)
Definition ItemCount (c : t) : Z :=
  fold_left (fun count item => Int64.add count (CartItem.Quantity item))
    (Items c) 0.

(** The loop of [Subtotal]: [total, _ = total.Add(itemTotal)]. *)
Fixpoint subtotalLoop (items : list CartItem.t) (total : Money) : Money :=
  match items with
  | [] => total
  | item :: rest =>
      subtotalLoop rest
        (fst (Add total
                (MultiplyInt (CartItem.Price item) (CartItem.Quantity item))))
  end.

Definition Subtotal (c : t) : Money :=
  match Items c with
  | [] => Zero "USD"
  | first :: _ =>
      subtotalLoop (Items c) (Zero (Currency (CartItem.Price first)))
  end.

(** [FindItem] returns a pointer to the line, nil when there is none:
    here the line itself. *)
Definition FindItem (c : t) (itemID : string) : option CartItem.t :=
  match
    indexWhere (fun _ item => String.eqb (CartItem.ID item) itemID)
      (Items c) 0
  with
  | Some i => Items c !! i
  | None => None
  end.

(** The outer loop of [Merge], at index [j] of the items of the other
    cart.  [aliased j i] tells whether the variant pointer of the item at
    index [j] of the other cart is the variant pointer of the line at
    index [i] of this cart. *)
Fixpoint mergeLoop (aliased : nat -> nat -> bool)
    (otherItems : list CartItem.t) (j : nat) (items : list CartItem.t)
    : list CartItem.t :=
  match otherItems with
  | [] => items
  | otherItem :: rest =>
      mergeLoop aliased rest (S j) (addOrAppend (aliased j) otherItem items)
  end.

(** [Merge], for another cart that is not this cart itself. *)
Definition Merge (now : Z) (aliased : nat -> nat -> bool) (other : t)
    (c : t) : t :=
  set_UpdatedAt now
    (set_Items (mergeLoop aliased (Items other) 0 (Items c)) c).
End Cart.

(** The [Repository] interface of the carts, over the state [C] of an
    implementation.  The two lookups whose result the service tests
    against nil return both the cart and the error. *)
Record Repository (C : Type) : Type := mkRepository {
  FindByID : string -> C -> Cart.t + error;
  FindByUserID : string -> C -> option Cart.t * option error;
  FindBySessionID : string -> C -> option Cart.t * option error;
  Save : Cart.t -> C -> option error * C;
  Delete : string -> C -> option error * C
}.
Arguments mkRepository {C} _ _ _ _ _.
Arguments FindByID {C} _ _ _.
Arguments FindByUserID {C} _ _ _.
Arguments FindBySessionID {C} _ _ _.
Arguments Save {C} _ _ _.
Arguments Delete {C} _ _ _.

Module AddItemRequest.
Record t : Type := mk {
  ProductID : string;
  VariantID : option string;
  Quantity : Z;
  Attributes : gmap string string
}.
End AddItemRequest.

End cart.

(** ** Package tax *)

Module tax.

Module Address.
Record t : Type := mk {
  Country : string;
  State : string;
  City : string;
  PostalCode : string;
  Street : string
}.
Definition empty : t := mk "" "" "" "" "".
End Address.

Module TaxableItem.
Record t : Type := mk {
  ID : string;
  Amount : Money;
  Quantity : Z;
  TaxCode : string;
  IsTaxable : bool
}.
End TaxableItem.

Module CalculationRequest.
Record t : Type := mk {
  LineItems : list TaxableItem.t;
  ShippingCost : Money;
  Address : Address.t;
  TaxInclusive : bool
}.
End CalculationRequest.

Module AppliedTaxRate.
Record t : Type := mk {
  Name : string;
  Rate : Float64.float64;
  Amount : Money;
  Jurisdiction : string;
  TaxType : string
}.
End AppliedTaxRate.

Module LineItemTax.
Record t : Type := mk {
  LineItemID : string;
  TaxAmount : Money;
  TaxRates : list AppliedTaxRate.t
}.
End LineItemTax.

Module CalculationResult.
Record t : Type := mk {
  TotalTax : Money;
  TaxRates : list AppliedTaxRate.t;
  LineItemTaxes : list LineItemTax.t;
  ShippingTax : Money
}.
End CalculationResult.

(** The [Calculator] interface, as far as the pricing service calls it.
    A calculator answers with a result or with an error. *)
Record Calculator : Type := mkCalculator {
  Calculate : CalculationRequest.t -> CalculationResult.t + error
}.

End tax.

(** ** Package shipping *)

Module shipping.

Module Address.
Record t : Type := mk {
  Country : string;
  State : string;
  City : string;
  PostalCode : string
}.
Definition empty : t := mk "" "" "" "".
End Address.

Module ShippableItem.
Record t : Type := mk {
  SKU : string;
  Quantity : Z;
  WeightGrams : Z
}.
End ShippableItem.

Module RateRequest.
Record t : Type := mk {
  Items : list ShippableItem.t;
  SourceAddress : Address.t;
  DestinationAddress : Address.t;
  ShippingMethodID : string
}.
End RateRequest.

Module ShippingRate.
Record t : Type := mk {
  MethodID : string;
  MethodName : string;
  Cost : Money;
  EstimatedDays : Z;
  Carrier : string
}.
End ShippingRate.

(** The [RateCalculator] interface: [GetRate] returns a possibly nil
    rate and a possibly nil error, and the caller tests both. *)
Record RateCalculator : Type := mkRateCalculator {
  GetRate : RateRequest.t -> option ShippingRate.t * option error
}.

End shipping.

(** ** Package pricing *)

Module pricing.

Module LineItem.
Record t : Type := mk {
  ID : string;
  ProductID : string;
  VariantID : option string;
  SKU : string;
  Name : string;
  UnitPrice : Money;
  Quantity : Z;
  Attributes : gmap string string
}.
End LineItem.

Module LineItemPrice.
Record t : Type := mk {
  LineItemID : string;
  Subtotal : Money;
  DiscountAmount : Money;
  TaxAmount : Money;
  Total : Money
}.

(** Assignments to one field of an element of the slice. *)
Definition set_DiscountAmount (v : Money) (p : t) : t :=
  mk (LineItemID p) (Subtotal p) v (TaxAmount p) (Total p).
Definition set_TaxAmount (v : Money) (p : t) : t :=
  mk (LineItemID p) (Subtotal p) (DiscountAmount p) v (Total p).
Definition set_Total (v : Money) (p : t) : t :=
  mk (LineItemID p) (Subtotal p) (DiscountAmount p) (TaxAmount p) v.
End LineItemPrice.

Definition DiscountType : Type := string.
Definition DiscountTypePercentage : DiscountType := "percentage".
Definition DiscountTypeFixedAmount : DiscountType := "fixed_amount".
Definition DiscountTypeBuyXGetY : DiscountType := "buy_x_get_y".
Definition DiscountTypeFreeShipping : DiscountType := "free_shipping".

Module AppliedDiscount.
Record t : Type := mk {
  PromotionID : string;
  Code : string;
  Name : string;
  DiscountType : DiscountType;
  Amount : Money;
  AppliedToItems : list string
}.
End AppliedDiscount.

Module TaxLine.
Record t : Type := mk {
  Name : string;
  Rate : Float64.float64;
  Amount : Money;
  Jurisdiction : string
}.
End TaxLine.

(** Membership test of the [for ... range] loops over product ids. *)
Fixpoint containsID (ids : list string) (id : string) : bool :=
  match ids with
  | [] => false
  | x :: rest => if String.eqb x id then true else containsID rest id
  end.

Module Promotion.
Record t : Type := mk {
  ID : string;
  Code : string;
  Name : string;
  Description : string;
  DiscountType : DiscountType;
  Value : Float64.float64;
  MinPurchase : option Money;
  MaxDiscount : option Money;
  ValidFrom : Z;
  ValidTo : Z;
  IsActive : bool;
  UsageLimit : Z;
  UsageCount : Z;
  ApplicableProductIDs : list string;
  ApplicableCategoryIDs : list string;
  ExcludedProductIDs : list string
}.

Definition IsValid (p : t) (at_ : Z) : bool :=
  if negb (IsActive p) then false
  else if (at_ <? ValidFrom p) || (ValidTo p <? at_) then false
  else if (0 <? UsageLimit p) && (UsageLimit p <=? UsageCount p) then false
  else true.

Definition CanApplyToProduct (p : t) (productID : string) : bool :=
  if containsID (ExcludedProductIDs p) productID then false
  else if (0 <? length (ApplicableProductIDs p))%nat
       then containsID (ApplicableProductIDs p) productID
       else true.
End Promotion.

Module PricingResult.
Record t : Type := mk {
  Subtotal : Money;
  DiscountTotal : Money;
  TaxTotal : Money;
  ShippingTotal : Money;
  Total : Money;
  LineItemPrices : list LineItemPrice.t;
  AppliedDiscounts : list AppliedDiscount.t;
  TaxLines : list TaxLine.t;
  Currency : string;
  CalculatedAt : Z
}.
End PricingResult.

Module Address.
Record t : Type := mk {
  Country : string;
  State : string;
  City : string;
  PostalCode : string
}.
End Address.

Module PriceCartRequest.
Record t : Type := mk {
  Cart : option cart.Cart.t;
  PromotionCodes : list string;
  ShippingMethodID : option string;
  ShippingAddress : option Address.t;
  TaxInclusive : bool
}.
End PriceCartRequest.

(** The [PromotionRepository] interface, as far as the service calls
    it: a promotion, or the error of the lookup. *)
Record PromotionRepository : Type := mkPromotionRepository {
  FindByCode : string -> Promotion.t + error
}.

(** [PricingService]: an absent collaborator (a nil interface) is
    [None]. *)
Record PricingService : Type := mkPricingService {
  promotionRepo : PromotionRepository;
  taxCalculator : option tax.Calculator;
  shippingCalc : option shipping.RateCalculator
}.

(** *** Conversions *)

Definition toLineItem (item : cart.CartItem.t) : LineItem.t :=
  LineItem.mk (cart.CartItem.ID item) (cart.CartItem.ProductID item)
    (cart.CartItem.VariantID item) (cart.CartItem.SKU item)
    (cart.CartItem.Name item) (cart.CartItem.Price item)
    (cart.CartItem.Quantity item) (cart.CartItem.Attributes item).

Definition convertToShippingItems (items : list LineItem.t)
    : list shipping.ShippableItem.t := [].

Definition convertToShippingAddress (addr : option Address.t)
    : shipping.Address.t :=
  match addr with
  | None => shipping.Address.empty
  | Some a =>
      shipping.Address.mk (Address.Country a) (Address.State a)
        (Address.City a) (Address.PostalCode a)
  end.

(** [convertToTaxableItems]: the item at index [i] is paired with
    [prices[i]]; both slices have the same length at the only call. *)
Fixpoint convertToTaxableItems (items : list LineItem.t)
    (prices : list LineItemPrice.t) : list tax.TaxableItem.t :=
  match items, prices with
  | item :: items', price :: prices' =>
      tax.TaxableItem.mk (LineItem.ID item) (LineItemPrice.Subtotal price)
        (LineItem.Quantity item) "" false
        :: convertToTaxableItems items' prices'
  | _, _ => []
  end.

Definition convertToTaxAddress (addr : option Address.t) : tax.Address.t :=
  match addr with
  | None => tax.Address.empty
  | Some a =>
      tax.Address.mk (Address.Country a) (Address.State a)
        (Address.City a) (Address.PostalCode a) ""
  end.

Definition convertTaxLines (result : tax.CalculationResult.t)
    : list TaxLine.t :=
  map (fun rate =>
         TaxLine.mk (tax.AppliedTaxRate.Name rate)
           (tax.AppliedTaxRate.Rate rate) (tax.AppliedTaxRate.Amount rate)
           (tax.AppliedTaxRate.Jurisdiction rate))
      (tax.CalculationResult.TaxRates result).

(** *** Promotions *)

(** The discount of one line under one promotion: the body of the loop
    of [calculateDiscount] up to the cap at [MaxDiscount].  The variable
    [itemDiscount] starts as the zero value and only the percentage and
    fixed-amount cases of the [switch] assign it. *)
Definition itemDiscount (promotion : Promotion.t) (currency : string)
    (price : LineItemPrice.t) : Money :=
  let d :=
    if String.eqb (Promotion.DiscountType promotion) DiscountTypePercentage
    then Multiply (LineItemPrice.Subtotal price) (Promotion.Value promotion)
    else if String.eqb (Promotion.DiscountType promotion)
              DiscountTypeFixedAmount
    then fst (money.New (Float64.to_int64 (Promotion.Value promotion))
                currency)
    else money.empty in
  match Promotion.MaxDiscount promotion with
  | Some maxDiscount =>
      if fst (GreaterThan d maxDiscount) then maxDiscount else d
  | None => d
  end.

(** State of the loop of [calculateDiscount]: the price lines (mutated
    in place by the source), the running total and the ids of the lines
    the promotion applied to. *)
Definition discountState : Type :=
  (list LineItemPrice.t * Money * list string)%type.

(** The loop over [lineItems], at index [i].  The source reads and
    writes [lineItemPrices[i]], which panics when [i] is out of range;
    every caller passes slices of equal length (see
    [PriceCart_prices_length]) and the embedding leaves the state
    unchanged in that unreachable case. *)
Fixpoint calculateDiscount_loop (promotion : Promotion.t)
    (currency : string) (items : list LineItem.t) (i : nat)
    (st : discountState) : discountState :=
  match items with
  | [] => st
  | item :: rest =>
      let '(prices, totalDiscount, appliedToItems) := st in
      let st' :=
        if negb (Promotion.CanApplyToProduct promotion
                   (LineItem.ProductID item))
        then st
        else
          match prices !! i with
          | None => st
          | Some price =>
              let d := itemDiscount promotion currency price in
              (<[ i := LineItemPrice.set_DiscountAmount
                         (fst (Add (LineItemPrice.DiscountAmount price) d))
                         price ]> prices,
               fst (Add totalDiscount d),
               appliedToItems ++ [LineItem.ID item])
          end in
      calculateDiscount_loop promotion currency rest (S i) st'
  end.

(** [calculateDiscount] returns the applied discount (nil when there is
    none) and leaves its effect in [lineItemPrices]. *)
Definition calculateDiscount (promotion : Promotion.t)
    (lineItems : list LineItem.t) (lineItemPrices : list LineItemPrice.t)
    : option AppliedDiscount.t * list LineItemPrice.t :=
  match lineItems with
  | [] => (None, lineItemPrices)
  | first :: _ =>
      let currency := Currency (LineItem.UnitPrice first) in
      let '(prices, totalDiscount, appliedToItems) :=
        calculateDiscount_loop promotion currency lineItems 0
          (lineItemPrices, Zero currency, []) in
      if IsZero totalDiscount then (None, prices)
      else
        (Some (AppliedDiscount.mk (Promotion.ID promotion)
                 (Promotion.Code promotion) (Promotion.Name promotion)
                 (Promotion.DiscountType promotion) totalDiscount
                 appliedToItems),
         prices)
  end.

(** One iteration of the loop of [applyPromotions] over the codes. *)
Definition applyPromotion (s : PricingService) (now : Z)
    (lineItems : list LineItem.t) (code : string)
    (st : list AppliedDiscount.t * list LineItemPrice.t)
    : list AppliedDiscount.t * list LineItemPrice.t :=
  let '(appliedDiscounts, prices) := st in
  match FindByCode (promotionRepo s) code with
  | inr _ => st
  | inl promotion =>
      if negb (Promotion.IsValid promotion now) then st
      else
        let '(discount, prices') :=
          calculateDiscount promotion lineItems prices in
        match discount with
        | Some d => (appliedDiscounts ++ [d], prices')
        | None => (appliedDiscounts, prices')
        end
  end.

Fixpoint applyPromotions_loop (s : PricingService) (now : Z)
    (lineItems : list LineItem.t) (codes : list string)
    (st : list AppliedDiscount.t * list LineItemPrice.t)
    : list AppliedDiscount.t * list LineItemPrice.t :=
  match codes with
  | [] => st
  | code :: rest =>
      applyPromotions_loop s now lineItems rest
        (applyPromotion s now lineItems code st)
  end.

(** [applyPromotions]: the applied discounts, the error (always nil)
    and the price lines after the in-place updates. *)
Definition applyPromotions (s : PricingService) (now : Z)
    (lineItems : list LineItem.t) (lineItemPrices : list LineItemPrice.t)
    (codes : list string)
    : list AppliedDiscount.t * option error * list LineItemPrice.t :=
  let '(appliedDiscounts, prices) :=
    applyPromotions_loop s now lineItems codes ([], lineItemPrices) in
  (appliedDiscounts, None, prices).

(** [ValidatePromotion]. *)
Definition ValidatePromotion (s : PricingService) (now : Z) (code : string)
    (cartTotal : Money) : option Promotion.t * option error :=
  match FindByCode (promotionRepo s) code with
  | inr err => (None, Some err)
  | inl promotion =>
      if negb (Promotion.IsValid promotion now)
      then (None, Some ErrPromotionInvalid)
      else
        match Promotion.MinPurchase promotion with
        | Some minPurchase =>
            let isGreater := fst (GreaterThan cartTotal minPurchase) in
            if negb isGreater then (None, Some ErrMinPurchaseNotMet)
            else (Some promotion, None)
        | None => (Some promotion, None)
        end
  end.

(** *** PriceCart *)

(** The initial price line of an item: its undiscounted subtotal. *)
Definition initialPrice (currency : string) (item : LineItem.t)
    : LineItemPrice.t :=
  let itemSubtotal :=
    MultiplyInt (LineItem.UnitPrice item) (LineItem.Quantity item) in
  LineItemPrice.mk (LineItem.ID item) itemSubtotal (Zero currency)
    (Zero currency) itemSubtotal.

(** The subtotal loop: [subtotal, _ = subtotal.Add(itemSubtotal)]. *)
Fixpoint subtotalLoop (items : list LineItem.t) (subtotal : Money) : Money :=
  match items with
  | [] => subtotal
  | item :: rest =>
      subtotalLoop rest
        (fst (Add subtotal
                (MultiplyInt (LineItem.UnitPrice item)
                   (LineItem.Quantity item))))
  end.

(** [discountTotal, _ = discountTotal.Add(discount.Amount)]. *)
Fixpoint discountTotalLoop (discounts : list AppliedDiscount.t)
    (discountTotal : Money) : Money :=
  match discounts with
  | [] => discountTotal
  | discount :: rest =>
      discountTotalLoop rest
        (fst (Add discountTotal (AppliedDiscount.Amount discount)))
  end.

(** The shipping step. *)
Definition shippingStep (s : PricingService) (currency : string)
    (lineItems : list LineItem.t) (req : PriceCartRequest.t) : Money :=
  match PriceCartRequest.ShippingMethodID req, shippingCalc s with
  | Some methodID, Some calc =>
      match
        shipping.GetRate calc
          (shipping.RateRequest.mk (convertToShippingItems lineItems)
             shipping.Address.empty
             (convertToShippingAddress (PriceCartRequest.ShippingAddress req))
             methodID)
      with
      | (Some shippingRate, None) => shipping.ShippingRate.Cost shippingRate
      | _ => Zero currency
      end
  | _, _ => Zero currency
  end.

(** The request handed to the tax calculator. *)
Definition taxRequest (lineItems : list LineItem.t)
    (lineItemPrices : list LineItemPrice.t) (shippingTotal : Money)
    (req : PriceCartRequest.t) : tax.CalculationRequest.t :=
  tax.CalculationRequest.mk
    (convertToTaxableItems lineItems lineItemPrices)
    shippingTotal
    (convertToTaxAddress (PriceCartRequest.ShippingAddress req))
    (PriceCartRequest.TaxInclusive req).

(** The loop that copies the line taxes of the result, at index [i]. *)
Fixpoint updateLineTaxes (taxes : list tax.LineItemTax.t) (i : nat)
    (prices : list LineItemPrice.t) : list LineItemPrice.t :=
  match taxes with
  | [] => prices
  | taxLine :: rest =>
      updateLineTaxes rest (S i)
        (if (i <? length prices)%nat
         then alter (LineItemPrice.set_TaxAmount
                       (tax.LineItemTax.TaxAmount taxLine)) i prices
         else prices)
  end.

(** The tax step: the tax lines, the tax total and the price lines. *)
Definition taxStep (s : PricingService) (currency : string)
    (lineItems : list LineItem.t) (lineItemPrices : list LineItemPrice.t)
    (shippingTotal : Money) (req : PriceCartRequest.t)
    : list TaxLine.t * Money * list LineItemPrice.t :=
  match PriceCartRequest.ShippingAddress req, taxCalculator s with
  | Some _, Some calc =>
      match
        tax.Calculate calc
          (taxRequest lineItems lineItemPrices shippingTotal req)
      with
      | inl taxResult =>
          (convertTaxLines taxResult,
           tax.CalculationResult.TotalTax taxResult,
           updateLineTaxes (tax.CalculationResult.LineItemTaxes taxResult)
             0 lineItemPrices)
      | inr _ => ([], Zero currency, lineItemPrices)
      end
  | _, _ => ([], Zero currency, lineItemPrices)
  end.

(** The final total of one line. *)
Definition lineTotal (p : LineItemPrice.t) : LineItemPrice.t :=
  let itemTotal := LineItemPrice.Subtotal p in
  let itemTotal := fst (Subtract itemTotal (LineItemPrice.DiscountAmount p)) in
  let itemTotal := fst (Add itemTotal (LineItemPrice.TaxAmount p)) in
  LineItemPrice.set_Total itemTotal p.

Definition PriceCart (s : PricingService) (now : Z)
    (req : PriceCartRequest.t) : option PricingResult.t * option error :=
  match PriceCartRequest.Cart req with
  | None => (None, None)
  | Some c =>
      match cart.Cart.Items c with
      | [] => (None, None)
      | first :: _ =>
          let lineItems := map toLineItem (cart.Cart.Items c) in
          let currency := Currency (cart.CartItem.Price first) in
          let subtotal := subtotalLoop lineItems (Zero currency) in
          let lineItemPrices := map (initialPrice currency) lineItems in
          let '(appliedDiscounts, err, lineItemPrices) :=
            applyPromotions s now lineItems lineItemPrices
              (PriceCartRequest.PromotionCodes req) in
          match err with
          | Some e => (None, Some e)
          | None =>
              let discountTotal :=
                discountTotalLoop appliedDiscounts (Zero currency) in
              let shippingTotal := shippingStep s currency lineItems req in
              let '(taxLines, taxTotal, lineItemPrices) :=
                taxStep s currency lineItems lineItemPrices shippingTotal
                  req in
              let subtotalAfterDiscount :=
                fst (Subtract subtotal discountTotal) in
              let total := subtotalAfterDiscount in
              let total := fst (Add total taxTotal) in
              let total := fst (Add total shippingTotal) in
              let lineItemPrices := map lineTotal lineItemPrices in
              (Some (PricingResult.mk subtotal discountTotal taxTotal
                       shippingTotal total lineItemPrices appliedDiscounts
                       taxLines currency now),
               None)
          end
      end
  end.

(** *** PriceLineItems *)

Module PriceLineItemsRequest.
Record t : Type := mk {
  Items : list LineItem.t;
  PromotionCodes : list string;
  ShippingCost : option Money;
  ShippingAddress : option Address.t;
  TaxInclusive : bool
}.
End PriceLineItemsRequest.

(** The cart item [convertLineItemsToCartItems] makes of a line item;
    [AddedAt] is left at its zero value, written [0]. *)
Definition toCartItem (item : LineItem.t) : cart.CartItem.t :=
  cart.CartItem.mk (LineItem.ID item) (LineItem.ProductID item)
    (LineItem.VariantID item) (LineItem.SKU item) (LineItem.Name item)
    (LineItem.UnitPrice item) (LineItem.Quantity item)
    (LineItem.Attributes item) 0.

Definition convertLineItemsToCartItems (items : list LineItem.t)
    : list cart.CartItem.t :=
  map toCartItem items.

(** [PriceLineItems] prices a cart made of the items; the fields of the
    cart and of the request that the source leaves out have their zero
    value. *)
Definition PriceLineItems (s : PricingService) (now : Z)
    (req : PriceLineItemsRequest.t)
    : option PricingResult.t * option error :=
  PriceCart s now
    (PriceCartRequest.mk
       (Some (cart.Cart.mk "" "" ""
                (convertLineItemsToCartItems (PriceLineItemsRequest.Items req))
                0 0 None))
       (PriceLineItemsRequest.PromotionCodes req)
       None
       (PriceLineItemsRequest.ShippingAddress req)
       (PriceLineItemsRequest.TaxInclusive req)).

End pricing.

(** ** Package inventory *)

Module inventory.

(** The [Service] interface, as far as the order service calls it.  The
    service is stateful: [S] is the state of an implementation, and each
    call returns its error and the new state. *)
Record Service (S : Type) : Type := mkService {
  Reserve : string -> Z -> string -> S -> option error * S;
  Release : string -> Z -> string -> S -> option error * S
}.
Arguments mkService {S} _ _.
Arguments Reserve {S} _ _ _ _ _.
Arguments Release {S} _ _ _ _ _.

(** The [Service] interface, as far as the cart service calls it: the
    stock available for a SKU, or the error of the lookup. *)
Record Reader (S : Type) : Type := mkReader {
  GetAvailableStock : string -> S -> Z * option error
}.
Arguments mkReader {S} _.
Arguments GetAvailableStock {S} _ _ _.

End inventory.

(** ** Package payments *)

Module payments.

Definition IntentStatus : Type := string.
Definition IntentStatusPending : IntentStatus := "pending".
Definition IntentStatusRequiresAction : IntentStatus := "requires_action".
Definition IntentStatusProcessing : IntentStatus := "processing".
Definition IntentStatusSucceeded : IntentStatus := "succeeded".
Definition IntentStatusCanceled : IntentStatus := "canceled".
Definition IntentStatusFailed : IntentStatus := "failed".

Module PaymentIntent.
Record t : Type := mk {
  ID : string;
  Amount : Money;
  Currency : string;
  Status : IntentStatus;
  PaymentMethodID : string;
  OrderID : string;
  Description : string;
  CapturedAmount : Money
}.

Definition IsRefundable (pi : t) : bool :=
  String.eqb (Status pi) IntentStatusSucceeded
  && negb (IsZero (CapturedAmount pi)).

Definition IsCancelable (pi : t) : bool :=
  String.eqb (Status pi) IntentStatusPending
  || String.eqb (Status pi) IntentStatusRequiresAction.
End PaymentIntent.

Module IntentRequest.
Record t : Type := mk {
  Amount : Money;
  Currency : string;
  PaymentMethodID : string;
  OrderID : string;
  Description : string
}.
End IntentRequest.

(** The [Gateway] interface, as far as the order service calls it, over
    the state [G] of an implementation. *)
Record Gateway (G : Type) : Type := mkGateway {
CreateIntent : IntentRequest.t -> G -> (PaymentIntent.t + error) * G
}.
Arguments mkGateway {G} _.
Arguments CreateIntent {G} _ _ _.

End payments.

(** ** Package orders *)

Module orders.

Definition OrderStatus : Type := string.
Definition OrderStatusPending : OrderStatus := "pending".
Definition OrderStatusPaid : OrderStatus := "paid".
Definition OrderStatusProcessing : OrderStatus := "processing".
Definition OrderStatusShipped : OrderStatus := "shipped".
Definition OrderStatusDelivered : OrderStatus := "delivered".
Definition OrderStatusCanceled : OrderStatus := "canceled".
Definition OrderStatusRefunded : OrderStatus := "refunded".

Module Address.
Record t : Type := mk {
  FirstName : string;
  LastName : string;
  Company : string;
  AddressLine1 : string;
  AddressLine2 : string;
  City : string;
  State : string;
  PostalCode : string;
  Country : string;
  Phone : string
}.

Definition nonEmpty (s : string) : bool := negb (String.eqb s "").

Definition IsComplete (a : t) : bool :=
  nonEmpty (FirstName a) && nonEmpty (LastName a)
  && nonEmpty (AddressLine1 a) && nonEmpty (City a)
  && nonEmpty (PostalCode a) && nonEmpty (Country a).
End Address.

Module OrderItem.
Record t : Type := mk {
  ID : string;
  ProductID : string;
  VariantID : option string;
  SKU : string;
  Name : string;
  UnitPrice : Money;
  Quantity : Z;
  DiscountAmount : Money;
  TaxAmount : Money;
  Total : Money;
  Attributes : gmap string string
}.
End OrderItem.

(** The transition table of [CanTransitionTo]. *)
Definition transitions : gmap OrderStatus (list OrderStatus) :=
  <[ OrderStatusPending := [OrderStatusPaid; OrderStatusCanceled] ]>
  (<[ OrderStatusPaid :=
        [OrderStatusProcessing; OrderStatusCanceled; OrderStatusRefunded] ]>
  (<[ OrderStatusProcessing := [OrderStatusShipped; OrderStatusCanceled] ]>
  (<[ OrderStatusShipped := [OrderStatusDelivered] ]>
  (<[ OrderStatusDelivered := [OrderStatusRefunded] ]> ∅)))).

(** The loop over the allowed transitions. *)
Fixpoint allowedLoop (allowedTransitions : list OrderStatus)
    (newStatus : OrderStatus) : bool :=
  match allowedTransitions with
  | [] => false
  | allowed :: rest =>
      if String.eqb allowed newStatus then true
      else allowedLoop rest newStatus
  end.

Module Order.
Record t : Type := mk {
  ID : string;
  OrderNumber : string;
  UserID : string;
  Status : OrderStatus;
  Items : list OrderItem.t;
  ShippingAddress : Address.t;
  BillingAddress : Address.t;
  PaymentMethodID : string;
  Subtotal : Money;
  DiscountTotal : Money;
  TaxTotal : Money;
  ShippingTotal : Money;
  Total : Money;
  Notes : string;
  IPAddress : string;
  UserAgent : string;
  CreatedAt : Z;
  UpdatedAt : Z;
  CompletedAt : option Z;
  CanceledAt : option Z
}.

Definition set_Status (v : OrderStatus) (o : t) : t :=
  mk (ID o) (OrderNumber o) (UserID o) v (Items o) (ShippingAddress o)
    (BillingAddress o) (PaymentMethodID o) (Subtotal o) (DiscountTotal o)
    (TaxTotal o) (ShippingTotal o) (Total o) (Notes o) (IPAddress o)
    (UserAgent o) (CreatedAt o) (UpdatedAt o) (CompletedAt o)
    (CanceledAt o).
Definition set_UpdatedAt (v : Z) (o : t) : t :=
  mk (ID o) (OrderNumber o) (UserID o) (Status o) (Items o)
    (ShippingAddress o) (BillingAddress o) (PaymentMethodID o)
    (Subtotal o) (DiscountTotal o) (TaxTotal o) (ShippingTotal o)
    (Total o) (Notes o) (IPAddress o) (UserAgent o) (CreatedAt o) v
    (CompletedAt o) (CanceledAt o).
Definition set_CompletedAt (v : option Z) (o : t) : t :=
  mk (ID o) (OrderNumber o) (UserID o) (Status o) (Items o)
    (ShippingAddress o) (BillingAddress o) (PaymentMethodID o)
    (Subtotal o) (DiscountTotal o) (TaxTotal o) (ShippingTotal o)
    (Total o) (Notes o) (IPAddress o) (UserAgent o) (CreatedAt o)
    (UpdatedAt o) v (CanceledAt o).
Definition set_CanceledAt (v : option Z) (o : t) : t :=
  mk (ID o) (OrderNumber o) (UserID o) (Status o) (Items o)
    (ShippingAddress o) (BillingAddress o) (PaymentMethodID o)
    (Subtotal o) (DiscountTotal o) (TaxTotal o) (ShippingTotal o)
    (Total o) (Notes o) (IPAddress o) (UserAgent o) (CreatedAt o)
    (UpdatedAt o) (CompletedAt o) v.
Definition set_Notes (v : string) (o : t) : t :=
  mk (ID o) (OrderNumber o) (UserID o) (Status o) (Items o)
    (ShippingAddress o) (BillingAddress o) (PaymentMethodID o)
    (Subtotal o) (DiscountTotal o) (TaxTotal o) (ShippingTotal o)
    (Total o) v (IPAddress o) (UserAgent o) (CreatedAt o)
    (UpdatedAt o) (CompletedAt o) (CanceledAt o).

Definition CanTransitionTo (o : t) (newStatus : OrderStatus) : bool :=
  match transitions !! Status o with
  | None => false
  | Some allowedTransitions => allowedLoop allowedTransitions newStatus
  end.

(** [UpdateStatus] mutates its receiver: the result is the returned
    boolean and the order afterwards. *)
Definition UpdateStatus (now : Z) (o : t) (newStatus : OrderStatus)
    : bool * t :=
  if negb (CanTransitionTo o newStatus) then (false, o)
  else
    let o := set_Status newStatus o in
    let o := set_UpdatedAt now o in
    let o := if String.eqb newStatus OrderStatusDelivered
             then set_CompletedAt (Some now) o else o in
    let o := if String.eqb newStatus OrderStatusCanceled
             then set_CanceledAt (Some now) o else o in
    (true, o).

Definition IsCancelable (o : t) : bool :=
  String.eqb (Status o) OrderStatusPending
  || String.eqb (Status o) OrderStatusPaid
  || String.eqb (Status o) OrderStatusProcessing.

Definition IsRefundable (o : t) : bool :=
  String.eqb (Status o) OrderStatusPaid
  || String.eqb (Status o) OrderStatusDelivered.

(** [ItemCount]: [count += item.Quantity] over the items. *)
Definition ItemCount (o : t) : Z :=
  fold_left (fun count item => Int64.add count (OrderItem.Quantity item))
    (Items o) 0.
End Order.

(** The [Repository] interface, as far as the order service calls it,
    over the state [R] of an implementation. *)
Record Repository (R : Type) : Type := mkRepository {
  FindByID : string -> R -> Order.t + error;
  Save : Order.t -> R -> option error * R
}.
Arguments mkRepository {R} _ _.
Arguments FindByID {R} _ _ _.
Arguments Save {R} _ _ _.

Module CreateOrderRequest.
Record t : Type := mk {
  Cart : option cart.Cart.t;
  UserID : string;
  ShippingAddress : Address.t;
  BillingAddress : Address.t;
  PaymentMethodID : string;
  PromotionCodes : list string;
  ShippingMethodID : string;
  Notes : string;
  IPAddress : string;
  UserAgent : string
}.
End CreateOrderRequest.

(** *** The order service *)

Section Service.

(** States of the repository, of the inventory service and of the
    payment gateway. *)
Context {R I G : Type}.

(** [OrderService]: an absent collaborator (a nil interface) is
    [None].  The pricing collaborator is the pricing service above.
    The two generators are closures with hidden state in the source:
    here the [n]-th call returns the [n]-th element of a stream. *)
Record OrderService : Type := mkOrderService {
  repo : Repository R;
  pricingService : pricing.PricingService;
  inventoryService : option (inventory.Service I);
  paymentGateway : option (payments.Gateway G);
  orderNumberGen : nat -> string;
  idGenerator : nat -> string
}.

(** Everything a call can change. *)
Record World : Type := mkWorld {
  repoState : R;
  inventoryState : I;
  gatewayState : G;
  idCalls : nat;
  orderNumberCalls : nat
}.

Definition set_repoState (v : R) (w : World) : World :=
  mkWorld v (inventoryState w) (gatewayState w) (idCalls w)
    (orderNumberCalls w).
Definition set_inventoryState (v : I) (w : World) : World :=
  mkWorld (repoState w) v (gatewayState w) (idCalls w)
    (orderNumberCalls w).
Definition set_gatewayState (v : G) (w : World) : World :=
  mkWorld (repoState w) (inventoryState w) v (idCalls w)
    (orderNumberCalls w).

(** A call of [s.idGenerator()]. *)
Definition nextID (s : OrderService) (w : World) : string * World :=
  (idGenerator s (idCalls w),
   mkWorld (repoState w) (inventoryState w) (gatewayState w)
     (S (idCalls w)) (orderNumberCalls w)).

(** A call of [s.orderNumberGen()]. *)
Definition nextOrderNumber (s : OrderService) (w : World)
    : string * World :=
  (orderNumberGen s (orderNumberCalls w),
   mkWorld (repoState w) (inventoryState w) (gatewayState w)
     (idCalls w) (S (orderNumberCalls w))).

(** [rollbackInventory]: one [Release] call with an empty SKU and a
    zero quantity, its error dropped. *)
Definition rollbackInventory (s : OrderService) (reservationID : string)
    (w : World) : World :=
  match inventoryService s with
  | Some inv =>
      set_inventoryState
        (snd (inventory.Release inv "" 0 reservationID
                (inventoryState w))) w
  | None => w
  end.

(** The reservation loop over the cart items. *)
Fixpoint reserveLoop (s : OrderService) (inv : inventory.Service I)
    (reservationID : string) (items : list cart.CartItem.t) (w : World)
    : option error * World :=
  match items with
  | [] => (None, w)
  | item :: rest =>
      match
        inventory.Reserve inv (cart.CartItem.SKU item)
          (cart.CartItem.Quantity item) reservationID (inventoryState w)
      with
      | (Some err, i') =>
          (Some err,
           rollbackInventory s reservationID (set_inventoryState i' w))
      | (None, i') =>
          reserveLoop s inv reservationID rest (set_inventoryState i' w)
      end
  end.

Definition reserveInventory (s : OrderService)
    (items : list cart.CartItem.t) (w : World) : option error * World :=
  match inventoryService s with
  | Some inv =>
      let '(reservationID, w) := nextID s w in
      reserveLoop s inv reservationID items w
  | None => (None, w)
  end.

(** The zero value of [pricing.LineItemPrice]. *)
Definition zeroLineItemPrice : pricing.LineItemPrice.t :=
  pricing.LineItemPrice.mk "" money.empty money.empty money.empty
    money.empty.

(** The loop that builds the order items, at index [i]. *)
Fixpoint createOrderItems (s : OrderService)
    (pricingResult : pricing.PricingResult.t)
    (items : list cart.CartItem.t) (i : nat) (w : World)
    : list OrderItem.t * World :=
  match items with
  | [] => ([], w)
  | cartItem :: rest =>
      let itemPrice :=
        match pricing.PricingResult.LineItemPrices pricingResult !! i with
        | Some p => p
        | None => zeroLineItemPrice
        end in
      let '(id, w) := nextID s w in
      let orderItem :=
        OrderItem.mk id (cart.CartItem.ProductID cartItem)
          (cart.CartItem.VariantID cartItem) (cart.CartItem.SKU cartItem)
          (cart.CartItem.Name cartItem) (cart.CartItem.Price cartItem)
          (cart.CartItem.Quantity cartItem)
          (pricing.LineItemPrice.DiscountAmount itemPrice)
          (pricing.LineItemPrice.TaxAmount itemPrice)
          (pricing.LineItemPrice.Total itemPrice)
          (cart.CartItem.Attributes cartItem) in
      let '(orderItems, w) :=
        createOrderItems s pricingResult rest (S i) w in
      (orderItem :: orderItems, w)
  end.

(** The intent requested from the gateway for an order. *)
Definition intentRequest (req : CreateOrderRequest.t) (order : Order.t)
    : payments.IntentRequest.t :=
  payments.IntentRequest.mk (Order.Total order)
    (Currency (Order.Total order))
    (CreateOrderRequest.PaymentMethodID req) (Order.ID order)
    ("Order " +:+ Order.OrderNumber order).

(** The payment step, once the order is saved. *)
Definition processPayment (s : OrderService) (now : Z)
    (req : CreateOrderRequest.t) (order : Order.t) (w : World)
    : (option Order.t * option error) * World :=
  match paymentGateway s with
  | None => ((Some order, None), w)
  | Some gateway =>
      match
        payments.CreateIntent gateway (intentRequest req order)
          (gatewayState w)
      with
      | (inr _, g') => ((None, Some ErrPaymentFailed), set_gatewayState g' w)
      | (inl intent, g') =>
          let w := set_gatewayState g' w in
          if String.eqb (payments.PaymentIntent.Status intent)
               payments.IntentStatusSucceeded
          then
            let order := snd (Order.UpdateStatus now order OrderStatusPaid) in
            let w := set_repoState (snd (Save (repo s) order (repoState w))) w in
            ((Some order, None), w)
          else ((Some order, None), w)
      end
  end.

(** The order as it is first saved: its items, its id and its number are
    generated in this order, and its status is pending. *)
Definition buildOrder (s : OrderService) (now : Z)
    (req : CreateOrderRequest.t) (billingAddress : Address.t)
    (pricingResult : pricing.PricingResult.t)
    (items : list cart.CartItem.t) (w : World) : Order.t * World :=
  let '(orderItems, w) := createOrderItems s pricingResult items 0 w in
  let '(id, w) := nextID s w in
  let '(orderNumber, w) := nextOrderNumber s w in
  (Order.mk id orderNumber (CreateOrderRequest.UserID req)
     OrderStatusPending orderItems
     (CreateOrderRequest.ShippingAddress req)
     billingAddress
     (CreateOrderRequest.PaymentMethodID req)
     (pricing.PricingResult.Subtotal pricingResult)
     (pricing.PricingResult.DiscountTotal pricingResult)
     (pricing.PricingResult.TaxTotal pricingResult)
     (pricing.PricingResult.ShippingTotal pricingResult)
     (pricing.PricingResult.Total pricingResult)
     (CreateOrderRequest.Notes req)
     (CreateOrderRequest.IPAddress req)
     (CreateOrderRequest.UserAgent req)
     now now None None,
   w).

(** The billing address: the shipping address when the one given is
    incomplete. *)
Definition billingAddressOf (req : CreateOrderRequest.t) : Address.t :=
  if negb (Address.IsComplete (CreateOrderRequest.BillingAddress req))
  then CreateOrderRequest.ShippingAddress req
  else CreateOrderRequest.BillingAddress req.

(** The request sent to the pricing service. *)
Definition pricingRequest (req : CreateOrderRequest.t)
    : pricing.PriceCartRequest.t :=
  pricing.PriceCartRequest.mk (CreateOrderRequest.Cart req)
    (CreateOrderRequest.PromotionCodes req)
    (Some (CreateOrderRequest.ShippingMethodID req))
    (Some (pricing.Address.mk
             (Address.Country (CreateOrderRequest.ShippingAddress req))
             (Address.State (CreateOrderRequest.ShippingAddress req))
             (Address.City (CreateOrderRequest.ShippingAddress req))
             (Address.PostalCode (CreateOrderRequest.ShippingAddress req))))
    false.

Definition CreateFromCart (s : OrderService) (now : Z)
    (req : CreateOrderRequest.t) (w : World)
    : (option Order.t * option error) * World :=
  match CreateOrderRequest.Cart req with
  | None => ((None, Some ErrEmptyCart), w)
  | Some c =>
      if cart.Cart.IsEmpty c then ((None, Some ErrEmptyCart), w)
      else if negb (Address.IsComplete
                      (CreateOrderRequest.ShippingAddress req))
      then ((None, Some ErrInvalidAddress), w)
      else
        let billingAddress := billingAddressOf req in
        match pricing.PriceCart (pricingService s) now (pricingRequest req)
        with
        | (_, Some err) => ((None, Some err), w)
        | (None, None) =>
            (* Not reached: the cart is not empty, so the pricing
               service returns a result. *)
            ((None, None), w)
        | (Some pricingResult, None) =>
            match reserveInventory s (cart.Cart.Items c) w with
            | (Some err, w) => ((None, Some err), w)
            | (None, w) =>
                let '(order, w) :=
                  buildOrder s now req billingAddress pricingResult
                    (cart.Cart.Items c) w in
                match Save (repo s) order (repoState w) with
                | (Some err, r') => ((None, Some err), set_repoState r' w)
                | (None, r') =>
                    processPayment s now req order (set_repoState r' w)
                end
            end
        end
  end.

(** [OrderService.UpdateStatus]. *)
Definition UpdateStatus (s : OrderService) (now : Z) (orderID : string)
    (status : OrderStatus) (w : World)
    : (option Order.t * option error) * World :=
  match FindByID (repo s) orderID (repoState w) with
  | inr err => ((None, Some err), w)
  | inl order =>
      let '(ok, order) := Order.UpdateStatus now order status in
      if negb ok then ((None, Some ErrInvalidStatus), w)
      else
        match Save (repo s) order (repoState w) with
        | (Some err, r') => ((None, Some err), set_repoState r' w)
        | (None, r') => ((Some order, None), set_repoState r' w)
        end
  end.

(** The release loop of [CancelOrder]: one [Release] per order item,
    under the order id, errors dropped. *)
Fixpoint releaseLoop (inv : inventory.Service I) (orderID : string)
    (items : list OrderItem.t) (i : I) : I :=
  match items with
  | [] => i
  | item :: rest =>
      releaseLoop inv orderID rest
        (snd (inventory.Release inv (OrderItem.SKU item)
                (OrderItem.Quantity item) orderID i))
  end.

(** [OrderService.CancelOrder]. *)
Definition CancelOrder (s : OrderService) (now : Z) (orderID : string)
    (reason : string) (w : World)
    : (option Order.t * option error) * World :=
  match FindByID (repo s) orderID (repoState w) with
  | inr err => ((None, Some err), w)
  | inl order =>
      if negb (Order.IsCancelable order)
      then ((None, Some (ErrOther "order cannot be canceled")), w)
      else
        let w :=
          match inventoryService s with
          | Some inv =>
              set_inventoryState
                (releaseLoop inv (Order.ID order) (Order.Items order)
                   (inventoryState w)) w
          | None => w
          end in
        let order := snd (Order.UpdateStatus now order OrderStatusCanceled) in
        let order :=
          Order.set_Notes
            (Order.Notes order +:+ String (Ascii.ascii_of_nat 10) "Canceled: "
               +:+ reason) order in
        match Save (repo s) order (repoState w) with
        | (Some err, r') => ((None, Some err), set_repoState r' w)
        | (None, r') => ((Some order, None), set_repoState r' w)
        end
  end.

(** [OrderService.GetOrder]. *)
Definition GetOrder (s : OrderService) (id : string) (w : World)
    : Order.t + error :=
  FindByID (repo s) id (repoState w).

End Service.

Arguments OrderService : clear implicits.
Arguments World : clear implicits.

End orders.

(** ** Package cart: the cart service *)

Module CartService.

(** The sentinel errors of the package, each made by [errors.New]. *)
Definition ErrCartNotFound : error := ErrOther "cart not found".
Definition ErrItemNotFound : error := ErrOther "item not found".
Definition ErrInvalidQuantity : error := ErrOther "invalid quantity".
Definition ErrOutOfStock : error := ErrOther "product out of stock".

(** [time.Hour], in nanoseconds; the instants of the cart service are
    counted in nanoseconds. *)
Definition Hour : Z := 3600000000000.

Section Service.

(** States of the cart repository and of the inventory service. *)
Context {C I : Type}.

(** [CartService]: an absent inventory service (a nil interface) is
    [None]; the [n]-th call of the id generator returns the [n]-th
    element of a stream. *)
Record t : Type := mk {
  repo : cart.Repository C;
  productRepo : catalog.ProductRepository.t;
  variantRepo : catalog.VariantRepository.t;
  inventoryService : option (inventory.Reader I);
  idGenerator : nat -> string
}.

(** Everything a call can change or read besides its arguments. *)
Record World : Type := mkWorld {
  repoState : C;
  inventoryState : I;
  idCalls : nat
}.

Definition set_repoState (v : C) (w : World) : World :=
  mkWorld v (inventoryState w) (idCalls w).

(** A call of [s.idGenerator()]. *)
Definition nextID (s : t) (w : World) : string * World :=
  (idGenerator s (idCalls w),
   mkWorld (repoState w) (inventoryState w) (S (idCalls w))).

(** The end of every operation: [s.repo.Save(ctx, cart)]. *)
Definition save (s : t) (c : cart.Cart.t) (w : World)
    : (option cart.Cart.t * option error) * World :=
  match cart.Save (repo s) c (repoState w) with
  | (Some err, r') => ((None, Some err), set_repoState r' w)
  | (None, r') => ((Some c, None), set_repoState r' w)
  end.

Definition GetCart (s : t) (cartID : string) (w : World)
    : cart.Cart.t + error :=
  cart.FindByID (repo s) cartID (repoState w).

Definition GetOrCreateCart (s : t) (now : Z) (userID sessionID : string)
    (w : World) : (option cart.Cart.t * option error) * World :=
  let lookup :=
    if negb (String.eqb userID "")
    then Some (cart.FindByUserID (repo s) userID (repoState w))
    else if negb (String.eqb sessionID "")
    then Some (cart.FindBySessionID (repo s) sessionID (repoState w))
    else None in
  match lookup with
  | None => ((None, Some (ErrOther "userID or sessionID required")), w)
  | Some (Some c, None) => ((Some c, None), w)
  | Some _ =>
      let expiresAt := now + 30 * 24 * Hour in
      let '(id, w) := nextID s w in
      save s (cart.Cart.mk id userID sessionID [] now now (Some expiresAt)) w
  end.

(** The stock check of [AddItem] and [UpdateItemQuantity]: true when the
    service is there, answers without error and reports less than
    [quantity]. *)
Definition outOfStock (s : t) (sku : string) (quantity : Z) (w : World)
    : bool :=
  match inventoryService s with
  | Some inv =>
      match inventory.GetAvailableStock inv sku (inventoryState w) with
      | (available, None) => available <? quantity
      | (_, Some _) => false
      end
  | None => false
  end.

(** The SKU and the price of the line to add: those of the variant when
    the request names one, those of the product otherwise. *)
Definition skuAndPrice (s : t) (req : cart.AddItemRequest.t)
    (product : catalog.Product.t) : (string * Money) + error :=
  match cart.AddItemRequest.VariantID req with
  | Some variantID =>
      match catalog.VariantRepository.FindByID (variantRepo s) variantID with
      | inr err => inr err
      | inl variant =>
          if negb (catalog.Variant.IsAvailable variant)
          then inr (ErrOther "variant not available")
          else inl (catalog.Variant.SKU variant, catalog.Variant.Price variant)
      end
  | None =>
      inl (catalog.Product.SKU product, catalog.Product.BasePrice product)
  end.

(** [AddItem].  [aliased] is the aliasing of the variant pointer of the
    request with those of the lines of the cart (see [cart.Cart.AddItem]). *)
Definition AddItem (s : t) (now : Z) (aliased : nat -> bool)
    (cartID : string) (req : cart.AddItemRequest.t) (w : World)
    : (option cart.Cart.t * option error) * World :=
  if cart.AddItemRequest.Quantity req <=? 0
  then ((None, Some ErrInvalidQuantity), w)
  else
    match cart.FindByID (repo s) cartID (repoState w) with
    | inr err => ((None, Some err), w)
    | inl c =>
        match
          catalog.ProductRepository.FindByID (productRepo s)
            (cart.AddItemRequest.ProductID req)
        with
        | inr err => ((None, Some err), w)
        | inl product =>
            if negb (catalog.Product.IsActive product)
            then ((None, Some (ErrOther "product not available")), w)
            else
              match skuAndPrice s req product with
              | inr err => ((None, Some err), w)
              | inl (sku, price) =>
                  if outOfStock s sku (cart.AddItemRequest.Quantity req) w
                  then ((None, Some ErrOutOfStock), w)
                  else
                    let '(id, w) := nextID s w in
                    let item :=
                      cart.CartItem.mk id (cart.AddItemRequest.ProductID req)
                        (cart.AddItemRequest.VariantID req) sku
                        (catalog.Product.Name product) price
                        (cart.AddItemRequest.Quantity req)
                        (cart.AddItemRequest.Attributes req) now in
                    save s (cart.Cart.AddItem now aliased item c) w
              end
        end
    end.

Definition UpdateItemQuantity (s : t) (now : Z) (cartID itemID : string)
    (quantity : Z) (w : World)
    : (option cart.Cart.t * option error) * World :=
  match cart.FindByID (repo s) cartID (repoState w) with
  | inr err => ((None, Some err), w)
  | inl c =>
      match cart.Cart.FindItem c itemID with
      | None => ((None, Some ErrItemNotFound), w)
      | Some item =>
          if (cart.CartItem.Quantity item <? quantity)
             && outOfStock s (cart.CartItem.SKU item) quantity w
          then ((None, Some ErrOutOfStock), w)
          else
            save s (snd (cart.Cart.UpdateItemQuantity now itemID quantity c)) w
      end
  end.

Definition RemoveItem (s : t) (now : Z) (cartID itemID : string) (w : World)
    : (option cart.Cart.t * option error) * World :=
  match cart.FindByID (repo s) cartID (repoState w) with
  | inr err => ((None, Some err), w)
  | inl c =>
      let '(ok, c) := cart.Cart.RemoveItem now itemID c in
      if negb ok then ((None, Some ErrItemNotFound), w)
      else save s c w
  end.

Definition Clear (s : t) (now : Z) (cartID : string) (w : World)
    : (option cart.Cart.t * option error) * World :=
  match cart.FindByID (repo s) cartID (repoState w) with
  | inr err => ((None, Some err), w)
  | inl c => save s (cart.Cart.Clear now c) w
  end.

(** [MergeCarts], for two different carts.  The error of [Delete] is
    dropped. *)
Definition MergeCarts (s : t) (now : Z) (aliased : nat -> nat -> bool)
    (sourceCartID targetCartID : string) (w : World)
    : (option cart.Cart.t * option error) * World :=
  match cart.FindByID (repo s) sourceCartID (repoState w) with
  | inr err => ((None, Some err), w)
  | inl sourceCart =>
      match cart.FindByID (repo s) targetCartID (repoState w) with
      | inr err => ((None, Some err), w)
      | inl targetCart =>
          let targetCart := cart.Cart.Merge now aliased sourceCart targetCart in
          match cart.Save (repo s) targetCart (repoState w) with
          | (Some err, r') => ((None, Some err), set_repoState r' w)
          | (None, r') =>
              ((Some targetCart, None),
               set_repoState (snd (cart.Delete (repo s) sourceCartID r')) w)
          end
      end
  end.

End Service.

Arguments t : clear implicits.
Arguments World : clear implicits.

End CartService.

(** * Definitions used by the statements *)

(** The sum of a list, as a mathematical integer. *)
Definition zsum (l : list Z) : Z := fold_right Z.add 0 l.

(** How many of the [k] iterations of [Allocate_loop] from index [i] on
    get the extra unit. *)
Definition extras (remainder i : Z) (k : nat) : Z :=
  Z.max 0 (Z.min (remainder - i) (Z.of_nat k)).

(** The directed edges of the order life cycle, as the specification
    lists them. *)
Inductive listed_edge : orders.OrderStatus -> orders.OrderStatus -> Prop :=
  | edge_pending_paid : listed_edge "pending" "paid"
  | edge_pending_canceled : listed_edge "pending" "canceled"
  | edge_paid_processing : listed_edge "paid" "processing"
  | edge_paid_canceled : listed_edge "paid" "canceled"
  | edge_paid_refunded : listed_edge "paid" "refunded"
  | edge_processing_shipped : listed_edge "processing" "shipped"
  | edge_processing_canceled : listed_edge "processing" "canceled"
  | edge_shipped_delivered : listed_edge "shipped" "delivered"
  | edge_delivered_refunded : listed_edge "delivered" "refunded".

(** ** The promotion loop, line by line

    [calculateDiscount_loop] walks the items by index and updates the
    price lines in place.  The same computation, read off the two lists
    side by side. *)

(** The price line of [item] after the promotion. *)
Definition discountLine (promotion : pricing.Promotion.t) (currency : string)
    (item : pricing.LineItem.t) (price : pricing.LineItemPrice.t)
    : pricing.LineItemPrice.t :=
  if pricing.Promotion.CanApplyToProduct promotion (pricing.LineItem.ProductID item)
  then
    pricing.LineItemPrice.set_DiscountAmount
      (fst (Add (pricing.LineItemPrice.DiscountAmount price)
              (pricing.itemDiscount promotion currency price)))
      price
  else price.

Fixpoint discountLines (promotion : pricing.Promotion.t) (currency : string)
    (items : list pricing.LineItem.t) (prices : list pricing.LineItemPrice.t)
    : list pricing.LineItemPrice.t :=
  match items, prices with
  | item :: items', price :: prices' =>
      discountLine promotion currency item price
        :: discountLines promotion currency items' prices'
  | _, _ => prices
  end.

(** The running total of the promotion over the lines. *)
Fixpoint discountSum (promotion : pricing.Promotion.t) (currency : string)
    (items : list pricing.LineItem.t) (prices : list pricing.LineItemPrice.t)
    (totalDiscount : Money) : Money :=
  match items, prices with
  | item :: items', price :: prices' =>
      discountSum promotion currency items' prices'
        (if pricing.Promotion.CanApplyToProduct promotion
              (pricing.LineItem.ProductID item)
         then fst (Add totalDiscount
                     (pricing.itemDiscount promotion currency price))
         else totalDiscount)
  | _, _ => totalDiscount
  end.

(** The ids of the lines the promotion applies to. *)
Fixpoint discountIDs (promotion : pricing.Promotion.t)
    (items : list pricing.LineItem.t) : list string :=
  match items with
  | [] => []
  | item :: items' =>
      if pricing.Promotion.CanApplyToProduct promotion
           (pricing.LineItem.ProductID item)
      then pricing.LineItem.ID item :: discountIDs promotion items'
      else discountIDs promotion items'
  end.

(** The loop that copies the line taxes, read off the two lists side by
    side. *)
Fixpoint taxedLines (taxes : list tax.LineItemTax.t)
    (prices : list pricing.LineItemPrice.t) : list pricing.LineItemPrice.t :=
  match taxes, prices with
  | taxLine :: taxes', price :: prices' =>
      pricing.LineItemPrice.set_TaxAmount (tax.LineItemTax.TaxAmount taxLine) price
        :: taxedLines taxes' prices'
  | _, _ => prices
  end.

(** The applied discount of a promotion whose running total is
    [totalDiscount]. *)
Definition appliedDiscountOf (promotion : pricing.Promotion.t)
    (items : list pricing.LineItem.t) (totalDiscount : Money)
    : option pricing.AppliedDiscount.t :=
  if IsZero totalDiscount then None
  else Some (pricing.AppliedDiscount.mk (pricing.Promotion.ID promotion)
               (pricing.Promotion.Code promotion)
               (pricing.Promotion.Name promotion)
               (pricing.Promotion.DiscountType promotion) totalDiscount
               (discountIDs promotion items)).

(** The minor units of a list of applied discounts. *)
Definition discountAmounts (discounts : list pricing.AppliedDiscount.t)
    : list Z :=
  map (fun d => Amount (pricing.AppliedDiscount.Amount d)) discounts.

(** ** What PriceCart hands to its collaborators *)

(** The line items, the currency and the undiscounted price lines of a
    cart. *)
Definition cartLines (items : list cart.CartItem.t) : list pricing.LineItem.t :=
  map pricing.toLineItem items.

Definition cartCurrency (items : list cart.CartItem.t) : string :=
  match items with
  | first :: _ => Currency (cart.CartItem.Price first)
  | [] => ""
  end.

Definition undiscountedPrices (items : list cart.CartItem.t)
    : list pricing.LineItemPrice.t :=
  map (pricing.initialPrice (cartCurrency items)) (cartLines items).

(** The applied discounts and the price lines once every code has been
    processed. *)
Definition afterPromotions (s : pricing.PricingService) (now : Z)
    (items : list cart.CartItem.t) (codes : list string)
    : list pricing.AppliedDiscount.t * list pricing.LineItemPrice.t :=
  pricing.applyPromotions_loop s now (cartLines items) codes
    ([], undiscountedPrices items).

(** The result of [PriceCart] on a cart with the items [items], step by
    step (see [PriceCart_nonempty]). *)
Definition pricedResult (s : pricing.PricingService) (now : Z)
    (req : pricing.PriceCartRequest.t) (items : list cart.CartItem.t)
    : pricing.PricingResult.t :=
  let currency := cartCurrency items in
  let promoted :=
    afterPromotions s now items (pricing.PriceCartRequest.PromotionCodes req) in
  let subtotal := pricing.subtotalLoop (cartLines items) (Zero currency) in
  let discountTotal := pricing.discountTotalLoop (fst promoted) (Zero currency) in
  let shippingTotal := pricing.shippingStep s currency (cartLines items) req in
  let taxed :=
    pricing.taxStep s currency (cartLines items) (snd promoted) shippingTotal
      req in
  pricing.PricingResult.mk subtotal discountTotal (snd (fst taxed)) shippingTotal
    (fst (Add (fst (Add (fst (Subtract subtotal discountTotal))
                      (snd (fst taxed))))
            shippingTotal))
    (map pricing.lineTotal (snd taxed)) (fst promoted) (fst (fst taxed))
    currency now.

(** The call of the shipping-rate calculator, when [PriceCart] makes
    one. *)
Definition shippingCall (s : pricing.PricingService)
    (req : pricing.PriceCartRequest.t)
    : option (shipping.RateCalculator * shipping.RateRequest.t) :=
  match pricing.PriceCartRequest.Cart req with
  | Some c =>
      match cart.Cart.Items c, pricing.PriceCartRequest.ShippingMethodID req,
            pricing.shippingCalc s with
      | _ :: _, Some methodID, Some calc =>
          Some (calc,
                shipping.RateRequest.mk
                  (pricing.convertToShippingItems (cartLines (cart.Cart.Items c)))
                  shipping.Address.empty
                  (pricing.convertToShippingAddress
                     (pricing.PriceCartRequest.ShippingAddress req))
                  methodID)
      | _, _, _ => None
      end
  | None => None
  end.

(** The call of the tax calculator, when [PriceCart] makes one. *)
Definition taxCall (s : pricing.PricingService) (now : Z)
    (req : pricing.PriceCartRequest.t)
    : option (tax.Calculator * tax.CalculationRequest.t) :=
  match pricing.PriceCartRequest.Cart req with
  | Some c =>
      match cart.Cart.Items c, pricing.PriceCartRequest.ShippingAddress req,
            pricing.taxCalculator s with
      | _ :: _, Some _, Some calc =>
          let items := cart.Cart.Items c in
          Some (calc,
                pricing.taxRequest (cartLines items)
                  (snd (afterPromotions s now items
                          (pricing.PriceCartRequest.PromotionCodes req)))
                  (pricing.shippingStep s (cartCurrency items) (cartLines items)
                     req)
                  req)
      | _, _, _ => None
      end
  | None => None
  end.

(** A promotion with its minimum purchase replaced, and a pricing
    service whose repository answers with such promotions. *)
Definition withMinPurchase (minPurchase : option Money)
    (p : pricing.Promotion.t) : pricing.Promotion.t :=
  pricing.Promotion.mk (pricing.Promotion.ID p) (pricing.Promotion.Code p)
    (pricing.Promotion.Name p) (pricing.Promotion.Description p)
    (pricing.Promotion.DiscountType p) (pricing.Promotion.Value p)
    minPurchase (pricing.Promotion.MaxDiscount p)
    (pricing.Promotion.ValidFrom p) (pricing.Promotion.ValidTo p)
    (pricing.Promotion.IsActive p) (pricing.Promotion.UsageLimit p)
    (pricing.Promotion.UsageCount p) (pricing.Promotion.ApplicableProductIDs p)
    (pricing.Promotion.ApplicableCategoryIDs p)
    (pricing.Promotion.ExcludedProductIDs p).

Definition overrideMinPurchase
    (f : pricing.Promotion.t -> option Money) (s : pricing.PricingService)
    : pricing.PricingService :=
  pricing.mkPricingService
    (pricing.mkPromotionRepository
       (fun code =>
          match pricing.FindByCode (pricing.promotionRepo s) code with
          | inl p => inl (withMinPurchase (f p) p)
          | inr e => inr e
          end))
    (pricing.taxCalculator s) (pricing.shippingCalc s).

(** The taxable item [PriceCart] makes of a cart line: the amount is the
    undiscounted subtotal of the line, the quantity of the line is passed
    beside it, and [TaxCode] and [IsTaxable] are left at their zero
    values. *)
Definition taxableItemOf (item : cart.CartItem.t) : tax.TaxableItem.t :=
  tax.TaxableItem.mk (cart.CartItem.ID item)
    (MultiplyInt (cart.CartItem.Price item) (cart.CartItem.Quantity item))
    (cart.CartItem.Quantity item) "" false.

(** The amounts a tax request carries: the [Amount] fields of its items
    and its shipping cost, added up.  What a calculator taxes of them is
    its own affair. *)
Definition taxableAmount (q : tax.CalculationRequest.t) : Z :=
  Int64.add
    (Int64.sum (map (fun item => Amount (tax.TaxableItem.Amount item))
                  (tax.CalculationRequest.LineItems q)))
    (Amount (tax.CalculationRequest.ShippingCost q)).

(** The taxable amount the specification describes: subtotal minus
    discounts, plus shipping. *)
Definition discountedTaxableAmount (r : pricing.PricingResult.t) : Z :=
  Int64.add
    (Int64.sub (Amount (pricing.PricingResult.Subtotal r))
       (Amount (pricing.PricingResult.DiscountTotal r)))
    (Amount (pricing.PricingResult.ShippingTotal r)).

(** The line taxes the tax calculator reports to [PriceCart]: none when
    it is not called or fails. *)
Definition reportedLineTaxes (s : pricing.PricingService) (now : Z)
    (req : pricing.PriceCartRequest.t) : list tax.LineItemTax.t :=
  match taxCall s now req with
  | Some (calc, q) =>
      match tax.Calculate calc q with
      | inl taxResult => tax.CalculationResult.LineItemTaxes taxResult
      | inr _ => []
      end
  | None => []
  end.

Definition lineTaxAmounts (taxes : list tax.LineItemTax.t) : list Z :=
  map (fun t => Amount (tax.LineItemTax.TaxAmount t)) taxes.

(** What [n] price lines get of the reported line taxes: the amounts are
    copied by position, a line past the reported ones keeps zero, and the
    reported ones past the lines are dropped. *)
Definition copiedLineTaxes (n : nat) (reported : list tax.LineItemTax.t)
    : list Z :=
  take n (lineTaxAmounts reported) ++ replicate (n - length reported) 0.

(** The discount of one promotion code when it is valid, computed on the
    price lines [prices]. *)
Definition codeDiscount (s : pricing.PricingService) (now : Z)
    (lineItems : list pricing.LineItem.t)
    (prices : list pricing.LineItemPrice.t) (code : string)
    : option pricing.AppliedDiscount.t :=
  match pricing.FindByCode (pricing.promotionRepo s) code with
  | inl promotion =>
      if pricing.Promotion.IsValid promotion now
      then fst (pricing.calculateDiscount promotion lineItems prices)
      else None
  | inr _ => None
  end.

(** The discount of one promotion code on its own, computed on the
    undiscounted price lines of the cart. *)
Definition independentDiscount (s : pricing.PricingService) (now : Z)
    (items : list cart.CartItem.t) (code : string)
    : option pricing.AppliedDiscount.t :=
  codeDiscount s now (cartLines items) (undiscountedPrices items) code.

(** A promotion whose discount type [calculateDiscount] computes. *)
Definition supported (promotion : pricing.Promotion.t) : Prop :=
  pricing.Promotion.DiscountType promotion = pricing.DiscountTypePercentage
  \/ pricing.Promotion.DiscountType promotion = pricing.DiscountTypeFixedAmount.

(** Every valid promotion among the codes is a supported one. *)
Definition promotionsSupported (s : pricing.PricingService) (now : Z)
    (codes : list string) : Prop :=
  forall (code : string) (p : pricing.Promotion.t),
    In code codes ->
    pricing.FindByCode (pricing.promotionRepo s) code = inl p ->
    pricing.Promotion.IsValid p now = true ->
    supported p.

(** Money in the currency [cur]. *)
Definition inCurrency (cur : string) (m : Money) : Prop := Currency m = cur.

(** A price line all of whose amounts are in the currency [cur]. *)
Definition lineInCurrency (cur : string) (q : pricing.LineItemPrice.t) : Prop :=
  inCurrency cur (pricing.LineItemPrice.Subtotal q)
  /\ inCurrency cur (pricing.LineItemPrice.DiscountAmount q)
  /\ inCurrency cur (pricing.LineItemPrice.TaxAmount q).

(** The minor units of the line discounts, line taxes and line totals. *)
Definition lineDiscounts (prices : list pricing.LineItemPrice.t) : list Z :=
  map (fun p => Amount (pricing.LineItemPrice.DiscountAmount p)) prices.
Definition lineTaxes (prices : list pricing.LineItemPrice.t) : list Z :=
  map (fun p => Amount (pricing.LineItemPrice.TaxAmount p)) prices.
Definition lineTotals (prices : list pricing.LineItemPrice.t) : list Z :=
  map (fun p => Amount (pricing.LineItemPrice.Total p)) prices.
Definition lineSubtotals (prices : list pricing.LineItemPrice.t) : list Z :=
  map (fun p => Amount (pricing.LineItemPrice.Subtotal p)) prices.

(** ** Repeated addition *)

(** [n] additions of [m], starting from zero in the currency of [m]. *)
Fixpoint addTimes (n : nat) (m : Money) : Money :=
  match n with
  | O => Zero (Currency m)
  | S n' => fst (Add (addTimes n' m) m)
  end.

(** ** The order life cycle, update after update *)

(** The statuses an order takes under a sequence of [UpdateStatus]
    calls, each at its own instant: the targets of the calls that
    succeed. *)
Fixpoint statusHistory (o : orders.Order.t)
    (updates : list (Z * orders.OrderStatus)) : list orders.OrderStatus :=
  match updates with
  | [] => []
  | (now, target) :: rest =>
      let '(ok, o') := orders.Order.UpdateStatus now o target in
      if ok then target :: statusHistory o' rest else statusHistory o' rest
  end.

(** How far a status is along the life cycle: the longest path from
    pending; a status outside the table has no way out, like the last
    one. *)
Definition statusRank (st : orders.OrderStatus) : nat :=
  if String.eqb st orders.OrderStatusPending then 0
  else if String.eqb st orders.OrderStatusPaid then 1
  else if String.eqb st orders.OrderStatusProcessing then 2
  else if String.eqb st orders.OrderStatusShipped then 3
  else if String.eqb st orders.OrderStatusCanceled then 3
  else if String.eqb st orders.OrderStatusDelivered then 4
  else 5.

(** ** What the order service asks of the inventory *)

(** The inventory after the [Reserve] calls of the reservation loop, one
    per cart line and all under the reservation id. *)
Fixpoint reservedUnder {I : Type} (inv : inventory.Service I)
    (reservationID : string) (items : list cart.CartItem.t) (st : I) : I :=
  match items with
  | [] => st
  | item :: rest =>
      reservedUnder inv reservationID rest
        (snd (inventory.Reserve inv (cart.CartItem.SKU item)
                (cart.CartItem.Quantity item) reservationID st))
  end.

(** Whether every [Reserve] call of the reservation loop over [items],
    from the inventory [st] on, returns without error. *)
Fixpoint allReserved {I : Type} (inv : inventory.Service I)
    (reservationID : string) (items : list cart.CartItem.t) (st : I) : bool :=
  match items with
  | [] => true
  | item :: rest =>
      match
        inventory.Reserve inv (cart.CartItem.SKU item)
          (cart.CartItem.Quantity item) reservationID st
      with
      | (None, st') => allReserved inv reservationID rest st'
      | (Some _, _) => false
      end
  end.

(** An order as [CancelOrder] saves it. *)
Definition canceledOrder (now : Z) (reason : string) (o : orders.Order.t)
    : orders.Order.t :=
  orders.Order.set_Notes
    (orders.Order.Notes o +:+ String (Ascii.ascii_of_nat 10) "Canceled: "
       +:+ reason)
    (orders.Order.set_CanceledAt (Some now)
       (orders.Order.set_UpdatedAt now
          (orders.Order.set_Status orders.OrderStatusCanceled o))).

(** The inventory after the [Release] calls of [CancelOrder]. *)
Definition releasedFor {R I G : Type} (s : orders.OrderService R I G)
    (o : orders.Order.t) (st : I) : I :=
  match orders.inventoryService s with
  | Some inv => orders.releaseLoop inv (orders.Order.ID o) (orders.Order.Items o) st
  | None => st
  end.

(** ** Promotion codes *)

(** Whether [applyPromotions] processes a code: its promotion is found
    and valid now. *)
Definition validCode (s : pricing.PricingService) (now : Z) (code : string)
    : bool :=
  match pricing.FindByCode (pricing.promotionRepo s) code with
  | inl promotion => pricing.Promotion.IsValid promotion now
  | inr _ => false
  end.

(** A request with its promotion codes replaced. *)
Definition withCodes (codes : list string) (req : pricing.PriceCartRequest.t)
    : pricing.PriceCartRequest.t :=
  pricing.PriceCartRequest.mk (pricing.PriceCartRequest.Cart req) codes
    (pricing.PriceCartRequest.ShippingMethodID req)
    (pricing.PriceCartRequest.ShippingAddress req)
    (pricing.PriceCartRequest.TaxInclusive req).

(** ** Cart lines *)

(** Everything of a cart line but its quantity. *)
Definition lineIdentity (item : cart.CartItem.t)
    : string * string * option string * string * string * Money
      * gmap string string * Z :=
  (cart.CartItem.ID item, cart.CartItem.ProductID item,
   cart.CartItem.VariantID item, cart.CartItem.SKU item,
   cart.CartItem.Name item, cart.CartItem.Price item,
   cart.CartItem.Attributes item, cart.CartItem.AddedAt item).

(** The quantities of the lines. *)
Definition quantities (items : list cart.CartItem.t) : list Z :=
  map cart.CartItem.Quantity items.

(** A line of the product of [item] with no variant. *)
Definition plainLineOf (item existing : cart.CartItem.t) : Prop :=
  cart.CartItem.ProductID existing = cart.CartItem.ProductID item
  /\ cart.CartItem.VariantID existing = None.

(** The search loops of [FindItem], [RemoveItem] and
    [UpdateItemQuantity], read off the list: the first line with the id,
    the lines without it, and the lines with its quantity replaced. *)
Fixpoint lineWithID (items : list cart.CartItem.t) (itemID : string)
    : option cart.CartItem.t :=
  match items with
  | [] => None
  | item :: rest =>
      if String.eqb (cart.CartItem.ID item) itemID then Some item
      else lineWithID rest itemID
  end.

Fixpoint withoutLine (items : list cart.CartItem.t) (itemID : string)
    : list cart.CartItem.t :=
  match items with
  | [] => []
  | item :: rest =>
      if String.eqb (cart.CartItem.ID item) itemID then rest
      else item :: withoutLine rest itemID
  end.

Fixpoint withQuantity (items : list cart.CartItem.t) (itemID : string)
    (quantity : Z) : list cart.CartItem.t :=
  match items with
  | [] => []
  | item :: rest =>
      if String.eqb (cart.CartItem.ID item) itemID
      then cart.CartItem.set_Quantity quantity item :: rest
      else item :: withQuantity rest itemID quantity
  end.

(** ** Outcomes of the cart service *)

(** An outcome of an operation of the cart service that ends by saving
    the cart.  It holds either a cart or an error; a cart returned is the
    cart that was saved; an error leaves everything as it was unless it is
    the error of the save. *)
Definition savedOrUntouched {C I : Type} (s : CartService.t C I)
    (w : CartService.World C I)
    (out : (option cart.Cart.t * option error) * CartService.World C I)
    : Prop :=
  match out with
  | ((Some c, None), w') =>
      cart.Save (CartService.repo s) c (CartService.repoState w)
      = (None, CartService.repoState w')
  | ((None, Some err), w') =>
      w' = w
      \/ exists c : cart.Cart.t,
           cart.Save (CartService.repo s) c (CartService.repoState w)
           = (Some err, CartService.repoState w')
  | _ => False
  end.

(** The line [CartService.AddItem] makes of a request for a product
    without variant. *)
Definition requestedLine {C I : Type} (s : CartService.t C I) (now : Z)
    (req : cart.AddItemRequest.t) (product : catalog.Product.t)
    (w : CartService.World C I) : cart.CartItem.t :=
  cart.CartItem.mk (CartService.idGenerator s (CartService.idCalls w))
    (cart.AddItemRequest.ProductID req) None (catalog.Product.SKU product)
    (catalog.Product.Name product) (catalog.Product.BasePrice product)
    (cart.AddItemRequest.Quantity req) (cart.AddItemRequest.Attributes req)
    now.

(** The cart [GetOrCreateCart] makes when it finds none. *)
Definition freshCart {C I : Type} (s : CartService.t C I) (now : Z)
    (userID sessionID : string) (w : CartService.World C I) : cart.Cart.t :=
  cart.Cart.mk (CartService.idGenerator s (CartService.idCalls w)) userID
    sessionID [] now now (Some (now + 30 * 24 * CartService.Hour)).

(** The lookup of [GetOrCreateCart]: by user when there is a user id, by
    session otherwise. *)
Definition cartLookup {C I : Type} (s : CartService.t C I)
    (userID sessionID : string) (w : CartService.World C I)
    : option cart.Cart.t * option error :=
  if negb (String.eqb userID "")
  then cart.FindByUserID (CartService.repo s) userID (CartService.repoState w)
  else cart.FindBySessionID (CartService.repo s) sessionID
         (CartService.repoState w).

(** ** Sample collaborators

    Implementations of the collaborator interfaces, used to run the
    services on concrete inputs. *)

Module sample.

(** An order repository in memory: a map from order ids to orders.
    [Save] never fails. *)
Definition memRepository : orders.Repository (gmap string orders.Order.t) :=
  orders.mkRepository
    (fun id r =>
       match r !! id with
       | Some o => inl o
       | None => inr ErrOrderNotFound
       end)
    (fun o r => (None, <[ orders.Order.ID o := o ]> r)).

(** A repository whose [Save] fails and stores nothing. *)
Definition failingRepository : orders.Repository (gmap string orders.Order.t) :=
  orders.mkRepository
    (fun id r =>
       match r !! id with
       | Some o => inl o
       | None => inr ErrOrderNotFound
       end)
    (fun o r => (Some (ErrOther "database unavailable"), r)).

(** An inventory in memory: the stock on hand per SKU and the
    reservations held, each a SKU, a quantity and a reference id. *)
Record Stock : Type := mkStock {
  onHand : gmap string Z;
  held : list (string * Z * string)
}.

(** Units of [sku] under reservation. *)
Definition reserved (sku : string) (st : Stock) : Z :=
  zsum (map (fun r : string * Z * string =>
               if String.eqb (fst (fst r)) sku then snd (fst r) else 0)
          (held st)).

Definition available (sku : string) (st : Stock) : Z :=
  default 0 (onHand st !! sku) - reserved sku st.

(** [Reserve] holds the units when enough are available.  [Release]
    drops the reservations of the reference id for the SKU, and every
    reservation of the reference id when the SKU is empty. *)
Definition memInventory : inventory.Service Stock :=
  inventory.mkService
    (fun sku quantity referenceID st =>
       if available sku st <? quantity then (Some ErrInsufficientStock, st)
       else (None, mkStock (onHand st) (held st ++ [(sku, quantity, referenceID)])))
    (fun sku quantity referenceID st =>
       (None,
        mkStock (onHand st)
          (filter (fun r : string * Z * string =>
                     negb (String.eqb (snd r) referenceID
                           && (String.eqb sku "" || String.eqb (fst (fst r)) sku))
                     = true)
             (held st)))).

(** An inventory that releases per SKU only: [Release] drops the
    reservations of the reference id for exactly the SKU it is given, as
    [CancelOrder] calls it, so that a call with an empty SKU releases
    nothing. *)
Definition perSkuInventory : inventory.Service Stock :=
  inventory.mkService
    (inventory.Reserve memInventory)
    (fun sku quantity referenceID st =>
       (None,
        mkStock (onHand st)
          (filter (fun r : string * Z * string =>
                     negb (String.eqb (snd r) referenceID
                           && String.eqb (fst (fst r)) sku)
                     = true)
             (held st)))).

(** The reservations held under a reference id. *)
Definition heldUnder (referenceID : string) (st : Stock)
    : list (string * Z * string) :=
  filter (fun r : string * Z * string => String.eqb (snd r) referenceID = true)
    (held st).

(** A gateway that refuses every intent, and one that authorizes every
    intent.  The state counts the calls. *)
Definition decliningGateway : payments.Gateway nat :=
  payments.mkGateway
    (fun _ n => (inr (ErrOther "card declined"), S n)).

Definition acceptingGateway : payments.Gateway nat :=
  payments.mkGateway
    (fun req n =>
       (inl (payments.PaymentIntent.mk ("pi-" +:+ pretty n)
               (payments.IntentRequest.Amount req)
               (payments.IntentRequest.Currency req)
               payments.IntentStatusSucceeded
               (payments.IntentRequest.PaymentMethodID req)
               (payments.IntentRequest.OrderID req)
               (payments.IntentRequest.Description req)
               (payments.IntentRequest.Amount req)),
        S n)).

Definition idGenerator (n : nat) : string := "id-" +:+ pretty n.
Definition orderNumberGen (n : nat) : string := "ORD-" +:+ pretty n.

(** Promotions: ten percent off, five units of currency off, ten percent
    off above a minimum purchase of fifty, and a free-shipping code. *)
Definition promotion (code : string) (discountType : pricing.DiscountType)
    (value : Float64.float64) (minPurchase : option Money) : pricing.Promotion.t :=
  pricing.Promotion.mk ("promo-" +:+ code) code code "" discountType value
    minPurchase None 0 1000 true 0 0 [] [] [].

Definition promotions : pricing.PromotionRepository :=
  pricing.mkPromotionRepository
    (fun code =>
       if String.eqb code "SAVE10"
       then inl (promotion code pricing.DiscountTypePercentage
                   Float64.lit_0_10 None)
       else if String.eqb code "FIVEOFF"
       then inl (promotion code pricing.DiscountTypeFixedAmount
                   Float64.lit_500 None)
       else if String.eqb code "BIG10"
       then inl (promotion code pricing.DiscountTypePercentage
                   Float64.lit_0_10 (Some (mkMoney 5000 "USD")))
       else if String.eqb code "SHIPFREE"
       then inl (promotion code pricing.DiscountTypeFreeShipping
                   Float64.lit_0_10 None)
       else inr (ErrOther "promotion not found")).

(** [SimpleTaxCalculator] of the sample project, at the rate [rate]. *)
Fixpoint taxableSubtotal (items : list tax.TaxableItem.t) (subtotal : Money)
    : Money :=
  match items with
  | [] => subtotal
  | item :: rest =>
      taxableSubtotal rest
        (if tax.TaxableItem.IsTaxable item
         then fst (Add subtotal
                     (MultiplyInt (tax.TaxableItem.Amount item)
                        (tax.TaxableItem.Quantity item)))
         else subtotal)
  end.

Definition SimpleTaxCalculator (rate : Float64.float64) : tax.Calculator :=
  tax.mkCalculator
    (fun req =>
       let currency :=
         match tax.CalculationRequest.LineItems req with
         | first :: _ => Currency (tax.TaxableItem.Amount first)
         | [] => "USD"
         end in
       let subtotal :=
         taxableSubtotal (tax.CalculationRequest.LineItems req) (Zero currency) in
       let taxableAmount :=
         fst (Add subtotal (tax.CalculationRequest.ShippingCost req)) in
       let taxAmount := Multiply taxableAmount rate in
       let salesTax amount :=
         tax.AppliedTaxRate.mk "Sales Tax" rate amount
           (tax.Address.State (tax.CalculationRequest.Address req)) "sales" in
       inl (tax.CalculationResult.mk taxAmount [salesTax taxAmount]
              (map (fun item =>
                      if tax.TaxableItem.IsTaxable item
                      then
                        let itemTax :=
                          Multiply (MultiplyInt (tax.TaxableItem.Amount item)
                                      (tax.TaxableItem.Quantity item)) rate in
                        tax.LineItemTax.mk (tax.TaxableItem.ID item) itemTax
                          [salesTax itemTax]
                      else
                        tax.LineItemTax.mk (tax.TaxableItem.ID item)
                          (Zero currency) [])
                 (tax.CalculationRequest.LineItems req))
              (Multiply (tax.CalculationRequest.ShippingCost req) rate))).

(** The [float64] nearest to 0.08. *)
Definition lit_0_08 : Float64.float64 :=
  S754_finite false 5764607523034235 (-56).

(** A tax calculator that is out of service. *)
Definition failingTaxCalculator : tax.Calculator :=
  tax.mkCalculator (fun _ => inr (ErrOther "tax service unavailable")).

(** Shipping at a flat rate, and a rate service that is out of
    service. *)
Definition flatRate (cost : Money) : shipping.RateCalculator :=
  shipping.mkRateCalculator
    (fun req =>
       (Some (shipping.ShippingRate.mk (shipping.RateRequest.ShippingMethodID req)
                "Flat rate" cost 5 "post"),
        None)).

Definition failingRateCalculator : shipping.RateCalculator :=
  shipping.mkRateCalculator
    (fun _ => (None, Some (ErrOther "rate service unavailable"))).

(** Carts and requests. *)
Definition cartItem (id sku : string) (price : Money) (quantity : Z)
    : cart.CartItem.t :=
  cart.CartItem.mk id ("product-" +:+ sku) None sku sku price quantity ∅ 0.

Definition cartOf (items : list cart.CartItem.t) : cart.Cart.t :=
  cart.Cart.mk "cart-1" "user-1" "" items 0 0 None.

Definition address : orders.Address.t :=
  orders.Address.mk "Ada" "Lovelace" "" "12 St James Square" "" "London" ""
    "SW1Y 4JH" "GB" "".

Definition pricingAddress : pricing.Address.t :=
  pricing.Address.mk "GB" "" "London" "SW1Y 4JH".

Definition orderRequest (items : list cart.CartItem.t) (codes : list string)
    : orders.CreateOrderRequest.t :=
  orders.CreateOrderRequest.mk (Some (cartOf items)) "user-1" address address
    "pm-1" codes "standard" "" "" "".

Definition world {I G : Type} (i : I) (g : G)
    : orders.World (gmap string orders.Order.t) I G :=
  orders.mkWorld ∅ i g 0%nat 0%nat.

(** A pending order, stored under its id. *)
Definition order (id : string) (status : orders.OrderStatus) : orders.Order.t :=
  orders.Order.mk id "ORD-0" "user-1" status [] address address "pm-1"
    (Zero "USD") (Zero "USD") (Zero "USD") (Zero "USD") (Zero "USD") ""
    "" "" 0 0 None None.

(** Pricing services: with the sample tax calculator at 8% and flat
    shipping at ten units of currency, and without tax and shipping. *)
Definition pricingWithTaxAndShipping : pricing.PricingService :=
  pricing.mkPricingService promotions
    (Some (SimpleTaxCalculator lit_0_08))
    (Some (flatRate (mkMoney 1000 "USD"))).

Definition pricingOnly : pricing.PricingService :=
  pricing.mkPricingService promotions None None.

Definition priceRequest (items : list cart.CartItem.t) (codes : list string)
    : pricing.PriceCartRequest.t :=
  pricing.PriceCartRequest.mk (Some (cartOf items)) codes (Some "standard")
    (Some pricingAddress) false.

(** An order service over the repository [repo], with or without the
    inventory and the gateway. *)
Definition orderService {G : Type}
    (repo : orders.Repository (gmap string orders.Order.t))
    (inv : option (inventory.Service Stock))
    (gateway : option (payments.Gateway G))
    : orders.OrderService (gmap string orders.Order.t) Stock G :=
  orders.mkOrderService repo pricingOnly inv gateway orderNumberGen idGenerator.

(** A world whose repository holds one pending order. *)
Definition worldWithPendingOrder
    : orders.World (gmap string orders.Order.t) Stock nat :=
  orders.mkWorld {[ "o-1" := order "o-1" orders.OrderStatusPending ]}
    (mkStock ∅ []) 0%nat 0%nat 0%nat.

(** A cart of two lines, and stock for its two SKUs. *)
Definition twoLines : list cart.CartItem.t :=
  [cartItem "line-1" "A" (mkMoney 1000 "USD") 2;
   cartItem "line-2" "B" (mkMoney 500 "USD") 1].

Definition stock (a b : Z) : Stock :=
  mkStock (<[ "A" := a ]> (<[ "B" := b ]> ∅)) [].

(** A fixed-amount promotion of five units of currency whose maximum
    discount is three units. *)
Definition cappedPromotion : pricing.Promotion.t :=
  pricing.Promotion.mk "promo-CAP" "CAP" "CAP" "" pricing.DiscountTypeFixedAmount
    Float64.lit_500 None (Some (mkMoney 300 "USD")) 0 1000 true 0 0 [] [] [].

(** The order that [CreateFromCart] makes of the cart of two lines under
    the code for ten percent off, with stock for both lines and a gateway
    that authorizes the payment. *)
Definition createdOrder : orders.Order.t :=
  orders.Order.mk "id-3" "ORD-0" "user-1" orders.OrderStatusPaid
    [orders.OrderItem.mk "id-1" "product-A" None "A" "A" (mkMoney 1000 "USD") 2
       (mkMoney 200 "USD") (mkMoney 0 "USD") (mkMoney 1800 "USD") ∅;
     orders.OrderItem.mk "id-2" "product-B" None "B" "B" (mkMoney 500 "USD") 1
       (mkMoney 50 "USD") (mkMoney 0 "USD") (mkMoney 450 "USD") ∅]
    address address "pm-1" (mkMoney 2500 "USD") (mkMoney 250 "USD")
    (mkMoney 0 "USD") (mkMoney 0 "USD") (mkMoney 2250 "USD") "" "" "" 5 5
    None None.

(** A paid order of one item, stored under its id in a world where the
    stock of the item is held under the id of the order. *)
Definition reservedOrder : orders.Order.t :=
  orders.Order.mk "o-1" "ORD-0" "user-1" orders.OrderStatusPaid
    [orders.OrderItem.mk "i-1" "product-A" None "A" "A" (mkMoney 1000 "USD") 2
       (mkMoney 0 "USD") (mkMoney 0 "USD") (mkMoney 2000 "USD") ∅]
    address address "pm-1" (mkMoney 2000 "USD") (Zero "USD") (Zero "USD")
    (Zero "USD") (mkMoney 2000 "USD") "" "" "" 0 0 None None.

Definition worldWithReservedOrder
    : orders.World (gmap string orders.Order.t) Stock nat :=
  orders.mkWorld {[ "o-1" := reservedOrder ]}
    (mkStock ∅ [("A", 2, "o-1")]) 0%nat 0%nat 0%nat.

(** A cart repository in memory: a map from cart ids to carts.  The
    lookups by user and by session return the first cart of the map that
    matches, and neither a cart nor an error when there is none. *)
Definition firstCart (test : cart.Cart.t -> bool) (r : gmap string cart.Cart.t)
    : option cart.Cart.t * option error :=
  match List.find (fun kc => test (snd kc)) (map_to_list r) with
  | Some kc => (Some (snd kc), None)
  | None => (None, None)
  end.

Definition cartRepository : cart.Repository (gmap string cart.Cart.t) :=
  cart.mkRepository
    (fun id r =>
       match r !! id with
       | Some c => inl c
       | None => inr (ErrOther "cart not found")
       end)
    (fun userID => firstCart (fun c => String.eqb (cart.Cart.UserID c) userID))
    (fun sessionID =>
       firstCart (fun c => String.eqb (cart.Cart.SessionID c) sessionID))
    (fun c r => (None, <[ cart.Cart.ID c := c ]> r))
    (fun id r => (None, delete id r)).

(** A catalog of one active product without variants. *)
Definition productA : catalog.Product.t :=
  catalog.Product.mk "product-A" "A" "A" "" "" "" (mkMoney 1000 "USD")
    catalog.ProductStatusActive [] ∅ 0 0.

Definition products : catalog.ProductRepository.t :=
  catalog.ProductRepository.mk
    (fun id =>
       if String.eqb id "product-A" then inl productA
       else inr (ErrOther "product not found")).

Definition variants : catalog.VariantRepository.t :=
  catalog.VariantRepository.mk (fun _ => inr (ErrOther "variant not found")).

(** The stock available per SKU; a SKU it does not know is an error. *)
Definition stockReader : inventory.Reader (gmap string Z) :=
  inventory.mkReader
    (fun sku st =>
       match st !! sku with
       | Some available => (available, None)
       | None => (0, Some ErrInvalidSKU)
       end).

Definition cartService
    : CartService.t (gmap string cart.Cart.t) (gmap string Z) :=
  CartService.mk cartRepository products variants (Some stockReader)
    idGenerator.

(** A cart that holds four units of the product, stored under its id in
    a world where five units of the product are available. *)
Definition cartOfFour : cart.Cart.t :=
  cartOf [cartItem "line-1" "A" (mkMoney 1000 "USD") 4].

Definition cartWorld : CartService.World (gmap string cart.Cart.t) (gmap string Z) :=
  CartService.mkWorld {[ "cart-1" := cartOfFour ]} {[ "A" := 5 ]} 0%nat.

Definition addRequest (quantity : Z) : cart.AddItemRequest.t :=
  cart.AddItemRequest.mk "product-A" None quantity ∅.

(** A tax calculator that taxes every amount of the request at
    [percent] per cent, whatever its [IsTaxable] flag, and reports the tax
    on the shipping cost as one more line tax after those of the items. *)
Definition percentOf (percent : Z) (m : Money) : Money :=
  mkMoney (Int64.quo (Int64.mul (Amount m) percent) 100) (Currency m).

Definition percentTaxCalculator (percent : Z) : tax.Calculator :=
  tax.mkCalculator
    (fun req =>
       let lineTaxes :=
         map (fun item =>
                tax.LineItemTax.mk (tax.TaxableItem.ID item)
                  (percentOf percent (tax.TaxableItem.Amount item)) [])
           (tax.CalculationRequest.LineItems req) in
       let shippingTax :=
         percentOf percent (tax.CalculationRequest.ShippingCost req) in
       inl (tax.CalculationResult.mk
              (mkMoney
                 (Int64.sum
                    (map (fun t => Amount (tax.LineItemTax.TaxAmount t)) lineTaxes
                     ++ [Amount shippingTax]))
                 (Currency shippingTax))
              []
              (lineTaxes ++ [tax.LineItemTax.mk "shipping" shippingTax []])
              shippingTax)).

Definition pricingWithPercentTax : pricing.PricingService :=
  pricing.mkPricingService promotions (Some (percentTaxCalculator 1))
    (Some (flatRate (mkMoney 1000 "USD"))).

(** Ten percent off every product but product B, and ten percent off
    product A only. *)
Definition notProductB : pricing.Promotion.t :=
  pricing.Promotion.mk "promo-NOTB" "NOTB" "NOTB" "" pricing.DiscountTypePercentage
    Float64.lit_0_10 None None 0 1000 true 0 0 [] [] ["product-B"].

Definition onlyProductA : pricing.Promotion.t :=
  pricing.Promotion.mk "promo-ONLYA" "ONLYA" "ONLYA" ""
    pricing.DiscountTypePercentage Float64.lit_0_10 None None 0 1000 true 0 0
    ["product-A"] [] [].

Definition restrictedPromotions : pricing.PromotionRepository :=
  pricing.mkPromotionRepository
    (fun code =>
       if String.eqb code "NOTB" then inl notProductB
       else if String.eqb code "ONLYA" then inl onlyProductA
       else inr (ErrOther "promotion not found")).

Definition pricingWithRestrictions : pricing.PricingService :=
  pricing.mkPricingService restrictedPromotions None None.

End sample.

(** Congruence modulo [2 ^ 64], with the morphisms that rewriting under
    sums and differences needs. *)
Abbreviation eqm64 := (Zdiv.eqm Int64.modulus).

#[local] Instance eqm64_equiv : Equivalence eqm64 :=
  Zdiv.eqm_setoid Int64.modulus.
#[local] Instance eqm64_add : Proper (eqm64 ==> eqm64 ==> eqm64) Z.add :=
  Zdiv.Zplus_eqm Int64.modulus.
#[local] Instance eqm64_sub : Proper (eqm64 ==> eqm64 ==> eqm64) Z.sub :=
  Zdiv.Zminus_eqm Int64.modulus.
#[local] Instance eqm64_mul : Proper (eqm64 ==> eqm64 ==> eqm64) Z.mul :=
  Zdiv.Zmult_eqm Int64.modulus.

(** Closes a congruence modulo [2 ^ 64] whose two sides are equal as
    integers. *)
Ltac eqm_lia := unfold Zdiv.eqm; f_equal; lia.

(** * Properties *)

(** ** Arithmetic modulo [2 ^ 64] *)

Section Int64Facts.

Lemma wrap_eqm (z : Z) : eqm64 (Int64.wrap z) z.
Proof.
  unfold Zdiv.eqm, Int64.wrap, Int64.modulus.
  rewrite Zminus_mod, Zmod_mod, <- Zminus_mod. f_equal. lia.
Qed.

Lemma wrap_range (z : Z) : Int64.in_range (Int64.wrap z).
Proof.
  unfold Int64.in_range, Int64.wrap, Int64.min_int, Int64.max_int,
    Int64.modulus.
  pose proof (Z.mod_pos_bound (z + 2 ^ 63) (2 ^ 64) ltac:(lia)). lia.
Qed.

Lemma wrap_in_range (z : Z) : Int64.in_range z -> Int64.wrap z = z.
Proof.
  unfold Int64.in_range, Int64.wrap, Int64.min_int, Int64.max_int,
    Int64.modulus.
  intros H. rewrite Z.mod_small; lia.
Qed.

Lemma wrap_proper (a b : Z) : eqm64 a b -> Int64.wrap a = Int64.wrap b.
Proof.
  unfold Zdiv.eqm, Int64.wrap. intros H.
  rewrite (Zplus_mod a), (Zplus_mod b), H. reflexivity.
Qed.

Lemma fold_add_wrap (l : list Z) (a : Z) :
  fold_left Int64.add l (Int64.wrap a) = Int64.wrap (a + zsum l).
Proof.
  revert a. induction l as [| x l IH]; intros a; simpl.
  - f_equal. lia.
  - change (Int64.add (Int64.wrap a) x)
      with (Int64.wrap (Int64.wrap a + x)).
    rewrite IH. apply wrap_proper. setoid_rewrite wrap_eqm.
    eqm_lia.
Qed.

Lemma sum_wrap (l : list Z) : Int64.sum l = Int64.wrap (zsum l).
Proof.
  unfold Int64.sum. change 0 with (Int64.wrap 0) at 1.
  rewrite fold_add_wrap. reflexivity.
Qed.

Lemma zsum_app (l1 l2 : list Z) : zsum (l1 ++ l2) = zsum l1 + zsum l2.
Proof. induction l1 as [| x l1 IH]; simpl; lia. Qed.

End Int64Facts.

(** ** Money *)

Section MoneyFacts.

Lemma Add_same (a b : Money) :
  Currency a = Currency b ->
  Add a b = (mkMoney (Int64.add (Amount a) (Amount b)) (Currency a), None).
Proof. intros H. unfold Add. rewrite H, String.eqb_refl. reflexivity. Qed.

Lemma Subtract_same (a b : Money) :
  Currency a = Currency b ->
  Subtract a b
  = (mkMoney (Int64.sub (Amount a) (Amount b)) (Currency a), None).
Proof. intros H. unfold Subtract. rewrite H, String.eqb_refl. reflexivity. Qed.

Lemma Add_mismatch (a b : Money) :
  Currency a <> Currency b -> Add a b = (money.empty, Some ErrCurrencyMismatch).
Proof.
  intros H. unfold Add. apply String.eqb_neq in H. rewrite H. reflexivity.
Qed.

Lemma Subtract_mismatch (a b : Money) :
  Currency a <> Currency b ->
  Subtract a b = (money.empty, Some ErrCurrencyMismatch).
Proof.
  intros H. unfold Subtract. apply String.eqb_neq in H. rewrite H.
  reflexivity.
Qed.

Lemma GreaterThan_true (a b : Money) :
  fst (GreaterThan a b) = true <->
  Currency a = Currency b /\ Amount b < Amount a.
Proof.
  unfold GreaterThan.
  destruct (String.eqb_spec (Currency a) (Currency b)) as [E | E]; simpl.
  - rewrite Z.ltb_lt. tauto.
  - split; [discriminate | tauto].
Qed.

(** *** Allocate *)

Lemma Allocate_loop_length base remainder currency i k :
  length (Allocate_loop base remainder currency i k) = k.
Proof.
  revert i. induction k as [| k IH]; intros i; simpl; [| rewrite IH]; reflexivity.
Qed.

Lemma Allocate_loop_lookup base remainder currency i k (j : nat) :
  (j < k)%nat ->
  Allocate_loop base remainder currency i k !! j
  = Some (mkMoney (if i + Z.of_nat j <? remainder
                   then Int64.add base 1 else base) currency).
Proof.
  revert i j. induction k as [| k IH]; intros i j Hj; [lia |].
  destruct j as [| j]; cbn [Allocate_loop lookup list_lookup].
  - rewrite Z.add_0_r. reflexivity.
  - rewrite IH by lia.
    replace (i + 1 + Z.of_nat j) with (i + Z.of_nat (S j)) by lia.
    reflexivity.
Qed.

Lemma Allocate_loop_zsum base remainder currency i k :
  zsum (map Amount (Allocate_loop base remainder currency i k))
  = (Z.of_nat k - extras remainder i k) * base
    + extras remainder i k * Int64.add base 1.
Proof.
  revert i. induction k as [| k IH]; intros i.
  - unfold extras. simpl. lia.
  - cbn [Allocate_loop map zsum fold_right Amount].
    fold (zsum (map Amount (Allocate_loop base remainder currency (i + 1) k))).
    rewrite IH. unfold extras.
    destruct (Z.ltb_spec i remainder) as [Hlt | Hge].
    + replace (Z.max 0 (Z.min (remainder - i) (Z.of_nat (S k))))
        with (1 + Z.max 0 (Z.min (remainder - (i + 1)) (Z.of_nat k))) by lia.
      rewrite Nat2Z.inj_succ. ring.
    + replace (Z.max 0 (Z.min (remainder - i) (Z.of_nat (S k)))) with 0 by lia.
      replace (Z.max 0 (Z.min (remainder - (i + 1)) (Z.of_nat k))) with 0 by lia.
      rewrite Nat2Z.inj_succ. ring.
Qed.

(** For an amount that is not negative, [Allocate] splits into [n] parts
    that add up to the amount; the first [Amount m mod n] parts carry one
    unit more than the others. *)
Lemma Allocate_nonneg (m : Money) (n : Z) :
  0 <= Amount m -> Int64.in_range (Amount m) ->
  0 < n -> Int64.in_range n ->
  length (Allocate m n) = Z.to_nat n
  /\ money.total (Allocate m n) = Amount m
  /\ (forall (i : nat) (p : Money),
        Allocate m n !! i = Some p ->
        Currency p = Currency m
        /\ Amount p = Amount m / n
                      + (if Z.of_nat i <? Amount m mod n then 1 else 0))
  /\ (forall p q : Money,
        p ∈ Allocate m n -> q ∈ Allocate m n ->
        Z.abs (Amount p - Amount q) <= 1).
Proof.
  intros Hm Hr Hn Hnr.
  assert (Hq : Z.quot (Amount m) n = Amount m / n) by (apply Z.quot_div_nonneg; lia).
  assert (Hrem : Z.rem (Amount m) n = Amount m mod n) by (apply Z.rem_mod_nonneg; lia).
  pose proof (Z.mod_pos_bound (Amount m) n Hn) as Hmod.
  pose proof (Z.div_mod (Amount m) n ltac:(lia)) as Hdm.
  assert (Hdiv : 0 <= Amount m / n <= Amount m).
  { split; [apply Z.div_pos; lia |]. apply Z.div_le_upper_bound; nia. }
  assert (Hbase : Int64.quo (Amount m) n = Amount m / n).
  { unfold Int64.quo. rewrite Hq. apply wrap_in_range.
    unfold Int64.in_range, Int64.min_int in *. lia. }
  assert (Hadd : 0 < Amount m mod n ->
                 Int64.add (Amount m / n) 1 = Amount m / n + 1).
  { intros Hpos. apply wrap_in_range.
    unfold Int64.in_range, Int64.min_int, Int64.max_int in *.
    assert (2 <= n) by lia. nia. }
  unfold Allocate. destruct (Z.leb_spec n 0) as [? | _]; [lia |].
  rewrite Hbase. unfold Int64.rem. rewrite Hrem.
  assert (Hlook : forall (i : nat) (p : Money),
            Allocate_loop (Amount m / n) (Amount m mod n) (Currency m) 0
              (Z.to_nat n) !! i = Some p ->
            Currency p = Currency m
            /\ Amount p = Amount m / n
                          + (if Z.of_nat i <? Amount m mod n then 1 else 0)).
  { intros i p Hp.
    assert (Hi : (i < Z.to_nat n)%nat).
    { apply lookup_lt_Some in Hp. rewrite Allocate_loop_length in Hp. exact Hp. }
    rewrite Allocate_loop_lookup in Hp by exact Hi.
    injection Hp as <-. cbn [Amount Currency]. rewrite Z.add_0_l.
    split; [reflexivity |].
    destruct (Z.ltb_spec (Z.of_nat i) (Amount m mod n)); [rewrite Hadd |]; lia. }
  split; [apply Allocate_loop_length |].
  split; [| split; [exact Hlook |]].
  - unfold money.total. rewrite sum_wrap, Allocate_loop_zsum.
    unfold extras. rewrite Z2Nat.id by lia.
    replace (Z.max 0 (Z.min (Amount m mod n - 0) n)) with (Amount m mod n) by lia.
    destruct (Z.eq_dec (Amount m mod n) 0) as [E0 | Hne].
    + rewrite E0. rewrite E0 in Hdm.
      transitivity (Int64.wrap (Amount m));
        [f_equal; lia | apply wrap_in_range, Hr].
    + rewrite Hadd by lia.
      transitivity (Int64.wrap (Amount m));
        [f_equal; lia | apply wrap_in_range, Hr].
  - intros p q Hp Hq'.
    apply list_elem_of_lookup in Hp as [i Hp].
    apply list_elem_of_lookup in Hq' as [j Hq'].
    apply Hlook in Hp as [_ ->]. apply Hlook in Hq' as [_ ->].
    destruct (Z.of_nat i <? Amount m mod n), (Z.of_nat j <? Amount m mod n); lia.
Qed.

Lemma Allocate_nonneg_witness :
  length (Allocate (mkMoney 100 "USD") 3) = Z.to_nat 3
  /\ money.total (Allocate (mkMoney 100 "USD") 3) = 100
  /\ (forall (i : nat) (p : Money),
        Allocate (mkMoney 100 "USD") 3 !! i = Some p ->
        Currency p = "USD"
        /\ Amount p = 100 / 3 + (if Z.of_nat i <? 100 mod 3 then 1 else 0))
  /\ (forall p q : Money,
        p ∈ Allocate (mkMoney 100 "USD") 3 ->
        q ∈ Allocate (mkMoney 100 "USD") 3 ->
        Z.abs (Amount p - Amount q) <= 1).
Proof.
  apply (Allocate_nonneg (mkMoney 100 "USD") 3); simpl;
    unfold Int64.in_range, Int64.min_int, Int64.max_int; lia.
Defined.

End MoneyFacts.

(** C6.  [Allocate] on a negative amount: Go's remainder takes the sign of
    the dividend, so no part receives an extra unit and the parts no
    longer add up to the amount.  Splitting -5 minor units three ways
    gives three parts of -1, whose sum is -3. *)
Theorem Allocate_negative_amount :
  Allocate (mkMoney (-5) "USD") 3
  = [mkMoney (-1) "USD"; mkMoney (-1) "USD"; mkMoney (-1) "USD"]
  /\ money.total (Allocate (mkMoney (-5) "USD") 3) = -3
  /\ Int64.rem (-5) 3 = -2.
Proof. vm_compute. auto. Qed.

(** C8.  Two values of different currencies: [Add], [Subtract],
    [LessThan] and [GreaterThan] fail with [ErrCurrencyMismatch] and
    [Equals] answers false without failing.  Two values of the same
    currency: none of the four fails. *)
Theorem money_currency_safety (a b : Money) :
  (Currency a <> Currency b ->
     Add a b = (money.empty, Some ErrCurrencyMismatch)
     /\ Subtract a b = (money.empty, Some ErrCurrencyMismatch)
     /\ LessThan a b = (false, Some ErrCurrencyMismatch)
     /\ GreaterThan a b = (false, Some ErrCurrencyMismatch)
     /\ Equals a b = false)
  /\ (Currency a = Currency b ->
     Add a b = (mkMoney (Int64.add (Amount a) (Amount b)) (Currency a), None)
     /\ Subtract a b
        = (mkMoney (Int64.sub (Amount a) (Amount b)) (Currency a), None)
     /\ LessThan a b = (Amount a <? Amount b, None)
     /\ GreaterThan a b = (Amount b <? Amount a, None)).
Proof.
  split; intros H.
  - unfold Add, Subtract, LessThan, GreaterThan, Equals.
    apply String.eqb_neq in H. rewrite H. simpl.
    rewrite andb_false_r. auto.
  - unfold Add, Subtract, LessThan, GreaterThan.
    rewrite H, String.eqb_refl. simpl. auto.
Qed.

Lemma money_currency_safety_witness :
  (Add (mkMoney 100 "USD") (mkMoney 5 "EUR")
   = (money.empty, Some ErrCurrencyMismatch)
   /\ Subtract (mkMoney 100 "USD") (mkMoney 5 "EUR")
      = (money.empty, Some ErrCurrencyMismatch)
   /\ LessThan (mkMoney 100 "USD") (mkMoney 5 "EUR")
      = (false, Some ErrCurrencyMismatch)
   /\ GreaterThan (mkMoney 100 "USD") (mkMoney 5 "EUR")
      = (false, Some ErrCurrencyMismatch)
   /\ Equals (mkMoney 100 "USD") (mkMoney 5 "EUR") = false)
  /\ (Add (mkMoney 100 "USD") (mkMoney 5 "USD") = (mkMoney 105 "USD", None)
      /\ Subtract (mkMoney 100 "USD") (mkMoney 5 "USD")
         = (mkMoney 95 "USD", None)
      /\ LessThan (mkMoney 100 "USD") (mkMoney 5 "USD") = (false, None)
      /\ GreaterThan (mkMoney 100 "USD") (mkMoney 5 "USD") = (true, None)).
Proof.
  split.
  - apply (money_currency_safety (mkMoney 100 "USD") (mkMoney 5 "EUR")).
    simpl. discriminate.
  - apply (money_currency_safety (mkMoney 100 "USD") (mkMoney 5 "USD")).
    reflexivity.
Defined.

(** ** The order state machine *)

Section StateMachine.

Lemma transitions_lookup (st : orders.OrderStatus) :
  orders.transitions !! st
  = if decide (st = "pending") then Some ["paid"; "canceled"]
    else if decide (st = "paid") then Some ["processing"; "canceled"; "refunded"]
    else if decide (st = "processing") then Some ["shipped"; "canceled"]
    else if decide (st = "shipped") then Some ["delivered"]
    else if decide (st = "delivered") then Some ["refunded"]
    else None.
Proof.
  unfold orders.transitions, orders.OrderStatusPending, orders.OrderStatusPaid,
    orders.OrderStatusProcessing, orders.OrderStatusShipped,
    orders.OrderStatusDelivered, orders.OrderStatusCanceled,
    orders.OrderStatusRefunded.
  repeat (rewrite lookup_insert; case_decide; subst;
          [repeat (case_decide; try discriminate); try reflexivity; congruence |]).
  rewrite lookup_empty. repeat (case_decide; [congruence |]). reflexivity.
Qed.

Lemma CanTransitionTo_listed (o : orders.Order.t) (newStatus : orders.OrderStatus) :
  orders.Order.CanTransitionTo o newStatus = true
  <-> listed_edge (orders.Order.Status o) newStatus.
Proof.
  unfold orders.Order.CanTransitionTo. rewrite transitions_lookup.
  split.
  - repeat case_decide; try discriminate;
      match goal with H : _ = _ |- _ => rewrite H end;
      cbn [orders.allowedLoop];
      repeat match goal with
        | |- context [String.eqb ?a newStatus] =>
            destruct (String.eqb_spec a newStatus) as [<- | ?]
        end;
      intros; try discriminate; constructor.
  - destruct 1; reflexivity.
Qed.

End StateMachine.

(** C7.  [Order.UpdateStatus] succeeds exactly on the listed edges; on any
    other pair it returns false and leaves the order as it was.  The
    service operation turns that refusal into [ErrInvalidStatus] without
    touching the repository, and on a listed edge saves and returns the
    order in its new status.  The four named cases: pending to paid and
    delivered to refunded succeed, pending to shipped and canceled to paid
    fail. *)
Theorem order_status_transitions {R I G : Type}
    (s : orders.OrderService R I G) (now : Z) (o : orders.Order.t)
    (target : orders.OrderStatus) (orderID : string)
    (w : orders.World R I G) :
  (fst (orders.Order.UpdateStatus now o target) = true
   <-> listed_edge (orders.Order.Status o) target)
  /\ (listed_edge (orders.Order.Status o) target ->
      orders.Order.Status (snd (orders.Order.UpdateStatus now o target))
      = target)
  /\ (~ listed_edge (orders.Order.Status o) target ->
      orders.Order.UpdateStatus now o target = (false, o))
  /\ (orders.FindByID (orders.repo s) orderID (orders.repoState w) = inl o ->
      (~ listed_edge (orders.Order.Status o) target ->
       orders.UpdateStatus s now orderID target w
       = ((None, Some ErrInvalidStatus), w))
      /\ (listed_edge (orders.Order.Status o) target ->
          forall r' : R,
            orders.Save (orders.repo s)
              (snd (orders.Order.UpdateStatus now o target))
              (orders.repoState w) = (None, r') ->
            orders.UpdateStatus s now orderID target w
            = ((Some (snd (orders.Order.UpdateStatus now o target)), None),
               orders.set_repoState r' w)))
  /\ fst (orders.Order.UpdateStatus now (sample.order "o-1" "pending") "paid")
     = true
  /\ fst (orders.Order.UpdateStatus now (sample.order "o-1" "pending") "shipped")
     = false
  /\ fst (orders.Order.UpdateStatus now (sample.order "o-1" "delivered")
            "refunded") = true
  /\ fst (orders.Order.UpdateStatus now (sample.order "o-1" "canceled") "paid")
     = false.
Proof.
  assert (Hyes : listed_edge (orders.Order.Status o) target ->
                 orders.Order.CanTransitionTo o target = true)
    by apply CanTransitionTo_listed.
  assert (Hno : ~ listed_edge (orders.Order.Status o) target ->
                orders.Order.CanTransitionTo o target = false).
  { intros Hn. apply not_true_is_false. rewrite CanTransitionTo_listed. exact Hn. }
  split; [| split; [| split; [| split]]].
  - rewrite <- CanTransitionTo_listed. unfold orders.Order.UpdateStatus.
    destruct (orders.Order.CanTransitionTo o target); simpl; split; congruence.
  - intros He. unfold orders.Order.UpdateStatus. rewrite (Hyes He). simpl.
    destruct (String.eqb target orders.OrderStatusDelivered),
      (String.eqb target orders.OrderStatusCanceled); reflexivity.
  - intros Hn. unfold orders.Order.UpdateStatus. rewrite (Hno Hn). reflexivity.
  - intros Hfind. unfold orders.UpdateStatus. rewrite Hfind. split.
    + intros Hn. unfold orders.Order.UpdateStatus. rewrite (Hno Hn). reflexivity.
    + intros He r' Hsave.
      destruct (orders.Order.UpdateStatus now o target) as [ok o'] eqn:Hup.
      assert (Hok : ok = true).
      { unfold orders.Order.UpdateStatus in Hup. rewrite (Hyes He) in Hup.
        simpl in Hup. congruence. }
      subst ok. simpl in Hsave |- *. rewrite Hsave. reflexivity.
  - vm_compute. auto.
Qed.

Lemma order_status_transitions_witness :
  orders.UpdateStatus
    (sample.orderService sample.memRepository None (Some sample.decliningGateway))
    7 "o-1" "shipped" sample.worldWithPendingOrder
  = ((None, Some ErrInvalidStatus), sample.worldWithPendingOrder)
  /\ orders.Order.Status
       (snd (orders.Order.UpdateStatus 7 (sample.order "o-1" "pending") "paid"))
     = "paid".
Proof.
  pose proof
    (order_status_transitions
       (sample.orderService sample.memRepository None
          (Some sample.decliningGateway))
       7 (sample.order "o-1" "pending") "shipped" "o-1"
       sample.worldWithPendingOrder) as (_ & _ & _ & Hsvc & _).
  pose proof
    (order_status_transitions
       (sample.orderService sample.memRepository None
          (Some sample.decliningGateway))
       7 (sample.order "o-1" "pending") "paid" "o-1"
       sample.worldWithPendingOrder) as (_ & Hpaid & _).
  split.
  - apply Hsvc; [reflexivity |]. inversion 1.
  - apply Hpaid. constructor.
Defined.

(** ** Pricing *)

Lemma insert_middle {A : Type} (pre suf : list A) (x y : A) :
  <[ length pre := y ]> (pre ++ x :: suf) = pre ++ y :: suf.
Proof.
  rewrite insert_app_r_alt by lia. rewrite Nat.sub_diag. reflexivity.
Qed.

Lemma alter_middle {A : Type} (f : A -> A) (pre suf : list A) (x : A) :
  alter f (length pre) (pre ++ x :: suf) = pre ++ f x :: suf.
Proof.
  rewrite alter_app_r_alt by lia. rewrite Nat.sub_diag. reflexivity.
Qed.

Section PromotionLoop.

Variable promotion : pricing.Promotion.t.
Variable currency : string.

(** The index loop computes the side-by-side reading. *)
Lemma calculateDiscount_loop_lines (items : list pricing.LineItem.t) :
  forall (pre suf : list pricing.LineItemPrice.t) (t : Money) (a : list string),
    length suf = length items ->
    pricing.calculateDiscount_loop promotion currency items (length pre)
      (pre ++ suf, t, a)
    = (pre ++ discountLines promotion currency items suf,
       discountSum promotion currency items suf t,
       a ++ discountIDs promotion items).
Proof.
  induction items as [| item items IH]; intros pre suf t a Hlen.
  - destruct suf; [| discriminate]. simpl. rewrite !app_nil_r. reflexivity.
  - destruct suf as [| price suf]; [discriminate |].
    injection Hlen as Hlen.
    cbn [pricing.calculateDiscount_loop discountLines discountSum discountIDs].
    unfold discountLine.
    destruct (pricing.Promotion.CanApplyToProduct promotion
                (pricing.LineItem.ProductID item)); cbn [negb].
    + rewrite list_lookup_middle by reflexivity.
      rewrite insert_middle.
      specialize (IH (pre ++ [pricing.LineItemPrice.set_DiscountAmount
                                (fst (Add (pricing.LineItemPrice.DiscountAmount price)
                                        (pricing.itemDiscount promotion currency price)))
                                price]) suf).
      rewrite length_app, Nat.add_1_r in IH. rewrite <- !app_assoc in IH.
      cbn [app] in IH. rewrite IH by exact Hlen.
      rewrite <- app_assoc. reflexivity.
    + specialize (IH (pre ++ [price]) suf).
      rewrite length_app, Nat.add_1_r in IH. rewrite <- !app_assoc in IH.
      cbn [app] in IH. rewrite IH by exact Hlen. reflexivity.
Qed.

Lemma discountLines_length items prices :
  length (discountLines promotion currency items prices) = length prices.
Proof.
  revert prices. induction items as [| item items IH]; intros [| price prices];
    simpl; try reflexivity. rewrite IH. reflexivity.
Qed.

Lemma discountLines_subtotal items prices :
  map pricing.LineItemPrice.Subtotal (discountLines promotion currency items prices)
  = map pricing.LineItemPrice.Subtotal prices.
Proof.
  revert prices. induction items as [| item items IH]; intros [| price prices];
    simpl; try reflexivity.
  rewrite IH. f_equal. unfold discountLine.
  destruct (pricing.Promotion.CanApplyToProduct _ _); reflexivity.
Qed.

Lemma discountLines_tax items prices :
  map pricing.LineItemPrice.TaxAmount (discountLines promotion currency items prices)
  = map pricing.LineItemPrice.TaxAmount prices.
Proof.
  revert prices. induction items as [| item items IH]; intros [| price prices];
    simpl; try reflexivity.
  rewrite IH. f_equal. unfold discountLine.
  destruct (pricing.Promotion.CanApplyToProduct _ _); reflexivity.
Qed.

(** The discount of a line reads the price line through its subtotal
    only. *)
Lemma itemDiscount_subtotal (p1 p2 : pricing.LineItemPrice.t) :
  pricing.LineItemPrice.Subtotal p1 = pricing.LineItemPrice.Subtotal p2 ->
  pricing.itemDiscount promotion currency p1
  = pricing.itemDiscount promotion currency p2.
Proof. intros H. unfold pricing.itemDiscount. rewrite H. reflexivity. Qed.

Lemma discountSum_subtotal items :
  forall prices1 prices2 t,
    map pricing.LineItemPrice.Subtotal prices1
    = map pricing.LineItemPrice.Subtotal prices2 ->
    discountSum promotion currency items prices1 t
    = discountSum promotion currency items prices2 t.
Proof.
  induction items as [| item items IH]; intros [| p1 prices1] [| p2 prices2] t H;
    simpl in *; try reflexivity; try discriminate.
  injection H as Hp H.
  rewrite (itemDiscount_subtotal p1 p2 Hp). apply IH, H.
Qed.

End PromotionLoop.

Section CalculateDiscount.

Variable promotion : pricing.Promotion.t.

Lemma calculateDiscount_lines (first : pricing.LineItem.t)
    (rest : list pricing.LineItem.t) (prices : list pricing.LineItemPrice.t) :
  length prices = length (first :: rest) ->
  pricing.calculateDiscount promotion (first :: rest) prices
  = (appliedDiscountOf promotion (first :: rest)
       (discountSum promotion (Currency (pricing.LineItem.UnitPrice first))
          (first :: rest) prices
          (Zero (Currency (pricing.LineItem.UnitPrice first)))),
     discountLines promotion (Currency (pricing.LineItem.UnitPrice first))
       (first :: rest) prices).
Proof.
  intros Hlen. unfold pricing.calculateDiscount.
  pose proof (calculateDiscount_loop_lines promotion
                (Currency (pricing.LineItem.UnitPrice first)) (first :: rest)
                [] prices (Zero (Currency (pricing.LineItem.UnitPrice first)))
                [] Hlen) as H.
  cbn [length app] in H. rewrite H. unfold appliedDiscountOf.
  destruct (IsZero _); reflexivity.
Qed.

(** The discount a promotion yields does not depend on the discounts
    already recorded in the price lines. *)
Lemma calculateDiscount_independent (items : list pricing.LineItem.t)
    (prices1 prices2 : list pricing.LineItemPrice.t) :
  length prices1 = length items ->
  map pricing.LineItemPrice.Subtotal prices1
  = map pricing.LineItemPrice.Subtotal prices2 ->
  fst (pricing.calculateDiscount promotion items prices1)
  = fst (pricing.calculateDiscount promotion items prices2).
Proof.
  intros Hlen Hsub.
  assert (Hlen2 : length prices2 = length items).
  { rewrite <- Hlen, <- (length_map pricing.LineItemPrice.Subtotal prices2),
      <- Hsub, length_map. reflexivity. }
  destruct items as [| first rest]; [reflexivity |].
  rewrite !calculateDiscount_lines by assumption. cbn [fst].
  f_equal. apply discountSum_subtotal, Hsub.
Qed.

Lemma calculateDiscount_prices (items : list pricing.LineItem.t)
    (prices : list pricing.LineItemPrice.t) :
  length prices = length items ->
  length (snd (pricing.calculateDiscount promotion items prices)) = length items
  /\ map pricing.LineItemPrice.Subtotal
       (snd (pricing.calculateDiscount promotion items prices))
     = map pricing.LineItemPrice.Subtotal prices
  /\ map pricing.LineItemPrice.TaxAmount
       (snd (pricing.calculateDiscount promotion items prices))
     = map pricing.LineItemPrice.TaxAmount prices.
Proof.
  intros Hlen. destruct items as [| first rest].
  - simpl. auto.
  - rewrite calculateDiscount_lines by assumption. cbn [snd].
    rewrite discountLines_length, discountLines_subtotal, discountLines_tax.
    auto.
Qed.

End CalculateDiscount.

Section ApplyPromotions.

Variable s : pricing.PricingService.
Variable now : Z.
Variable lineItems : list pricing.LineItem.t.

Lemma applyPromotion_spec (code : string)
    (applied : list pricing.AppliedDiscount.t)
    (prices prices0 : list pricing.LineItemPrice.t) :
  length prices = length lineItems ->
  map pricing.LineItemPrice.Subtotal prices
  = map pricing.LineItemPrice.Subtotal prices0 ->
  let st := pricing.applyPromotion s now lineItems code (applied, prices) in
  fst st = applied ++ option_list (codeDiscount s now lineItems prices0 code)
  /\ length (snd st) = length lineItems
  /\ map pricing.LineItemPrice.Subtotal (snd st)
     = map pricing.LineItemPrice.Subtotal prices0
  /\ map pricing.LineItemPrice.TaxAmount (snd st)
     = map pricing.LineItemPrice.TaxAmount prices.
Proof.
  intros Hlen Hsub. unfold pricing.applyPromotion, codeDiscount.
  destruct (pricing.FindByCode (pricing.promotionRepo s) code) as [promotion | e];
    [| cbn; rewrite app_nil_r; auto].
  destruct (pricing.Promotion.IsValid promotion now);
    [| cbn; rewrite app_nil_r; auto].
  cbn [negb].
  pose proof (calculateDiscount_prices promotion lineItems prices Hlen)
    as (Hl & Hs & Ht).
  pose proof (calculateDiscount_independent promotion lineItems prices prices0
                Hlen Hsub) as Hind.
  destruct (pricing.calculateDiscount promotion lineItems prices)
    as [discount prices'] eqn:Hcalc.
  cbn [fst snd] in *. rewrite <- Hind.
  destruct discount as [d |]; cbn; rewrite ?app_nil_r;
    repeat split; congruence.
Qed.

Lemma applyPromotions_loop_spec (codes : list string) :
  forall (applied : list pricing.AppliedDiscount.t)
         (prices prices0 : list pricing.LineItemPrice.t),
    length prices = length lineItems ->
    map pricing.LineItemPrice.Subtotal prices
    = map pricing.LineItemPrice.Subtotal prices0 ->
    let st := pricing.applyPromotions_loop s now lineItems codes (applied, prices) in
    fst st = applied ++ omap (codeDiscount s now lineItems prices0) codes
    /\ length (snd st) = length lineItems
    /\ map pricing.LineItemPrice.Subtotal (snd st)
       = map pricing.LineItemPrice.Subtotal prices0
    /\ map pricing.LineItemPrice.TaxAmount (snd st)
       = map pricing.LineItemPrice.TaxAmount prices.
Proof.
  induction codes as [| code codes IH]; intros applied prices prices0 Hlen Hsub.
  - cbn. rewrite app_nil_r. auto.
  - cbn [pricing.applyPromotions_loop].
    pose proof (applyPromotion_spec code applied prices prices0 Hlen Hsub)
      as (Ha & Hl & Hs & Ht).
    destruct (pricing.applyPromotion s now lineItems code (applied, prices))
      as [applied' prices'].
    cbn [fst snd] in *.
    specialize (IH applied' prices' prices0 Hl Hs) as (IHa & IHl & IHs & IHt).
    split; [| split; [exact IHl | split; [exact IHs | congruence]]].
    rewrite IHa, Ha, <- app_assoc. f_equal.
    cbn [omap list_omap]. destruct (codeDiscount s now lineItems prices0 code);
      reflexivity.
Qed.

End ApplyPromotions.

Section PriceCartFacts.

Variable s : pricing.PricingService.
Variable now : Z.
Variable req : pricing.PriceCartRequest.t.

(** On a cart that is not empty [PriceCart] returns a result and no
    error. *)
Lemma PriceCart_nonempty (c : cart.Cart.t) (first : cart.CartItem.t)
    (rest : list cart.CartItem.t) :
  pricing.PriceCartRequest.Cart req = Some c ->
  cart.Cart.Items c = first :: rest ->
  pricing.PriceCart s now req = (Some (pricedResult s now req (first :: rest)), None).
Proof.
  intros Hc Hi. unfold pricing.PriceCart, pricedResult. rewrite Hc, Hi.
  unfold pricing.applyPromotions, afterPromotions, undiscountedPrices,
    cartLines, cartCurrency.
  destruct (pricing.applyPromotions_loop s now
              (map pricing.toLineItem (first :: rest))
              (pricing.PriceCartRequest.PromotionCodes req)
              ([], map (pricing.initialPrice (Currency (cart.CartItem.Price first)))
                     (map pricing.toLineItem (first :: rest))))
    as [applied prices].
  cbn [fst snd].
  destruct (pricing.taxStep s (Currency (cart.CartItem.Price first))
              (map pricing.toLineItem (first :: rest)) prices
              (pricing.shippingStep s (Currency (cart.CartItem.Price first))
                 (map pricing.toLineItem (first :: rest)) req) req)
    as [[taxLines taxTotal] prices'].
  reflexivity.
Qed.

(** The price lines handed to the promotion loop have one line per item,
    and the loop keeps it so. *)
Lemma PriceCart_prices_length (items : list cart.CartItem.t) (codes : list string) :
  length (undiscountedPrices items) = length (cartLines items)
  /\ length (snd (afterPromotions s now items codes)) = length (cartLines items)
  /\ map pricing.LineItemPrice.Subtotal (snd (afterPromotions s now items codes))
     = map pricing.LineItemPrice.Subtotal (undiscountedPrices items)
  /\ map pricing.LineItemPrice.TaxAmount (snd (afterPromotions s now items codes))
     = map pricing.LineItemPrice.TaxAmount (undiscountedPrices items).
Proof.
  assert (Hlen : length (undiscountedPrices items) = length (cartLines items)).
  { unfold undiscountedPrices. apply length_map. }
  split; [exact Hlen |].
  pose proof (applyPromotions_loop_spec s now (cartLines items) codes []
                (undiscountedPrices items) (undiscountedPrices items) Hlen
                eq_refl) as (_ & Hl & Hs & Ht).
  unfold afterPromotions. auto.
Qed.

(** The applied discounts are the discounts of the codes, each computed
    on the undiscounted price lines. *)
Lemma afterPromotions_independent (items : list cart.CartItem.t)
    (codes : list string) :
  fst (afterPromotions s now items codes)
  = omap (independentDiscount s now items) codes.
Proof.
  pose proof (applyPromotions_loop_spec s now (cartLines items) codes []
                (undiscountedPrices items) (undiscountedPrices items)
                (proj1 (PriceCart_prices_length items codes)) eq_refl)
    as (Ha & _).
  unfold afterPromotions. rewrite Ha. reflexivity.
Qed.

End PriceCartFacts.

Section Collaborators.

Variable s : pricing.PricingService.
Variable now : Z.
Variable req : pricing.PriceCartRequest.t.

Lemma shippingStep_call (c : cart.Cart.t) (first : cart.CartItem.t)
    (rest : list cart.CartItem.t) :
  pricing.PriceCartRequest.Cart req = Some c ->
  cart.Cart.Items c = first :: rest ->
  pricing.shippingStep s (cartCurrency (first :: rest))
    (cartLines (first :: rest)) req
  = match shippingCall s req with
    | Some (calc, q) =>
        match shipping.GetRate calc q with
        | (Some rate, None) => shipping.ShippingRate.Cost rate
        | _ => Zero (cartCurrency (first :: rest))
        end
    | None => Zero (cartCurrency (first :: rest))
    end.
Proof.
  intros Hc Hi. unfold pricing.shippingStep, shippingCall. rewrite Hc, Hi.
  destruct (pricing.PriceCartRequest.ShippingMethodID req) as [methodID |];
    [| reflexivity].
  destruct (pricing.shippingCalc s) as [calc |]; reflexivity.
Qed.

Lemma taxStep_call (c : cart.Cart.t) (first : cart.CartItem.t)
    (rest : list cart.CartItem.t) :
  pricing.PriceCartRequest.Cart req = Some c ->
  cart.Cart.Items c = first :: rest ->
  pricing.PricingResult.TaxTotal (pricedResult s now req (first :: rest))
  = match taxCall s now req with
    | Some (calc, q) =>
        match tax.Calculate calc q with
        | inl taxResult => tax.CalculationResult.TotalTax taxResult
        | inr _ => Zero (cartCurrency (first :: rest))
        end
    | None => Zero (cartCurrency (first :: rest))
    end.
Proof.
  intros Hc Hi. unfold pricedResult, pricing.taxStep, taxCall.
  cbn [pricing.PricingResult.TaxTotal]. rewrite Hc, Hi.
  destruct (pricing.PriceCartRequest.ShippingAddress req) as [addr |];
    [| reflexivity].
  destruct (pricing.taxCalculator s) as [calc |]; [| reflexivity].
  destruct (tax.Calculate calc _); reflexivity.
Qed.

End Collaborators.

(** C9.  On a cart that is not empty [PriceCart] always returns a result
    and no error.  When the tax calculator fails on the request it is
    given, the tax total of the result is zero; when the shipping-rate
    calculator fails on the request it is given, the shipping total is
    zero. *)
Theorem PriceCart_degrades_to_zero (s : pricing.PricingService) (now : Z)
    (req : pricing.PriceCartRequest.t) (c : cart.Cart.t)
    (first : cart.CartItem.t) (rest : list cart.CartItem.t) :
  pricing.PriceCartRequest.Cart req = Some c ->
  cart.Cart.Items c = first :: rest ->
  exists r : pricing.PricingResult.t,
    pricing.PriceCart s now req = (Some r, None)
    /\ (forall calc q e,
          taxCall s now req = Some (calc, q) ->
          tax.Calculate calc q = inr e ->
          pricing.PricingResult.TaxTotal r
          = Zero (Currency (cart.CartItem.Price first)))
    /\ (forall calc q rate e,
          shippingCall s req = Some (calc, q) ->
          shipping.GetRate calc q = (rate, Some e) ->
          pricing.PricingResult.ShippingTotal r
          = Zero (Currency (cart.CartItem.Price first))).
Proof.
  intros Hc Hi. exists (pricedResult s now req (first :: rest)).
  split; [apply (PriceCart_nonempty s now req c first rest Hc Hi) |]. split.
  - intros calc q e Hcall Hfail.
    rewrite (taxStep_call s now req c first rest Hc Hi), Hcall, Hfail.
    reflexivity.
  - intros calc q rate e Hcall Hfail.
    unfold pricedResult. cbn [pricing.PricingResult.ShippingTotal].
    rewrite (shippingStep_call s req c first rest Hc Hi), Hcall, Hfail.
    destruct rate; reflexivity.
Qed.

Lemma PriceCart_degrades_to_zero_witness :
  exists r : pricing.PricingResult.t,
    pricing.PriceCart
      (pricing.mkPricingService sample.promotions
         (Some sample.failingTaxCalculator) (Some sample.failingRateCalculator))
      5
      (sample.priceRequest
         [sample.cartItem "line-1" "A" (mkMoney 4999 "USD") 2] ["SAVE10"])
    = (Some r, None)
    /\ pricing.PricingResult.TaxTotal r = Zero "USD"
    /\ pricing.PricingResult.ShippingTotal r = Zero "USD"
    /\ pricing.PricingResult.Total r = mkMoney 8999 "USD".
Proof.
  destruct
    (PriceCart_degrades_to_zero
       (pricing.mkPricingService sample.promotions
          (Some sample.failingTaxCalculator) (Some sample.failingRateCalculator))
       5
       (sample.priceRequest
          [sample.cartItem "line-1" "A" (mkMoney 4999 "USD") 2] ["SAVE10"])
       (sample.cartOf [sample.cartItem "line-1" "A" (mkMoney 4999 "USD") 2])
       (sample.cartItem "line-1" "A" (mkMoney 4999 "USD") 2) []
       eq_refl eq_refl) as (r & Hr & Htax & Hship).
  exists r. split; [exact Hr |]. split; [| split].
  - eapply Htax; reflexivity.
  - eapply Hship; reflexivity.
  - vm_compute in Hr. injection Hr as <-. reflexivity.
Defined.

(** ** The minimum purchase of a promotion *)

Section MinPurchase.

Variable f : pricing.Promotion.t -> option Money.

Lemma calculateDiscount_loop_minPurchase (p : pricing.Promotion.t)
    (currency : string) (items : list pricing.LineItem.t) :
  forall (i : nat) (st : pricing.discountState),
    pricing.calculateDiscount_loop (withMinPurchase (f p) p) currency items i st
    = pricing.calculateDiscount_loop p currency items i st.
Proof.
  induction items as [| item items IH]; intros i [[prices t] a]; [reflexivity |].
  cbn [pricing.calculateDiscount_loop]. rewrite IH. reflexivity.
Qed.

Lemma calculateDiscount_minPurchase (p : pricing.Promotion.t)
    (items : list pricing.LineItem.t) (prices : list pricing.LineItemPrice.t) :
  pricing.calculateDiscount (withMinPurchase (f p) p) items prices
  = pricing.calculateDiscount p items prices.
Proof.
  unfold pricing.calculateDiscount. destruct items as [| first rest];
    [reflexivity |].
  rewrite calculateDiscount_loop_minPurchase. reflexivity.
Qed.

Lemma applyPromotions_loop_minPurchase (s : pricing.PricingService) (now : Z)
    (items : list pricing.LineItem.t) (codes : list string) :
  forall st,
    pricing.applyPromotions_loop (overrideMinPurchase f s) now items codes st
    = pricing.applyPromotions_loop s now items codes st.
Proof.
  induction codes as [| code codes IH]; intros [applied prices]; [reflexivity |].
  cbn [pricing.applyPromotions_loop]. rewrite IH. f_equal.
  unfold pricing.applyPromotion, overrideMinPurchase.
  cbn [pricing.promotionRepo pricing.FindByCode].
  destruct (pricing.FindByCode (pricing.promotionRepo s) code) as [p | e];
    [| reflexivity].
  rewrite calculateDiscount_minPurchase. reflexivity.
Qed.

(** The result of [PriceCart] does not depend on the minimum purchase of
    any promotion. *)
Lemma PriceCart_minPurchase (s : pricing.PricingService) (now : Z)
    (req : pricing.PriceCartRequest.t) :
  pricing.PriceCart (overrideMinPurchase f s) now req
  = pricing.PriceCart s now req.
Proof.
  unfold pricing.PriceCart.
  destruct (pricing.PriceCartRequest.Cart req) as [c |]; [| reflexivity].
  destruct (cart.Cart.Items c) as [| first rest]; [reflexivity |].
  unfold pricing.applyPromotions.
  rewrite applyPromotions_loop_minPurchase. reflexivity.
Qed.

End MinPurchase.

(** C10.  [PriceCart] never looks at the minimum purchase of a promotion:
    its result is the same whatever minimum the promotions carry, so a
    valid code is applied and counted below its minimum.  The minimum is
    enforced by [ValidatePromotion] alone: for a valid promotion with a
    minimum purchase it accepts exactly when the cart total is in the
    currency of the minimum and strictly greater, and otherwise rejects
    with [ErrMinPurchaseNotMet]; a total equal to the minimum is
    rejected. *)
Theorem min_purchase_only_in_ValidatePromotion (s : pricing.PricingService)
    (now : Z) :
  (forall (f : pricing.Promotion.t -> option Money)
          (req : pricing.PriceCartRequest.t),
      pricing.PriceCart (overrideMinPurchase f s) now req
      = pricing.PriceCart s now req)
  /\ (forall (code : string) (cartTotal minPurchase : Money)
             (p : pricing.Promotion.t),
        pricing.FindByCode (pricing.promotionRepo s) code = inl p ->
        pricing.Promotion.IsValid p now = true ->
        pricing.Promotion.MinPurchase p = Some minPurchase ->
        pricing.ValidatePromotion s now code cartTotal
        = (if String.eqb (Currency cartTotal) (Currency minPurchase)
              && (Amount minPurchase <? Amount cartTotal)
           then (Some p, None)
           else (None, Some ErrMinPurchaseNotMet))
        /\ (Amount cartTotal = Amount minPurchase ->
            pricing.ValidatePromotion s now code cartTotal
            = (None, Some ErrMinPurchaseNotMet)))
  /\ option_map pricing.PricingResult.DiscountTotal
       (fst (pricing.PriceCart sample.pricingOnly 5
               (sample.priceRequest
                  [sample.cartItem "line-1" "A" (mkMoney 1000 "USD") 1]
                  ["BIG10"])))
     = Some (mkMoney 100 "USD")
  /\ pricing.ValidatePromotion sample.pricingOnly 5 "BIG10" (mkMoney 1000 "USD")
     = (None, Some ErrMinPurchaseNotMet).
Proof.
  split; [intros f req; apply PriceCart_minPurchase |].
  split; [| split; vm_compute; reflexivity].
  intros code cartTotal minPurchase p Hfind Hvalid Hmin.
  assert (Hv : pricing.ValidatePromotion s now code cartTotal
               = (if String.eqb (Currency cartTotal) (Currency minPurchase)
                     && (Amount minPurchase <? Amount cartTotal)
                  then (Some p, None)
                  else (None, Some ErrMinPurchaseNotMet))).
  { unfold pricing.ValidatePromotion. rewrite Hfind, Hvalid, Hmin.
    unfold GreaterThan.
    destruct (String.eqb (Currency cartTotal) (Currency minPurchase)); cbn;
      [| reflexivity].
    destruct (Amount minPurchase <? Amount cartTotal); reflexivity. }
  split; [exact Hv |].
  intros Heq. rewrite Hv, Heq, Z.ltb_irrefl, andb_false_r. reflexivity.
Qed.

Lemma min_purchase_only_in_ValidatePromotion_witness :
  pricing.ValidatePromotion sample.pricingOnly 5 "BIG10" (mkMoney 5000 "USD")
  = (None, Some ErrMinPurchaseNotMet)
  /\ fst (pricing.ValidatePromotion sample.pricingOnly 5 "BIG10"
            (mkMoney 5001 "USD"))
     = Some (sample.promotion "BIG10" pricing.DiscountTypePercentage
               Float64.lit_0_10 (Some (mkMoney 5000 "USD")))
  /\ pricing.PriceCart
       (overrideMinPurchase (fun _ => None) sample.pricingOnly) 5
       (sample.priceRequest
          [sample.cartItem "line-1" "A" (mkMoney 1000 "USD") 1] ["BIG10"])
     = pricing.PriceCart sample.pricingOnly 5
         (sample.priceRequest
            [sample.cartItem "line-1" "A" (mkMoney 1000 "USD") 1] ["BIG10"]).
Proof.
  destruct (min_purchase_only_in_ValidatePromotion sample.pricingOnly 5)
    as (Hprice & Hvalidate & _).
  split; [| split].
  - apply (Hvalidate "BIG10" (mkMoney 5000 "USD") (mkMoney 5000 "USD")
             (sample.promotion "BIG10" pricing.DiscountTypePercentage
                Float64.lit_0_10 (Some (mkMoney 5000 "USD"))));
      reflexivity.
  - rewrite (proj1 (Hvalidate "BIG10" (mkMoney 5001 "USD") (mkMoney 5000 "USD")
                      (sample.promotion "BIG10" pricing.DiscountTypePercentage
                         Float64.lit_0_10 (Some (mkMoney 5000 "USD")))
                      eq_refl eq_refl eq_refl)).
    reflexivity.
  - apply Hprice.
Defined.

(** ** Pricing in one currency *)

Section OneCurrency.

Variable cur : string.

#[local] Abbreviation inCur := (inCurrency cur).

Lemma Add_inCur (a b : Money) :
  inCur a -> inCur b ->
  fst (Add a b) = mkMoney (Int64.add (Amount a) (Amount b)) cur.
Proof.
  unfold inCurrency. intros Ha Hb. rewrite Add_same by congruence.
  cbn. rewrite Ha. reflexivity.
Qed.

Lemma Subtract_inCur (a b : Money) :
  inCur a -> inCur b ->
  fst (Subtract a b) = mkMoney (Int64.sub (Amount a) (Amount b)) cur.
Proof.
  unfold inCurrency. intros Ha Hb. rewrite Subtract_same by congruence.
  cbn. rewrite Ha. reflexivity.
Qed.

Lemma subtotalLoop_inCur (items : list pricing.LineItem.t) :
  forall t : Money,
    inCur t ->
    Forall (fun item => inCur (pricing.LineItem.UnitPrice item)) items ->
    pricing.subtotalLoop items t
    = mkMoney
        (fold_left Int64.add
           (map (fun item => Int64.mul (Amount (pricing.LineItem.UnitPrice item))
                               (pricing.LineItem.Quantity item)) items)
           (Amount t))
        cur.
Proof.
  induction items as [| item items IH]; intros t Ht Hall.
  - cbn. destruct t as [a c]. unfold inCurrency in Ht. cbn in *. congruence.
  - inversion Hall as [| ? ? Hitem Hrest]; subst.
    cbn [pricing.subtotalLoop map fold_left].
    rewrite Add_inCur by (assumption || exact Hitem).
    rewrite IH by (reflexivity || assumption). reflexivity.
Qed.

Lemma discountTotalLoop_inCur (discounts : list pricing.AppliedDiscount.t) :
  forall t : Money,
    inCur t ->
    Forall (fun d => inCur (pricing.AppliedDiscount.Amount d)) discounts ->
    pricing.discountTotalLoop discounts t
    = mkMoney (fold_left Int64.add (discountAmounts discounts) (Amount t)) cur.
Proof.
  induction discounts as [| d discounts IH]; intros t Ht Hall.
  - cbn. destruct t as [a c]. unfold inCurrency in Ht. cbn in *. congruence.
  - inversion Hall as [| ? ? Hd Hrest]; subst.
    cbn [pricing.discountTotalLoop discountAmounts map fold_left].
    rewrite Add_inCur by assumption.
    rewrite IH by (reflexivity || assumption). reflexivity.
Qed.

(** The discount of a line under a supported promotion is in the
    currency of the line. *)
Lemma itemDiscount_inCur (p : pricing.Promotion.t)
    (price : pricing.LineItemPrice.t) :
  supported p ->
  inCur (pricing.LineItemPrice.Subtotal price) ->
  inCur (pricing.itemDiscount p cur price).
Proof.
  intros Hsup Hprice. unfold pricing.itemDiscount.
  set (d := if String.eqb (pricing.Promotion.DiscountType p)
                 pricing.DiscountTypePercentage then _ else _).
  assert (Hd : inCur d).
  { subst d. destruct Hsup as [-> | ->]; cbn.
    - exact Hprice.
    - unfold money.New. destruct (String.eqb_spec cur ""); cbn.
      + unfold inCurrency. cbn. congruence.
      + reflexivity. }
  clearbody d.
  destruct (pricing.Promotion.MaxDiscount p) as [m |]; [| exact Hd].
  destruct (fst (GreaterThan d m)) eqn:Hgt; [| exact Hd].
  apply GreaterThan_true in Hgt as [Hc _]. unfold inCurrency in *. congruence.
Qed.

Lemma discount_invariant (p : pricing.Promotion.t)
    (items : list pricing.LineItem.t) :
  supported p ->
  forall (prices : list pricing.LineItemPrice.t) (t : Money),
    Forall (fun q => inCur (pricing.LineItemPrice.Subtotal q)) prices ->
    Forall (fun q => inCur (pricing.LineItemPrice.DiscountAmount q)) prices ->
    inCur t ->
    Forall (fun q => inCur (pricing.LineItemPrice.DiscountAmount q))
      (discountLines p cur items prices)
    /\ inCur (discountSum p cur items prices t)
    /\ eqm64
         (zsum (lineDiscounts (discountLines p cur items prices))
          - Amount (discountSum p cur items prices t))
         (zsum (lineDiscounts prices) - Amount t).
Proof.
  intros Hsup. induction items as [| item items IH]; intros prices t Hs Hd Ht.
  - cbn. destruct prices; repeat split; try assumption; reflexivity.
  - destruct prices as [| price prices].
    { cbn. repeat split; try assumption; reflexivity. }
    inversion Hs as [| ? ? Hs1 Hs2]; subst.
    inversion Hd as [| ? ? Hd1 Hd2]; subst.
    cbn [discountLines discountSum]. unfold discountLine.
    pose proof (itemDiscount_inCur p price Hsup Hs1) as Hi.
    destruct (pricing.Promotion.CanApplyToProduct p (pricing.LineItem.ProductID item)).
    + rewrite !Add_inCur by assumption.
      destruct (IH prices
                  (mkMoney (Int64.add (Amount t)
                              (Amount (pricing.itemDiscount p cur price))) cur)
                  Hs2 Hd2 eq_refl) as (IH1 & IH2 & IH3).
      split; [| split].
      * constructor; [reflexivity | exact IH1].
      * exact IH2.
      * cbn [lineDiscounts map zsum fold_right pricing.LineItemPrice.DiscountAmount
               pricing.LineItemPrice.set_DiscountAmount Amount] in IH3 |- *.
        fold (lineDiscounts (discountLines p cur items prices)).
        fold (lineDiscounts prices).
        fold (zsum (lineDiscounts (discountLines p cur items prices))).
        fold (zsum (lineDiscounts prices)).
        unfold lineDiscounts in *.
        set (X := zsum (map _ (discountLines p cur items prices))) in *.
        set (Y := zsum (map _ prices)) in *.
        set (T := Amount (discountSum p cur items prices _)) in *.
        unfold Int64.add in *.
        transitivity (Int64.wrap (Amount (pricing.LineItemPrice.DiscountAmount price)
                                  + Amount (pricing.itemDiscount p cur price))
                      + (Y - Int64.wrap (Amount t
                                         + Amount (pricing.itemDiscount p cur price)))).
        { rewrite <- IH3. eqm_lia. }
        setoid_rewrite wrap_eqm. eqm_lia.
    + destruct (IH prices t Hs2 Hd2 Ht) as (IH1 & IH2 & IH3).
      split; [| split].
      * constructor; assumption.
      * exact IH2.
      * cbn [lineDiscounts map zsum fold_right] in IH3 |- *.
        fold (lineDiscounts (discountLines p cur items prices)).
        fold (lineDiscounts prices).
        fold (zsum (lineDiscounts (discountLines p cur items prices))).
        fold (zsum (lineDiscounts prices)).
        unfold lineDiscounts in *.
        set (X := zsum (map _ (discountLines p cur items prices))) in *.
        set (Y := zsum (map _ prices)) in *.
        set (T := Amount (discountSum p cur items prices _)) in *.
        transitivity (Amount (pricing.LineItemPrice.DiscountAmount price)
                      + (Y - Amount t)).
        { rewrite <- IH3. eqm_lia. }
        eqm_lia.
Qed.

End OneCurrency.

Section TaxLoop.

Lemma updateLineTaxes_out (taxes : list tax.LineItemTax.t) :
  forall (i : nat) (prices : list pricing.LineItemPrice.t),
    (length prices <= i)%nat ->
    pricing.updateLineTaxes taxes i prices = prices.
Proof.
  induction taxes as [| taxLine taxes IH]; intros i prices Hi; [reflexivity |].
  cbn [pricing.updateLineTaxes].
  destruct (Nat.ltb_spec i (length prices)); [lia |].
  apply IH. lia.
Qed.

(** The index loop computes the side-by-side reading. *)
Lemma updateLineTaxes_lines (taxes : list tax.LineItemTax.t) :
  forall pre suf : list pricing.LineItemPrice.t,
    pricing.updateLineTaxes taxes (length pre) (pre ++ suf)
    = pre ++ taxedLines taxes suf.
Proof.
  induction taxes as [| taxLine taxes IH]; intros pre suf.
  - destruct suf; reflexivity.
  - destruct suf as [| price suf].
    + cbn [taxedLines]. apply updateLineTaxes_out. rewrite app_nil_r. lia.
    + cbn [pricing.updateLineTaxes taxedLines].
      destruct (Nat.ltb_spec (length pre) (length (pre ++ price :: suf)))
        as [_ | Hge]; [| rewrite length_app in Hge; cbn in Hge; lia].
      rewrite alter_middle.
      specialize (IH (pre ++ [pricing.LineItemPrice.set_TaxAmount
                                (tax.LineItemTax.TaxAmount taxLine) price]) suf).
      rewrite length_app, Nat.add_1_r, <- !app_assoc in IH. exact IH.
Qed.

Lemma taxedLines_subtotal taxes prices :
  map pricing.LineItemPrice.Subtotal (taxedLines taxes prices)
  = map pricing.LineItemPrice.Subtotal prices.
Proof.
  revert prices. induction taxes as [| t taxes IH]; intros [| p prices];
    cbn; try reflexivity. rewrite IH. reflexivity.
Qed.

Lemma taxedLines_discount taxes prices :
  map pricing.LineItemPrice.DiscountAmount (taxedLines taxes prices)
  = map pricing.LineItemPrice.DiscountAmount prices.
Proof.
  revert prices. induction taxes as [| t taxes IH]; intros [| p prices];
    cbn; try reflexivity. rewrite IH. reflexivity.
Qed.

Lemma taxedLines_inCurrency (cur : string) taxes prices :
  Forall (fun t => inCurrency cur (tax.LineItemTax.TaxAmount t)) taxes ->
  Forall (fun q => inCurrency cur (pricing.LineItemPrice.TaxAmount q)) prices ->
  Forall (fun q => inCurrency cur (pricing.LineItemPrice.TaxAmount q))
    (taxedLines taxes prices).
Proof.
  intros Ht. revert prices.
  induction Ht as [| t taxes Ht1 Ht2 IH]; intros prices Hp.
  - destruct prices; exact Hp.
  - destruct prices as [| p prices]; [exact Hp |].
    inversion Hp; subst. cbn. constructor; [exact Ht1 | apply IH; assumption].
Qed.

End TaxLoop.

Section LineTotals.

Variable cur : string.

#[local] Abbreviation lineInCur := (lineInCurrency cur).

Lemma lineTotal_inCurrency (q : pricing.LineItemPrice.t) :
  lineInCur q ->
  pricing.LineItemPrice.Total (pricing.lineTotal q)
  = mkMoney
      (Int64.add
         (Int64.sub (Amount (pricing.LineItemPrice.Subtotal q))
            (Amount (pricing.LineItemPrice.DiscountAmount q)))
         (Amount (pricing.LineItemPrice.TaxAmount q)))
      cur.
Proof.
  intros (Hs & Hd & Ht). unfold pricing.lineTotal.
  cbn [pricing.LineItemPrice.Total pricing.LineItemPrice.set_Total].
  rewrite (Subtract_inCur cur) by assumption.
  rewrite (Add_inCur cur) by (reflexivity || assumption). reflexivity.
Qed.

Lemma lineTotals_sum (prices : list pricing.LineItemPrice.t) :
  Forall lineInCur prices ->
  eqm64 (zsum (lineTotals (map pricing.lineTotal prices)))
    (zsum (lineSubtotals prices) - zsum (lineDiscounts prices)
     + zsum (lineTaxes prices)).
Proof.
  induction 1 as [| q prices Hq Hall IH]; [reflexivity |].
  cbn [map lineTotals lineSubtotals lineDiscounts lineTaxes zsum fold_right].
  fold (lineTotals (map pricing.lineTotal prices)).
  fold (lineSubtotals prices). fold (lineDiscounts prices). fold (lineTaxes prices).
  fold (zsum (lineTotals (map pricing.lineTotal prices))).
  fold (zsum (lineSubtotals prices)). fold (zsum (lineDiscounts prices)).
  fold (zsum (lineTaxes prices)).
  rewrite (lineTotal_inCurrency q Hq). cbn [Amount].
  unfold Int64.add, Int64.sub. rewrite IH.
  repeat setoid_rewrite wrap_eqm. eqm_lia.
Qed.

Lemma lineTotal_taxes (prices : list pricing.LineItemPrice.t) :
  lineTaxes (map pricing.lineTotal prices) = lineTaxes prices.
Proof.
  unfold lineTaxes. rewrite map_map. reflexivity.
Qed.

End LineTotals.

Section PromotionsInOneCurrency.

Variable s : pricing.PricingService.
Variable now : Z.
Variable cur : string.
Variable first : pricing.LineItem.t.
Variable rest : list pricing.LineItem.t.
Hypothesis first_inCur : inCurrency cur (pricing.LineItem.UnitPrice first).

#[local] Abbreviation discountsInCur :=
  (Forall (fun q => inCurrency cur (pricing.LineItemPrice.DiscountAmount q))).
#[local] Abbreviation subtotalsInCur :=
  (Forall (fun q => inCurrency cur (pricing.LineItemPrice.Subtotal q))).
#[local] Abbreviation appliedInCur :=
  (Forall (fun d => inCurrency cur (pricing.AppliedDiscount.Amount d))).

Lemma applyPromotion_inCurrency (code : string)
    (applied : list pricing.AppliedDiscount.t)
    (prices : list pricing.LineItemPrice.t) :
  length prices = length (first :: rest) ->
  subtotalsInCur prices -> discountsInCur prices -> appliedInCur applied ->
  eqm64 (zsum (lineDiscounts prices)) (zsum (discountAmounts applied)) ->
  (forall p, pricing.FindByCode (pricing.promotionRepo s) code = inl p ->
             pricing.Promotion.IsValid p now = true -> supported p) ->
  let st := pricing.applyPromotion s now (first :: rest) code (applied, prices) in
  discountsInCur (snd st) /\ appliedInCur (fst st)
  /\ eqm64 (zsum (lineDiscounts (snd st))) (zsum (discountAmounts (fst st))).
Proof.
  intros Hlen Hs Hd Ha Heq Hsup. unfold pricing.applyPromotion.
  destruct (pricing.FindByCode (pricing.promotionRepo s) code) as [p | e];
    [| cbn; auto].
  destruct (pricing.Promotion.IsValid p now) eqn:Hvalid; [| cbn; auto].
  cbn [negb]. rewrite calculateDiscount_lines by exact Hlen.
  unfold inCurrency in first_inCur. rewrite first_inCur.
  destruct (discount_invariant cur p (first :: rest) (Hsup p eq_refl Hvalid)
              prices (Zero cur) Hs Hd eq_refl) as (Hd' & Ht' & Heq').
  cbn [Zero Amount] in Heq'. unfold appliedDiscountOf.
  destruct (IsZero (discountSum p cur (first :: rest) prices (Zero cur)))
    eqn:Hzero; cbn [fst snd].
  - split; [exact Hd' |]. split; [exact Ha |].
    unfold IsZero in Hzero. apply Z.eqb_eq in Hzero. rewrite Hzero in Heq'.
    rewrite <- Heq.
    etransitivity; [| etransitivity; [exact Heq' |]];
      eqm_lia.
  - split; [exact Hd' |]. split.
    + apply Forall_app. split; [exact Ha |]. constructor; [exact Ht' | constructor].
    + set (X := zsum (lineDiscounts (discountLines p cur (first :: rest) prices))) in *.
      set (T := discountSum p cur (first :: rest) prices (Zero cur)) in *.
      unfold discountAmounts. rewrite map_app, zsum_app.
      cbn [map zsum fold_right pricing.AppliedDiscount.Amount].
      fold (discountAmounts applied). rewrite <- Heq.
      transitivity (X - Amount T + Amount T); [eqm_lia |].
      rewrite Heq'. eqm_lia.
Qed.

Lemma applyPromotions_loop_inCurrency (codes : list string) :
  forall (applied : list pricing.AppliedDiscount.t)
         (prices : list pricing.LineItemPrice.t),
    length prices = length (first :: rest) ->
    subtotalsInCur prices -> discountsInCur prices -> appliedInCur applied ->
    eqm64 (zsum (lineDiscounts prices)) (zsum (discountAmounts applied)) ->
    promotionsSupported s now codes ->
    let st :=
      pricing.applyPromotions_loop s now (first :: rest) codes (applied, prices) in
    discountsInCur (snd st) /\ appliedInCur (fst st)
    /\ eqm64 (zsum (lineDiscounts (snd st))) (zsum (discountAmounts (fst st))).
Proof.
  induction codes as [| code codes IH];
    intros applied prices Hlen Hs Hd Ha Heq Hsup; [cbn; auto |].
  cbn [pricing.applyPromotions_loop].
  assert (Hsup1 : forall p,
             pricing.FindByCode (pricing.promotionRepo s) code = inl p ->
             pricing.Promotion.IsValid p now = true -> supported p).
  { intros p. apply Hsup. left. reflexivity. }
  pose proof (applyPromotion_inCurrency code applied prices Hlen Hs Hd Ha Heq
                Hsup1) as (Hd1 & Ha1 & Heq1).
  pose proof (applyPromotion_spec s now (first :: rest) code applied prices prices
                Hlen eq_refl) as (_ & Hl1 & Hs1 & _).
  destruct (pricing.applyPromotion s now (first :: rest) code (applied, prices))
    as [applied1 prices1].
  cbn [fst snd] in *.
  apply IH; try assumption.
  - apply (Forall_map pricing.LineItemPrice.Subtotal (inCurrency cur)).
    rewrite Hs1. apply Forall_map. exact Hs.
  - intros c p Hin. apply Hsup. right. exact Hin.
Qed.

End PromotionsInOneCurrency.

Section PriceCartInOneCurrency.

Variable s : pricing.PricingService.
Variable now : Z.
Variable req : pricing.PriceCartRequest.t.
Variable cur : string.
Variable first : cart.CartItem.t.
Variable rest : list cart.CartItem.t.

Hypothesis items_inCur :
  Forall (fun item => inCurrency cur (cart.CartItem.Price item)) (first :: rest).

Lemma cartCurrency_inCur : cartCurrency (first :: rest) = cur.
Proof. inversion items_inCur; subst. assumption. Qed.

Lemma cartLines_inCur :
  Forall (fun item => inCurrency cur (pricing.LineItem.UnitPrice item))
    (cartLines (first :: rest)).
Proof.
  unfold cartLines. apply Forall_map.
  eapply Forall_impl; [exact items_inCur |]. intros item H. exact H.
Qed.

Lemma undiscountedPrices_inCur :
  Forall (lineInCurrency cur) (undiscountedPrices (first :: rest))
  /\ zsum (lineDiscounts (undiscountedPrices (first :: rest))) = 0.
Proof.
  unfold undiscountedPrices. rewrite cartCurrency_inCur.
  pose proof cartLines_inCur as H. revert H.
  generalize (cartLines (first :: rest)) as l.
  induction l as [| item l IH]; intros Hall; [split; [constructor | reflexivity] |].
  inversion Hall as [| ? ? Hitem Hrest]; subst.
  destruct (IH Hrest) as (IH1 & IH2). split.
  - cbn [map]. constructor; [| exact IH1].
    unfold lineInCurrency, pricing.initialPrice, inCurrency. cbn. auto.
  - cbn [map lineDiscounts zsum fold_right] in IH2 |- *.
    unfold lineDiscounts in IH2. unfold zsum in IH2. rewrite IH2. reflexivity.
Qed.

Lemma undiscountedPrices_subtotal :
  pricing.subtotalLoop (cartLines (first :: rest)) (Zero cur)
  = mkMoney (Int64.sum (lineSubtotals (undiscountedPrices (first :: rest)))) cur.
Proof.
  rewrite (subtotalLoop_inCur cur) by (reflexivity || apply cartLines_inCur).
  unfold Int64.sum, lineSubtotals, undiscountedPrices. rewrite map_map.
  reflexivity.
Qed.

Variable c : cart.Cart.t.
Hypothesis req_cart : pricing.PriceCartRequest.Cart req = Some c.
Hypothesis cart_items : cart.Cart.Items c = first :: rest.

Lemma shippingStep_inCur :
  (forall calc q rate,
      shippingCall s req = Some (calc, q) ->
      shipping.GetRate calc q = (Some rate, None) ->
      inCurrency cur (shipping.ShippingRate.Cost rate)) ->
  inCurrency cur
    (pricing.shippingStep s cur (cartLines (first :: rest)) req).
Proof.
  intros H.
  pose proof (shippingStep_call s req c first rest req_cart cart_items) as Hstep.
  rewrite cartCurrency_inCur in Hstep. rewrite Hstep.
  destruct (shippingCall s req) as [[calc q] |]; [| reflexivity].
  destruct (shipping.GetRate calc q) as [[rate |] [e |]] eqn:Hrate;
    try reflexivity.
  eapply H; [reflexivity | exact Hrate].
Qed.

Lemma taxStep_inCur :
  (forall calc q res,
      taxCall s now req = Some (calc, q) ->
      tax.Calculate calc q = inl res ->
      inCurrency cur (tax.CalculationResult.TotalTax res)
      /\ Forall (fun t => inCurrency cur (tax.LineItemTax.TaxAmount t))
           (tax.CalculationResult.LineItemTaxes res)) ->
  let prices :=
    snd (afterPromotions s now (first :: rest)
           (pricing.PriceCartRequest.PromotionCodes req)) in
  let taxed :=
    pricing.taxStep s cur (cartLines (first :: rest)) prices
      (pricing.shippingStep s cur (cartLines (first :: rest)) req) req in
  inCurrency cur (snd (fst taxed))
  /\ Forall (fun q => inCurrency cur (pricing.LineItemPrice.TaxAmount q))
       (snd taxed)
  /\ map pricing.LineItemPrice.Subtotal (snd taxed)
     = map pricing.LineItemPrice.Subtotal prices
  /\ map pricing.LineItemPrice.DiscountAmount (snd taxed)
     = map pricing.LineItemPrice.DiscountAmount prices.
Proof.
  intros H prices.
  assert (Hp : Forall (fun q => inCurrency cur (pricing.LineItemPrice.TaxAmount q))
                 prices).
  { apply (Forall_map pricing.LineItemPrice.TaxAmount (inCurrency cur)).
    subst prices.
    rewrite (proj2 (proj2 (proj2 (PriceCart_prices_length s now (first :: rest)
                                    (pricing.PriceCartRequest.PromotionCodes req))))).
    apply Forall_map.
    eapply Forall_impl; [apply (proj1 undiscountedPrices_inCur) |].
    intros q (_ & _ & Hq). exact Hq. }
  assert (Hcall : forall calc addr,
             pricing.PriceCartRequest.ShippingAddress req = Some addr ->
             pricing.taxCalculator s = Some calc ->
             taxCall s now req
             = Some (calc,
                     pricing.taxRequest (cartLines (first :: rest)) prices
                       (pricing.shippingStep s cur (cartLines (first :: rest)) req)
                       req)).
  { intros calc addr Ha Hc. unfold taxCall.
    rewrite req_cart, cart_items, Ha, Hc, cartCurrency_inCur. reflexivity. }
  unfold pricing.taxStep.
  destruct (pricing.PriceCartRequest.ShippingAddress req) as [addr |];
    [| cbn; repeat split; (reflexivity || assumption)].
  destruct (pricing.taxCalculator s) as [calc |] eqn:Hcalc;
    [| cbn; repeat split; (reflexivity || assumption)].
  destruct (tax.Calculate calc _) as [res | e] eqn:Hres;
    [| cbn; repeat split; (reflexivity || assumption)].
  destruct (H calc _ res (Hcall calc addr eq_refl eq_refl) Hres) as (Ht & Hl).
  cbn [fst snd].
  pose proof (updateLineTaxes_lines (tax.CalculationResult.LineItemTaxes res)
                [] prices) as Hlines.
  cbn [length app] in Hlines. rewrite Hlines.
  rewrite taxedLines_subtotal, taxedLines_discount.
  split; [exact Ht |]. split; [| auto].
  apply taxedLines_inCurrency; assumption.
Qed.

End PriceCartInOneCurrency.

Lemma map_eq_Forall {A B : Type} (f : A -> B) (P : B -> Prop) (l1 l2 : list A) :
  map f l1 = map f l2 -> Forall (fun x => P (f x)) l2 -> Forall (fun x => P (f x)) l1.
Proof.
  intros Heq H. apply (Forall_map f P). rewrite Heq. apply Forall_map. exact H.
Qed.

Lemma lineSubtotals_map (l1 l2 : list pricing.LineItemPrice.t) :
  map pricing.LineItemPrice.Subtotal l1 = map pricing.LineItemPrice.Subtotal l2 ->
  lineSubtotals l1 = lineSubtotals l2.
Proof.
  intros H. unfold lineSubtotals.
  rewrite <- (map_map pricing.LineItemPrice.Subtotal Amount l1),
    <- (map_map pricing.LineItemPrice.Subtotal Amount l2), H. reflexivity.
Qed.

Lemma lineDiscounts_map (l1 l2 : list pricing.LineItemPrice.t) :
  map pricing.LineItemPrice.DiscountAmount l1
  = map pricing.LineItemPrice.DiscountAmount l2 ->
  lineDiscounts l1 = lineDiscounts l2.
Proof.
  intros H. unfold lineDiscounts.
  rewrite <- (map_map pricing.LineItemPrice.DiscountAmount Amount l1),
    <- (map_map pricing.LineItemPrice.DiscountAmount Amount l2), H. reflexivity.
Qed.

(** The facts about a priced cart in one currency that the statements
    below share. *)
Lemma PriceCart_in_one_currency (s : pricing.PricingService) (now : Z)
    (req : pricing.PriceCartRequest.t) (c : cart.Cart.t) (cur : string)
    (first : cart.CartItem.t) (rest : list cart.CartItem.t) :
  pricing.PriceCartRequest.Cart req = Some c ->
  cart.Cart.Items c = first :: rest ->
  Forall (fun item => inCurrency cur (cart.CartItem.Price item)) (first :: rest) ->
  promotionsSupported s now (pricing.PriceCartRequest.PromotionCodes req) ->
  let promoted :=
    afterPromotions s now (first :: rest)
      (pricing.PriceCartRequest.PromotionCodes req) in
  Forall (fun d => inCurrency cur (pricing.AppliedDiscount.Amount d)) (fst promoted)
  /\ Forall (fun q => inCurrency cur (pricing.LineItemPrice.Subtotal q))
       (snd promoted)
  /\ Forall (fun q => inCurrency cur (pricing.LineItemPrice.DiscountAmount q))
       (snd promoted)
  /\ lineSubtotals (snd promoted)
     = lineSubtotals (undiscountedPrices (first :: rest))
  /\ eqm64 (zsum (lineDiscounts (snd promoted)))
       (zsum (discountAmounts (fst promoted)))
  /\ pricing.PricingResult.Subtotal (pricedResult s now req (first :: rest))
     = mkMoney (Int64.sum (lineSubtotals (undiscountedPrices (first :: rest)))) cur
  /\ pricing.PricingResult.DiscountTotal (pricedResult s now req (first :: rest))
     = mkMoney (Int64.sum (discountAmounts (fst promoted))) cur.
Proof.
  intros Hc Hi Hitems Hsup promoted.
  pose proof (cartCurrency_inCur cur first rest Hitems) as Hcur.
  pose proof (undiscountedPrices_inCur cur first rest Hitems) as (Hund & Hund0).
  pose proof (PriceCart_prices_length s now (first :: rest)
                (pricing.PriceCartRequest.PromotionCodes req))
    as (Hlen0 & Hlen1 & Hsub1 & Htax1).
  assert (Hfirst : inCurrency cur
                     (pricing.LineItem.UnitPrice (pricing.toLineItem first))).
  { inversion Hitems; subst. assumption. }
  assert (Hs0 : Forall (fun q => inCurrency cur (pricing.LineItemPrice.Subtotal q))
                  (undiscountedPrices (first :: rest))).
  { eapply Forall_impl; [exact Hund |]. intros q (Hq & _). exact Hq. }
  assert (Hd0 : Forall (fun q => inCurrency cur (pricing.LineItemPrice.DiscountAmount q))
                  (undiscountedPrices (first :: rest))).
  { eapply Forall_impl; [exact Hund |]. intros q (_ & Hq & _). exact Hq. }
  pose proof (applyPromotions_loop_inCurrency s now cur (pricing.toLineItem first)
                (cartLines rest) Hfirst
                (pricing.PriceCartRequest.PromotionCodes req) []
                (undiscountedPrices (first :: rest)) Hlen0 Hs0 Hd0
                ltac:(constructor)) as Hloop.
  cbn zeta in Hloop.
  specialize (Hloop ltac:(rewrite Hund0; reflexivity) Hsup)
    as (Hd1 & Ha1 & Heq1).
  change (pricing.applyPromotions_loop s now
            (pricing.toLineItem first :: cartLines rest)
            (pricing.PriceCartRequest.PromotionCodes req)
            ([], undiscountedPrices (first :: rest)))
    with promoted in Hd1, Ha1, Heq1.
  fold promoted in Hlen1, Hsub1, Htax1.
  assert (Hs1 : Forall (fun q => inCurrency cur (pricing.LineItemPrice.Subtotal q))
                  (snd promoted)).
  { eapply map_eq_Forall; [exact Hsub1 | exact Hs0]. }
  split; [exact Ha1 |]. split; [exact Hs1 |]. split; [exact Hd1 |].
  split; [apply lineSubtotals_map, Hsub1 |]. split; [exact Heq1 |].
  unfold pricedResult.
  cbn [pricing.PricingResult.Subtotal pricing.PricingResult.DiscountTotal].
  rewrite Hcur. split.
  - apply undiscountedPrices_subtotal. exact Hitems.
  - fold promoted.
    rewrite (discountTotalLoop_inCur cur) by (reflexivity || exact Ha1).
    reflexivity.
Qed.

Lemma taxedLines_lineTaxes (taxes : list tax.LineItemTax.t) :
  forall prices : list pricing.LineItemPrice.t,
    lineTaxes (taxedLines taxes prices)
    = take (length prices) (lineTaxAmounts taxes)
      ++ drop (length taxes) (lineTaxes prices).
Proof.
  induction taxes as [| t taxes IH]; intros [| p prices]; try reflexivity.
  cbn [taxedLines length lineTaxAmounts lineTaxes map take drop app].
  f_equal. apply IH.
Qed.

Lemma undiscountedPrices_lineTaxes (items : list cart.CartItem.t) :
  lineTaxes (undiscountedPrices items) = replicate (length items) 0.
Proof.
  unfold undiscountedPrices, cartLines, lineTaxes. rewrite !map_map.
  generalize (cartCurrency items) as currency. intros currency.
  induction items as [| item items IH]; [reflexivity |].
  cbn [map length replicate]. rewrite IH. reflexivity.
Qed.

(** The line taxes of the result are the line taxes the calculator
    reports, copied by position. *)
Lemma pricedResult_lineTaxes (s : pricing.PricingService) (now : Z)
    (req : pricing.PriceCartRequest.t) (c : cart.Cart.t)
    (first : cart.CartItem.t) (rest : list cart.CartItem.t) :
  pricing.PriceCartRequest.Cart req = Some c ->
  cart.Cart.Items c = first :: rest ->
  lineTaxes (pricing.PricingResult.LineItemPrices
               (pricedResult s now req (first :: rest)))
  = copiedLineTaxes (length (first :: rest)) (reportedLineTaxes s now req).
Proof.
  intros Hc Hi.
  pose proof (PriceCart_prices_length s now (first :: rest)
                (pricing.PriceCartRequest.PromotionCodes req))
    as (_ & Hlen & _ & Htax).
  assert (Hzero : lineTaxes (snd (afterPromotions s now (first :: rest)
                                    (pricing.PriceCartRequest.PromotionCodes req)))
                  = replicate (length (first :: rest)) 0).
  { rewrite <- undiscountedPrices_lineTaxes. unfold lineTaxes.
    rewrite <- !(map_map pricing.LineItemPrice.TaxAmount Amount), Htax.
    reflexivity. }
  unfold cartLines in Hlen. rewrite length_map in Hlen.
  unfold pricedResult. cbn [pricing.PricingResult.LineItemPrices].
  rewrite lineTotal_taxes.
  unfold copiedLineTaxes, reportedLineTaxes, taxCall, pricing.taxStep.
  rewrite Hc, Hi.
  set (prices := snd (afterPromotions s now (first :: rest)
                        (pricing.PriceCartRequest.PromotionCodes req))) in *.
  destruct (pricing.PriceCartRequest.ShippingAddress req) as [addr |];
    [| cbn [snd length lineTaxAmounts map]; rewrite take_nil, Nat.sub_0_r;
       exact Hzero].
  destruct (pricing.taxCalculator s) as [calc |];
    [| cbn [snd length lineTaxAmounts map]; rewrite take_nil, Nat.sub_0_r;
       exact Hzero].
  cbn zeta.
  destruct (tax.Calculate calc _) as [res | e];
    [| cbn [snd length lineTaxAmounts map]; rewrite take_nil, Nat.sub_0_r;
       exact Hzero].
  cbn [snd].
  pose proof (updateLineTaxes_lines (tax.CalculationResult.LineItemTaxes res)
                [] prices) as Hlines.
  cbn [length app] in Hlines. rewrite Hlines.
  rewrite taxedLines_lineTaxes, Hlen, Hzero, drop_replicate. reflexivity.
Qed.

(** C4, as the code has it.  When every cart line is priced in one
    currency, every valid promotion among the codes is a percentage or a
    fixed-amount promotion, and the shipping quote and the tax amounts
    come back in that currency, the total of the result is subtotal minus
    discount total plus tax total plus shipping total in [int64]
    arithmetic, and the line totals add up to subtotal minus discount
    total plus the sum of the line taxes.  The line taxes are the line
    taxes the calculator reported, copied by position: a line past the
    reported ones keeps zero and the reported ones past the lines are
    dropped, so that they need add up neither to the tax total nor to the
    sum of what the calculator reported. *)
Theorem PriceCart_totals (s : pricing.PricingService) (now : Z)
    (req : pricing.PriceCartRequest.t) (c : cart.Cart.t) (cur : string)
    (first : cart.CartItem.t) (rest : list cart.CartItem.t) :
  pricing.PriceCartRequest.Cart req = Some c ->
  cart.Cart.Items c = first :: rest ->
  Forall (fun item => inCurrency cur (cart.CartItem.Price item)) (first :: rest) ->
  promotionsSupported s now (pricing.PriceCartRequest.PromotionCodes req) ->
  (forall calc q rate,
      shippingCall s req = Some (calc, q) ->
      shipping.GetRate calc q = (Some rate, None) ->
      inCurrency cur (shipping.ShippingRate.Cost rate)) ->
  (forall calc q res,
      taxCall s now req = Some (calc, q) ->
      tax.Calculate calc q = inl res ->
      inCurrency cur (tax.CalculationResult.TotalTax res)
      /\ Forall (fun t => inCurrency cur (tax.LineItemTax.TaxAmount t))
           (tax.CalculationResult.LineItemTaxes res)) ->
  exists r : pricing.PricingResult.t,
    pricing.PriceCart s now req = (Some r, None)
    /\ pricing.PricingResult.Total r
       = mkMoney
           (Int64.add
              (Int64.add
                 (Int64.sub (Amount (pricing.PricingResult.Subtotal r))
                    (Amount (pricing.PricingResult.DiscountTotal r)))
                 (Amount (pricing.PricingResult.TaxTotal r)))
              (Amount (pricing.PricingResult.ShippingTotal r)))
           cur
    /\ Int64.sum (lineTotals (pricing.PricingResult.LineItemPrices r))
       = Int64.add
           (Int64.sub (Amount (pricing.PricingResult.Subtotal r))
              (Amount (pricing.PricingResult.DiscountTotal r)))
           (Int64.sum (lineTaxes (pricing.PricingResult.LineItemPrices r)))
    /\ lineTaxes (pricing.PricingResult.LineItemPrices r)
       = copiedLineTaxes (length (first :: rest)) (reportedLineTaxes s now req)
    /\ Int64.sum (lineTotals (pricing.PricingResult.LineItemPrices r))
       = Int64.add
           (Int64.sub (Amount (pricing.PricingResult.Subtotal r))
              (Amount (pricing.PricingResult.DiscountTotal r)))
           (Int64.sum
              (copiedLineTaxes (length (first :: rest))
                 (reportedLineTaxes s now req))).
Proof.
  intros Hc Hi Hitems Hsup Hship Htax.
  exists (pricedResult s now req (first :: rest)).
  split; [apply (PriceCart_nonempty s now req c first rest Hc Hi) |].
  rewrite <- (pricedResult_lineTaxes s now req c first rest Hc Hi).
  assert (Hgoal :
    pricing.PricingResult.Total (pricedResult s now req (first :: rest))
    = mkMoney
        (Int64.add
           (Int64.add
              (Int64.sub
                 (Amount (pricing.PricingResult.Subtotal
                            (pricedResult s now req (first :: rest))))
                 (Amount (pricing.PricingResult.DiscountTotal
                            (pricedResult s now req (first :: rest)))))
              (Amount (pricing.PricingResult.TaxTotal
                         (pricedResult s now req (first :: rest)))))
           (Amount (pricing.PricingResult.ShippingTotal
                      (pricedResult s now req (first :: rest)))))
        cur
    /\ Int64.sum (lineTotals (pricing.PricingResult.LineItemPrices
                                (pricedResult s now req (first :: rest))))
       = Int64.add
           (Int64.sub
              (Amount (pricing.PricingResult.Subtotal
                         (pricedResult s now req (first :: rest))))
              (Amount (pricing.PricingResult.DiscountTotal
                         (pricedResult s now req (first :: rest)))))
           (Int64.sum (lineTaxes (pricing.PricingResult.LineItemPrices
                                    (pricedResult s now req (first :: rest)))))).
  2:{ destruct Hgoal as (Htotal & Hlines).
      split; [exact Htotal |]. split; [exact Hlines |].
      split; [reflexivity | exact Hlines]. }
  pose proof (PriceCart_in_one_currency s now req c cur first rest Hc Hi Hitems
                Hsup) as (Ha1 & Hs1 & Hd1 & Hls & Heq1 & Hsub & Hdisc).
  pose proof (cartCurrency_inCur cur first rest Hitems) as Hcur.
  pose proof (shippingStep_inCur s req cur first rest Hitems c Hc Hi Hship)
    as Hsh.
  pose proof (taxStep_inCur s now req cur first rest Hitems c Hc Hi Htax)
    as (Htt & Htl & Hts & Htd).
  rewrite Hsub, Hdisc. unfold pricedResult in *.
  cbn [pricing.PricingResult.Subtotal pricing.PricingResult.DiscountTotal
         pricing.PricingResult.TaxTotal pricing.PricingResult.ShippingTotal
         pricing.PricingResult.Total pricing.PricingResult.LineItemPrices Amount]
    in *.
  rewrite Hcur in *. rewrite Hsub, Hdisc.
  set (promoted := afterPromotions s now (first :: rest)
                     (pricing.PriceCartRequest.PromotionCodes req)) in *.
  set (shippingTotal := pricing.shippingStep s cur (cartLines (first :: rest)) req)
    in *.
  set (taxed := pricing.taxStep s cur (cartLines (first :: rest)) (snd promoted)
                  shippingTotal req) in *.
  split.
  - rewrite (Subtract_inCur cur) by reflexivity.
    rewrite (Add_inCur cur _ (snd (fst taxed))) by (reflexivity || exact Htt).
    rewrite (Add_inCur cur _ shippingTotal) by (reflexivity || exact Hsh).
    reflexivity.
  - assert (Hlines : Forall (lineInCurrency cur) (snd taxed)).
    { apply Forall_forall. intros q Hq. repeat split.
      - pose proof (map_eq_Forall pricing.LineItemPrice.Subtotal (inCurrency cur)
                      _ _ Hts Hs1) as H.
        rewrite Forall_forall in H. apply H, Hq.
      - pose proof (map_eq_Forall pricing.LineItemPrice.DiscountAmount
                      (inCurrency cur) _ _ Htd Hd1) as H.
        rewrite Forall_forall in H. apply H, Hq.
      - rewrite Forall_forall in Htl. apply Htl, Hq. }
    rewrite lineTotal_taxes, !sum_wrap. unfold Int64.add, Int64.sub.
    apply wrap_proper. rewrite (lineTotals_sum cur _ Hlines).
    rewrite (lineSubtotals_map _ _ Hts), Hls.
    rewrite (lineDiscounts_map _ _ Htd), Heq1.
    repeat setoid_rewrite wrap_eqm. reflexivity.
Qed.

Lemma PriceCart_totals_witness :
  (exists r : pricing.PricingResult.t,
     pricing.PriceCart sample.pricingWithTaxAndShipping 5
       (sample.priceRequest
          [sample.cartItem "line-1" "A" (mkMoney 10000 "USD") 1]
          ["SAVE10"; "FIVEOFF"])
     = (Some r, None)
     /\ pricing.PricingResult.Total r
        = mkMoney
            (Int64.add
               (Int64.add
                  (Int64.sub (Amount (pricing.PricingResult.Subtotal r))
                     (Amount (pricing.PricingResult.DiscountTotal r)))
                  (Amount (pricing.PricingResult.TaxTotal r)))
               (Amount (pricing.PricingResult.ShippingTotal r)))
            "USD"
     /\ Int64.sum (lineTotals (pricing.PricingResult.LineItemPrices r))
        = Int64.add
            (Int64.sub (Amount (pricing.PricingResult.Subtotal r))
               (Amount (pricing.PricingResult.DiscountTotal r)))
            (Int64.sum (lineTaxes (pricing.PricingResult.LineItemPrices r))))
  /\ (exists r : pricing.PricingResult.t,
        pricing.PriceCart sample.pricingWithPercentTax 5
          (sample.priceRequest
             [sample.cartItem "line-1" "A" (mkMoney 10000 "USD") 1]
             ["SAVE10"; "FIVEOFF"])
        = (Some r, None)
        /\ lineTaxAmounts
             (reportedLineTaxes sample.pricingWithPercentTax 5
                (sample.priceRequest
                   [sample.cartItem "line-1" "A" (mkMoney 10000 "USD") 1]
                   ["SAVE10"; "FIVEOFF"]))
           = [100; 10]
        /\ lineTaxes (pricing.PricingResult.LineItemPrices r) = [100]
        /\ lineTotals (pricing.PricingResult.LineItemPrices r) = [8600]
        /\ pricing.PricingResult.TaxTotal r = mkMoney 110 "USD"
        /\ pricing.PricingResult.Total r = mkMoney 9610 "USD").
Proof.
  split.
  - destruct
      (PriceCart_totals sample.pricingWithTaxAndShipping 5
         (sample.priceRequest
            [sample.cartItem "line-1" "A" (mkMoney 10000 "USD") 1]
            ["SAVE10"; "FIVEOFF"])
         (sample.cartOf [sample.cartItem "line-1" "A" (mkMoney 10000 "USD") 1])
         "USD"
         (sample.cartItem "line-1" "A" (mkMoney 10000 "USD") 1) [])
      as (r & Hr & Htotal & Hlines & _).
    + reflexivity.
    + reflexivity.
    + repeat constructor.
    + intros code p [<- | [<- | []]] Hfind _; vm_compute in Hfind;
        injection Hfind as <-; [left | right]; reflexivity.
    + intros calc q rate Hcall Hrate. vm_compute in Hcall.
      injection Hcall as <- <-. vm_compute in Hrate. injection Hrate as <-.
      reflexivity.
    + intros calc q res Hcall Hres.
      assert (Hq : taxCall sample.pricingWithTaxAndShipping 5
                     (sample.priceRequest
                        [sample.cartItem "line-1" "A" (mkMoney 10000 "USD") 1]
                        ["SAVE10"; "FIVEOFF"])
                   = Some (sample.SimpleTaxCalculator sample.lit_0_08,
                           tax.CalculationRequest.mk
                             [tax.TaxableItem.mk "line-1" (mkMoney 10000 "USD") 1
                                "" false]
                             (mkMoney 1000 "USD")
                             (tax.Address.mk "GB" "" "London" "SW1Y 4JH" "")
                             false)) by reflexivity.
      rewrite Hq in Hcall. injection Hcall as <- <-.
      vm_compute in Hres. injection Hres as <-.
      split; [reflexivity | repeat constructor].
    + exists r. auto.
  - destruct
      (PriceCart_totals sample.pricingWithPercentTax 5
         (sample.priceRequest
            [sample.cartItem "line-1" "A" (mkMoney 10000 "USD") 1]
            ["SAVE10"; "FIVEOFF"])
         (sample.cartOf [sample.cartItem "line-1" "A" (mkMoney 10000 "USD") 1])
         "USD"
         (sample.cartItem "line-1" "A" (mkMoney 10000 "USD") 1) [])
      as (r & Hr & Htotal & _ & Htaxes & _).
    + reflexivity.
    + reflexivity.
    + repeat constructor.
    + intros code p [<- | [<- | []]] Hfind _; vm_compute in Hfind;
        injection Hfind as <-; [left | right]; reflexivity.
    + intros calc q rate Hcall Hrate. vm_compute in Hcall.
      injection Hcall as <- <-. vm_compute in Hrate. injection Hrate as <-.
      reflexivity.
    + intros calc q res Hcall Hres.
      assert (Hq : taxCall sample.pricingWithPercentTax 5
                     (sample.priceRequest
                        [sample.cartItem "line-1" "A" (mkMoney 10000 "USD") 1]
                        ["SAVE10"; "FIVEOFF"])
                   = Some (sample.percentTaxCalculator 1,
                           tax.CalculationRequest.mk
                             [tax.TaxableItem.mk "line-1" (mkMoney 10000 "USD") 1
                                "" false]
                             (mkMoney 1000 "USD")
                             (tax.Address.mk "GB" "" "London" "SW1Y 4JH" "")
                             false)) by reflexivity.
      rewrite Hq in Hcall. injection Hcall as <- <-.
      vm_compute in Hres. injection Hres as <-.
      split; [reflexivity | repeat constructor].
    + exists r. split; [exact Hr |].
      assert (Hreported :
        lineTaxAmounts
          (reportedLineTaxes sample.pricingWithPercentTax 5
             (sample.priceRequest
                [sample.cartItem "line-1" "A" (mkMoney 10000 "USD") 1]
                ["SAVE10"; "FIVEOFF"]))
        = [100; 10]) by (vm_compute; reflexivity).
      split; [exact Hreported |].
      split; [rewrite Htaxes; unfold copiedLineTaxes; rewrite Hreported;
              reflexivity |].
      vm_compute in Hr. injection Hr as <-.
      repeat split.
Defined.

(** C4, as stated, fails twice.  With the tax calculator of the sample
    project at 8% and shipping at 1000, a cart of one line of 10000 gets a
    tax total of 80 (the tax on the shipping cost) while no line carries
    any tax: the line totals add up to 10000, not to subtotal minus
    discount plus tax total, 10080.  And in a cart that mixes two
    currencies the subtotal and the total collapse to the zero value while
    shipping is 1000 and tax is 80. *)
Lemma PriceCart_totals_counterexample :
  option_map
    (fun r =>
       (pricing.PricingResult.Subtotal r, pricing.PricingResult.DiscountTotal r,
        pricing.PricingResult.TaxTotal r,
        lineTaxes (pricing.PricingResult.LineItemPrices r),
        lineTotals (pricing.PricingResult.LineItemPrices r)))
    (fst (pricing.PriceCart sample.pricingWithTaxAndShipping 5
            (sample.priceRequest
               [sample.cartItem "line-1" "A" (mkMoney 10000 "USD") 1] [])))
  = Some (mkMoney 10000 "USD", mkMoney 0 "USD", mkMoney 80 "USD", [0], [10000])
  /\ option_map
       (fun r =>
          (pricing.PricingResult.Subtotal r,
           pricing.PricingResult.DiscountTotal r,
           pricing.PricingResult.TaxTotal r,
           pricing.PricingResult.ShippingTotal r,
           pricing.PricingResult.Total r))
       (fst (pricing.PriceCart sample.pricingWithTaxAndShipping 5
               (sample.priceRequest
                  [sample.cartItem "line-1" "A" (mkMoney 1000 "USD") 1;
                   sample.cartItem "line-2" "B" (mkMoney 500 "EUR") 1] [])))
     = Some (mkMoney 0 "", mkMoney 0 "USD", mkMoney 80 "USD",
             mkMoney 1000 "USD", mkMoney 0 "").
Proof. split; vm_compute; reflexivity. Qed.

(** ** Stacked promotions *)

(** C5, as the code has it.  Each valid code yields the discount that
    [calculateDiscount] computes on the undiscounted price lines, whatever
    the other codes did; the applied discounts are these, in the order of
    the codes, and the discount total is their sum.  A cart of one line of
    10000 under a 10% promotion and a fixed promotion of 500 has a
    discount total of 1500. *)
Theorem promotions_stack_additively (s : pricing.PricingService) (now : Z)
    (req : pricing.PriceCartRequest.t) (c : cart.Cart.t)
    (first : cart.CartItem.t) (rest : list cart.CartItem.t) :
  pricing.PriceCartRequest.Cart req = Some c ->
  cart.Cart.Items c = first :: rest ->
  exists r : pricing.PricingResult.t,
    pricing.PriceCart s now req = (Some r, None)
    /\ pricing.PricingResult.AppliedDiscounts r
       = omap (independentDiscount s now (first :: rest))
           (pricing.PriceCartRequest.PromotionCodes req)
    /\ pricing.PricingResult.DiscountTotal r
       = pricing.discountTotalLoop
           (omap (independentDiscount s now (first :: rest))
              (pricing.PriceCartRequest.PromotionCodes req))
           (Zero (Currency (cart.CartItem.Price first)))
    /\ (Forall (fun item => inCurrency (Currency (cart.CartItem.Price first))
                              (cart.CartItem.Price item)) rest ->
        promotionsSupported s now (pricing.PriceCartRequest.PromotionCodes req) ->
        Amount (pricing.PricingResult.DiscountTotal r)
        = Int64.sum
            (discountAmounts
               (omap (independentDiscount s now (first :: rest))
                  (pricing.PriceCartRequest.PromotionCodes req))))
    /\ option_map pricing.PricingResult.DiscountTotal
         (fst (pricing.PriceCart sample.pricingOnly 5
                 (sample.priceRequest
                    [sample.cartItem "line-1" "A" (mkMoney 10000 "USD") 1]
                    ["SAVE10"; "FIVEOFF"])))
       = Some (mkMoney 1500 "USD").
Proof.
  intros Hc Hi. exists (pricedResult s now req (first :: rest)).
  split; [apply (PriceCart_nonempty s now req c first rest Hc Hi) |].
  pose proof (afterPromotions_independent s now (first :: rest)
                (pricing.PriceCartRequest.PromotionCodes req)) as Hind.
  split; [| split; [| split]].
  - unfold pricedResult. cbn [pricing.PricingResult.AppliedDiscounts].
    exact Hind.
  - unfold pricedResult. cbn [pricing.PricingResult.DiscountTotal].
    rewrite Hind. reflexivity.
  - intros Hrest Hsup.
    assert (Hitems : Forall (fun item => inCurrency (Currency (cart.CartItem.Price first))
                                           (cart.CartItem.Price item))
                       (first :: rest))
      by (constructor; [reflexivity | exact Hrest]).
    pose proof (PriceCart_in_one_currency s now req c _ first rest Hc Hi Hitems
                  Hsup) as (_ & _ & _ & _ & _ & _ & Hdisc).
    rewrite Hdisc, Hind. reflexivity.
  - vm_compute. reflexivity.
Qed.

Lemma promotions_stack_additively_witness :
  exists r : pricing.PricingResult.t,
    pricing.PriceCart sample.pricingOnly 5
      (sample.priceRequest
         [sample.cartItem "line-1" "A" (mkMoney 10000 "USD") 1]
         ["SAVE10"; "EXPIRED"; "FIVEOFF"])
    = (Some r, None)
    /\ map pricing.AppliedDiscount.Amount (pricing.PricingResult.AppliedDiscounts r)
       = [mkMoney 1000 "USD"; mkMoney 500 "USD"]
    /\ pricing.PricingResult.DiscountTotal r = mkMoney 1500 "USD".
Proof.
  destruct
    (promotions_stack_additively sample.pricingOnly 5
       (sample.priceRequest
          [sample.cartItem "line-1" "A" (mkMoney 10000 "USD") 1]
          ["SAVE10"; "EXPIRED"; "FIVEOFF"])
       (sample.cartOf [sample.cartItem "line-1" "A" (mkMoney 10000 "USD") 1])
       (sample.cartItem "line-1" "A" (mkMoney 10000 "USD") 1) []
       eq_refl eq_refl) as (r & Hr & Happlied & Htotal & _).
  exists r. split; [exact Hr |]. split.
  - rewrite Happlied. vm_compute. reflexivity.
  - rewrite Htotal. vm_compute. reflexivity.
Defined.

(** C5, as stated, fails on a cart of two lines: the subtotal is 10000,
    the 10% promotion yields 1000, and the fixed promotion of 500 is
    granted to each of the two lines, so the discount total is 2000. *)
Lemma promotions_stack_counterexample :
  option_map
    (fun r =>
       (pricing.PricingResult.Subtotal r,
        map pricing.AppliedDiscount.Amount (pricing.PricingResult.AppliedDiscounts r),
        pricing.PricingResult.DiscountTotal r))
    (fst (pricing.PriceCart sample.pricingOnly 5
            (sample.priceRequest
               [sample.cartItem "line-1" "A" (mkMoney 5000 "USD") 1;
                sample.cartItem "line-2" "B" (mkMoney 2500 "USD") 2]
               ["SAVE10"; "FIVEOFF"])))
  = Some (mkMoney 10000 "USD", [mkMoney 1000 "USD"; mkMoney 1000 "USD"],
          mkMoney 2000 "USD").
Proof. vm_compute. reflexivity. Qed.

(** ** The taxable amount *)

Lemma convertToTaxableItems_amounts (items : list pricing.LineItem.t) :
  forall prices : list pricing.LineItemPrice.t,
    length prices = length items ->
    map tax.TaxableItem.Amount (pricing.convertToTaxableItems items prices)
    = map pricing.LineItemPrice.Subtotal prices.
Proof.
  induction items as [| item items IH]; intros [| price prices] Hlen;
    try discriminate; [reflexivity |].
  cbn. rewrite IH by (cbn in Hlen; lia). reflexivity.
Qed.

Lemma undiscountedPrices_subtotals (items : list cart.CartItem.t) :
  map pricing.LineItemPrice.Subtotal (undiscountedPrices items)
  = map (fun item => MultiplyInt (cart.CartItem.Price item)
                       (cart.CartItem.Quantity item)) items.
Proof.
  unfold undiscountedPrices, cartLines. rewrite !map_map. reflexivity.
Qed.

Lemma convertToTaxableItems_cart (items : list cart.CartItem.t) :
  forall prices : list pricing.LineItemPrice.t,
    map pricing.LineItemPrice.Subtotal prices
    = map (fun item => MultiplyInt (cart.CartItem.Price item)
                         (cart.CartItem.Quantity item)) items ->
    pricing.convertToTaxableItems (cartLines items) prices
    = map taxableItemOf items.
Proof.
  induction items as [| item items IH]; intros [| price prices] Hsub;
    try discriminate; [reflexivity |].
  cbn [map] in Hsub. injection Hsub as Hprice Hsub.
  cbn [cartLines map pricing.convertToTaxableItems].
  fold (cartLines items). rewrite (IH prices Hsub).
  unfold taxableItemOf. cbn [pricing.toLineItem pricing.LineItem.ID
                               pricing.LineItem.Quantity].
  rewrite Hprice. reflexivity.
Qed.

Lemma taxableSubtotal_untaxed (items : list cart.CartItem.t) (subtotal : Money) :
  sample.taxableSubtotal (map taxableItemOf items) subtotal = subtotal.
Proof.
  induction items as [| item items IH]; [reflexivity |].
  cbn [map sample.taxableSubtotal taxableItemOf tax.TaxableItem.IsTaxable].
  exact IH.
Qed.

Lemma taxedLines_Forall (P : Money -> Prop) (taxes : list tax.LineItemTax.t) :
  Forall (fun t => P (tax.LineItemTax.TaxAmount t)) taxes ->
  forall prices : list pricing.LineItemPrice.t,
    Forall (fun q => P (pricing.LineItemPrice.TaxAmount q)) prices ->
    Forall (fun q => P (pricing.LineItemPrice.TaxAmount q))
      (taxedLines taxes prices).
Proof.
  induction 1 as [| t taxes Ht1 Ht2 IH]; intros prices Hp.
  - destruct prices; exact Hp.
  - destruct prices as [| p prices]; [exact Hp |].
    inversion Hp; subst. cbn. constructor; [exact Ht1 | apply IH; assumption].
Qed.

(** What the tax calculator of the sample project makes of the request
    of [PriceCart]: no line is marked as taxable, so the tax total is the
    tax on the shipping cost alone and no line carries any tax. *)
Lemma SimpleTaxCalculator_shipping_only (rate : Float64.float64)
    (first : cart.CartItem.t) (rest : list cart.CartItem.t)
    (shippingTotal : Money) (address : tax.Address.t) (inclusive : bool) :
  exists res : tax.CalculationResult.t,
    tax.Calculate (sample.SimpleTaxCalculator rate)
      (tax.CalculationRequest.mk (map taxableItemOf (first :: rest))
         shippingTotal address inclusive)
    = inl res
    /\ tax.CalculationResult.TotalTax res
       = Multiply (fst (Add (Zero (Currency (cart.CartItem.Price first)))
                          shippingTotal)) rate
    /\ Forall (fun t => tax.LineItemTax.TaxAmount t
                        = Zero (Currency (cart.CartItem.Price first)))
         (tax.CalculationResult.LineItemTaxes res).
Proof.
  eexists. split; [reflexivity |].
  cbn [tax.CalculationResult.TotalTax tax.CalculationResult.LineItemTaxes
         tax.CalculationRequest.LineItems tax.CalculationRequest.ShippingCost].
  split.
  - rewrite taxableSubtotal_untaxed. reflexivity.
  - apply Forall_map, Forall_map, Forall_forall. intros item _. reflexivity.
Qed.

(** C2, as the code has it.  When [PriceCart] calls the tax calculator,
    the request holds one item per cart line, with the id of the line, its
    undiscounted subtotal (unit price times quantity) as amount whatever
    discounts the promotions put on the lines, its quantity once more, and
    [IsTaxable] left false; the shipping cost is the shipping total and
    the address is the shipping address.  The tax total of the result is
    the total tax the calculator answers on that request.  With every line
    in one currency the amounts of the request add up to the cart subtotal
    plus the shipping total.  What of these amounts is taxed is up to the
    calculator: the one of the sample project skips the items that are not
    marked as taxable, so that it taxes the shipping cost alone and no
    line carries any tax. *)
Theorem PriceCart_taxes_undiscounted_subtotal (s : pricing.PricingService)
    (now : Z) (req : pricing.PriceCartRequest.t) (c : cart.Cart.t)
    (first : cart.CartItem.t) (rest : list cart.CartItem.t)
    (addr : pricing.Address.t) (calc : tax.Calculator) :
  pricing.PriceCartRequest.Cart req = Some c ->
  cart.Cart.Items c = first :: rest ->
  pricing.PriceCartRequest.ShippingAddress req = Some addr ->
  pricing.taxCalculator s = Some calc ->
  exists (r : pricing.PricingResult.t) (q : tax.CalculationRequest.t),
    pricing.PriceCart s now req = (Some r, None)
    /\ taxCall s now req = Some (calc, q)
    /\ pricing.PricingResult.TaxTotal r
       = match tax.Calculate calc q with
         | inl taxResult => tax.CalculationResult.TotalTax taxResult
         | inr _ => Zero (Currency (cart.CartItem.Price first))
         end
    /\ q = tax.CalculationRequest.mk (map taxableItemOf (first :: rest))
             (pricing.PricingResult.ShippingTotal r)
             (tax.Address.mk (pricing.Address.Country addr)
                (pricing.Address.State addr) (pricing.Address.City addr)
                (pricing.Address.PostalCode addr) "")
             (pricing.PriceCartRequest.TaxInclusive req)
    /\ map tax.TaxableItem.Amount (tax.CalculationRequest.LineItems q)
       = map (fun item => MultiplyInt (cart.CartItem.Price item)
                            (cart.CartItem.Quantity item)) (first :: rest)
    /\ tax.CalculationRequest.ShippingCost q
       = pricing.PricingResult.ShippingTotal r
    /\ (Forall (fun item => inCurrency (Currency (cart.CartItem.Price first))
                              (cart.CartItem.Price item)) rest ->
        taxableAmount q
        = Int64.add (Amount (pricing.PricingResult.Subtotal r))
            (Amount (pricing.PricingResult.ShippingTotal r)))
    /\ (forall rate : Float64.float64,
          calc = sample.SimpleTaxCalculator rate ->
          pricing.PricingResult.TaxTotal r
          = Multiply
              (fst (Add (Zero (Currency (cart.CartItem.Price first)))
                      (pricing.PricingResult.ShippingTotal r)))
              rate
          /\ Forall (fun p => pricing.LineItemPrice.TaxAmount p
                              = Zero (Currency (cart.CartItem.Price first)))
               (pricing.PricingResult.LineItemPrices r)).
Proof.
  intros Hc Hi Haddr Hcalc.
  pose proof (PriceCart_prices_length s now (first :: rest)
                (pricing.PriceCartRequest.PromotionCodes req))
    as (Hlen0 & Hlen1 & Hsub1 & Htax1).
  set (prices := snd (afterPromotions s now (first :: rest)
                        (pricing.PriceCartRequest.PromotionCodes req))) in *.
  set (shippingTotal := pricing.shippingStep s (cartCurrency (first :: rest))
                          (cartLines (first :: rest)) req).
  assert (Hitemsq : pricing.convertToTaxableItems (cartLines (first :: rest)) prices
                    = map taxableItemOf (first :: rest)).
  { apply convertToTaxableItems_cart. rewrite Hsub1.
    apply undiscountedPrices_subtotals. }
  assert (Hq : pricing.taxRequest (cartLines (first :: rest)) prices
                 shippingTotal req
               = tax.CalculationRequest.mk (map taxableItemOf (first :: rest))
                   shippingTotal
                   (tax.Address.mk (pricing.Address.Country addr)
                      (pricing.Address.State addr) (pricing.Address.City addr)
                      (pricing.Address.PostalCode addr) "")
                   (pricing.PriceCartRequest.TaxInclusive req)).
  { unfold pricing.taxRequest. rewrite Hitemsq, Haddr. reflexivity. }
  assert (Hcall : taxCall s now req
                  = Some (calc,
                          pricing.taxRequest (cartLines (first :: rest)) prices
                            shippingTotal req)).
  { unfold taxCall. rewrite Hc, Hi, Haddr, Hcalc. reflexivity. }
  assert (Hamounts :
            map tax.TaxableItem.Amount
              (pricing.convertToTaxableItems (cartLines (first :: rest)) prices)
            = map (fun item => MultiplyInt (cart.CartItem.Price item)
                                 (cart.CartItem.Quantity item)) (first :: rest)).
  { rewrite convertToTaxableItems_amounts by exact Hlen1.
    rewrite Hsub1. apply undiscountedPrices_subtotals. }
  exists (pricedResult s now req (first :: rest)),
    (pricing.taxRequest (cartLines (first :: rest)) prices shippingTotal req).
  split; [apply (PriceCart_nonempty s now req c first rest Hc Hi) |].
  split; [exact Hcall |].
  split; [rewrite (taxStep_call s now req c first rest Hc Hi), Hcall; reflexivity |].
  split; [exact Hq |].
  split; [exact Hamounts |]. split; [reflexivity |]. split.
  - intros Hrest.
    assert (Hitems : Forall (fun item => inCurrency (Currency (cart.CartItem.Price first))
                                           (cart.CartItem.Price item))
                       (first :: rest))
      by (constructor; [reflexivity | exact Hrest]).
    unfold taxableAmount, pricing.taxRequest, pricedResult.
    cbn [tax.CalculationRequest.LineItems tax.CalculationRequest.ShippingCost
           pricing.PricingResult.Subtotal pricing.PricingResult.ShippingTotal].
    rewrite (cartCurrency_inCur _ first rest Hitems).
    rewrite (undiscountedPrices_subtotal _ first rest Hitems). cbn [Amount].
    do 2 f_equal.
    rewrite <- (map_map tax.TaxableItem.Amount Amount), Hamounts.
    unfold lineSubtotals.
    rewrite <- (map_map pricing.LineItemPrice.Subtotal Amount),
      undiscountedPrices_subtotals. reflexivity.
  - intros rate ->.
    destruct (SimpleTaxCalculator_shipping_only rate first rest shippingTotal
                (tax.Address.mk (pricing.Address.Country addr)
                   (pricing.Address.State addr) (pricing.Address.City addr)
                   (pricing.Address.PostalCode addr) "")
                (pricing.PriceCartRequest.TaxInclusive req))
      as (res & Hres & Htotal & Hlines).
    rewrite <- Hq in Hres.
    assert (Hzero : Forall (fun p => pricing.LineItemPrice.TaxAmount p
                                     = Zero (Currency (cart.CartItem.Price first)))
                      prices).
    { apply (Forall_map pricing.LineItemPrice.TaxAmount
               (fun m => m = Zero (Currency (cart.CartItem.Price first)))).
      rewrite Htax1. unfold undiscountedPrices.
      apply Forall_map, Forall_map, Forall_forall. intros item _. reflexivity. }
    unfold pricedResult, pricing.taxStep.
    cbn [pricing.PricingResult.TaxTotal pricing.PricingResult.ShippingTotal
           pricing.PricingResult.LineItemPrices].
    rewrite Haddr, Hcalc. fold prices. fold shippingTotal. rewrite Hres.
    cbn [fst snd]. split; [exact Htotal |].
    apply Forall_map.
    pose proof (updateLineTaxes_lines (tax.CalculationResult.LineItemTaxes res)
                  [] prices) as Hupd.
    cbn [length app] in Hupd. rewrite Hupd.
    apply (taxedLines_Forall
             (fun m => m = Zero (Currency (cart.CartItem.Price first))));
      assumption.
Qed.

Lemma PriceCart_taxes_undiscounted_subtotal_witness :
  exists (r : pricing.PricingResult.t) (q : tax.CalculationRequest.t),
    pricing.PriceCart sample.pricingWithTaxAndShipping 5
      (sample.priceRequest
         [sample.cartItem "line-1" "A" (mkMoney 10000 "USD") 1] ["SAVE10"])
    = (Some r, None)
    /\ taxCall sample.pricingWithTaxAndShipping 5
         (sample.priceRequest
            [sample.cartItem "line-1" "A" (mkMoney 10000 "USD") 1] ["SAVE10"])
       = Some (sample.SimpleTaxCalculator sample.lit_0_08, q)
    /\ q = tax.CalculationRequest.mk
             [tax.TaxableItem.mk "line-1" (mkMoney 10000 "USD") 1 "" false]
             (mkMoney 1000 "USD")
             (tax.Address.mk "GB" "" "London" "SW1Y 4JH" "") false
    /\ map tax.TaxableItem.Amount (tax.CalculationRequest.LineItems q)
       = [mkMoney 10000 "USD"]
    /\ pricing.PricingResult.DiscountTotal r = mkMoney 1000 "USD"
    /\ taxableAmount q = 11000
    /\ pricing.PricingResult.TaxTotal r = mkMoney 80 "USD"
    /\ map pricing.LineItemPrice.TaxAmount
         (pricing.PricingResult.LineItemPrices r)
       = [mkMoney 0 "USD"].
Proof.
  destruct
    (PriceCart_taxes_undiscounted_subtotal sample.pricingWithTaxAndShipping 5
       (sample.priceRequest
          [sample.cartItem "line-1" "A" (mkMoney 10000 "USD") 1] ["SAVE10"])
       (sample.cartOf [sample.cartItem "line-1" "A" (mkMoney 10000 "USD") 1])
       (sample.cartItem "line-1" "A" (mkMoney 10000 "USD") 1) []
       sample.pricingAddress (sample.SimpleTaxCalculator sample.lit_0_08)
       eq_refl eq_refl eq_refl eq_refl)
    as (r & q & Hr & Hq & _ & Hreq & Hlines & _ & Hamount & Hsimple).
  destruct (Hsimple sample.lit_0_08 eq_refl) as (Htotal & _).
  exists r, q. split; [exact Hr |]. split; [exact Hq |].
  vm_compute in Hr. injection Hr as <-.
  split; [rewrite Hreq; reflexivity |].
  split; [rewrite Hlines; reflexivity |].
  split; [reflexivity |].
  split; [rewrite Hamount by constructor; reflexivity |].
  split; [rewrite Htotal |]; reflexivity.
Defined.

(** C2, as stated, fails: a cart of one line of 10000 with a 10%
    promotion and shipping at 1000 has a discount of 1000 on its line, and
    the request handed to the tax calculator submits 11000 to taxation
    (the undiscounted 10000 plus shipping), not the 10000 that subtotal
    minus discount plus shipping gives. *)
Lemma PriceCart_taxable_amount_counterexample :
  option_map (fun call => taxableAmount (snd call))
    (taxCall sample.pricingWithTaxAndShipping 5
       (sample.priceRequest
          [sample.cartItem "line-1" "A" (mkMoney 10000 "USD") 1] ["SAVE10"]))
  = Some 11000
  /\ option_map
       (fun r =>
          (lineDiscounts (pricing.PricingResult.LineItemPrices r),
           discountedTaxableAmount r))
       (fst (pricing.PriceCart sample.pricingWithTaxAndShipping 5
               (sample.priceRequest
                  [sample.cartItem "line-1" "A" (mkMoney 10000 "USD") 1]
                  ["SAVE10"])))
     = Some ([1000], 10000).
Proof. split; vm_compute; reflexivity. Qed.

(** ** Order creation *)

Section CreateFromCartFacts.

Context {R I G : Type}.
Variable s : orders.OrderService R I G.
Variable now : Z.
Variable req : orders.CreateOrderRequest.t.

Lemma createOrderItems_world (pricingResult : pricing.PricingResult.t)
    (items : list cart.CartItem.t) :
  forall (i : nat) (w : orders.World R I G),
    let w' := snd (orders.createOrderItems s pricingResult items i w) in
    orders.repoState w' = orders.repoState w
    /\ orders.inventoryState w' = orders.inventoryState w
    /\ orders.gatewayState w' = orders.gatewayState w.
Proof.
  induction items as [| item items IH]; intros i w; [cbn; auto |].
  cbn [orders.createOrderItems]. unfold orders.nextID.
  specialize (IH (S i)
                (orders.mkWorld (orders.repoState w) (orders.inventoryState w)
                   (orders.gatewayState w) (S (orders.idCalls w))
                   (orders.orderNumberCalls w))).
  destruct (orders.createOrderItems s pricingResult items (S i) _)
    as [orderItems w'].
  cbn in IH |- *. exact IH.
Qed.

(** The order that is saved is pending, and building it touches neither
    the repository nor the inventory nor the gateway. *)
Lemma buildOrder_world (billingAddress : orders.Address.t)
    (pricingResult : pricing.PricingResult.t) (items : list cart.CartItem.t)
    (w : orders.World R I G) :
  let built := orders.buildOrder s now req billingAddress pricingResult items w in
  orders.Order.Status (fst built) = orders.OrderStatusPending
  /\ orders.repoState (snd built) = orders.repoState w
  /\ orders.inventoryState (snd built) = orders.inventoryState w
  /\ orders.gatewayState (snd built) = orders.gatewayState w.
Proof.
  unfold orders.buildOrder.
  pose proof (createOrderItems_world pricingResult items 0%nat w) as H.
  destruct (orders.createOrderItems s pricingResult items 0 w) as [orderItems w'].
  cbn in H |- *. split; [reflexivity | exact H].
Qed.

Lemma reserveLoop_repoState (inv : inventory.Service I) (reservationID : string)
    (items : list cart.CartItem.t) :
  forall w : orders.World R I G,
    orders.repoState (snd (orders.reserveLoop s inv reservationID items w))
    = orders.repoState w
    /\ orders.gatewayState (snd (orders.reserveLoop s inv reservationID items w))
       = orders.gatewayState w.
Proof.
  induction items as [| item items IH]; intros w; [cbn; auto |].
  cbn [orders.reserveLoop].
  destruct (inventory.Reserve inv _ _ _ _) as [[err |] i'].
  - cbn [snd]. unfold orders.rollbackInventory.
    destruct (orders.inventoryService s); cbn; auto.
  - destruct (IH (orders.set_inventoryState i' w)) as (H1 & H2).
    rewrite H1, H2. cbn. auto.
Qed.

Lemma reserveInventory_repoState (items : list cart.CartItem.t)
    (w : orders.World R I G) :
  orders.repoState (snd (orders.reserveInventory s items w)) = orders.repoState w
  /\ orders.gatewayState (snd (orders.reserveInventory s items w))
     = orders.gatewayState w.
Proof.
  unfold orders.reserveInventory.
  destruct (orders.inventoryService s) as [inv |]; [| cbn; auto].
  unfold orders.nextID. cbn zeta beta iota.
  destruct (reserveLoop_repoState inv (orders.idGenerator s (orders.idCalls w))
              items
              (orders.mkWorld (orders.repoState w) (orders.inventoryState w)
                 (orders.gatewayState w) (S (orders.idCalls w))
                 (orders.orderNumberCalls w))) as (H1 & H2).
  rewrite H1, H2. cbn. auto.
Qed.

Variable c : cart.Cart.t.
Variable first : cart.CartItem.t.
Variable rest : list cart.CartItem.t.
Hypothesis req_cart : orders.CreateOrderRequest.Cart req = Some c.
Hypothesis cart_items : cart.Cart.Items c = first :: rest.
Hypothesis address_complete :
  orders.Address.IsComplete (orders.CreateOrderRequest.ShippingAddress req) = true.

(** [CreateFromCart] from the reservation step on, once the checks have
    passed and the cart is priced. *)
Lemma CreateFromCart_steps (w : orders.World R I G) :
  orders.CreateFromCart s now req w
  = match orders.reserveInventory s (first :: rest) w with
    | (Some err, w') => ((None, Some err), w')
    | (None, w1) =>
        let built :=
          orders.buildOrder s now req (orders.billingAddressOf req)
            (pricedResult (orders.pricingService s) now
               (orders.pricingRequest req) (first :: rest))
            (first :: rest) w1 in
        match orders.Save (orders.repo s) (fst built)
                (orders.repoState (snd built)) with
        | (Some err, r') => ((None, Some err), orders.set_repoState r' (snd built))
        | (None, r') =>
            orders.processPayment s now req (fst built)
              (orders.set_repoState r' (snd built))
        end
    end.
Proof.
  unfold orders.CreateFromCart. rewrite req_cart.
  unfold cart.Cart.IsEmpty. rewrite cart_items. cbn [length Nat.eqb].
  rewrite address_complete. cbn [negb].
  rewrite (PriceCart_nonempty (orders.pricingService s) now
             (orders.pricingRequest req) c first rest req_cart cart_items).
  destruct (orders.reserveInventory s (first :: rest) w) as [[err |] w1];
    [reflexivity |].
  cbn zeta.
  destruct (orders.buildOrder s now req (orders.billingAddressOf req) _ _ w1)
    as [order w2].
  reflexivity.
Qed.

End CreateFromCartFacts.

(** C3, as the code has it.  Once the reservations are made and the
    pending order is saved, a gateway error makes [CreateFromCart] return
    [ErrPaymentFailed] and no order; an intent that comes back without
    error but has not succeeded makes it return the pending order and no
    error.  Either way the repository is left as the save of the pending
    order left it, and the inventory as the reservations left it. *)
Theorem CreateFromCart_payment_failure {R I G : Type}
    (s : orders.OrderService R I G) (now : Z)
    (req : orders.CreateOrderRequest.t) (w w1 : orders.World R I G)
    (c : cart.Cart.t) (first : cart.CartItem.t) (rest : list cart.CartItem.t)
    (gateway : payments.Gateway G) (r' : R) :
  orders.CreateOrderRequest.Cart req = Some c ->
  cart.Cart.Items c = first :: rest ->
  orders.Address.IsComplete (orders.CreateOrderRequest.ShippingAddress req) = true ->
  orders.reserveInventory s (first :: rest) w = (None, w1) ->
  orders.Save (orders.repo s)
    (fst (orders.buildOrder s now req (orders.billingAddressOf req)
            (pricedResult (orders.pricingService s) now
               (orders.pricingRequest req) (first :: rest))
            (first :: rest) w1))
    (orders.repoState w)
  = (None, r') ->
  orders.paymentGateway s = Some gateway ->
  let built :=
    orders.buildOrder s now req (orders.billingAddressOf req)
      (pricedResult (orders.pricingService s) now (orders.pricingRequest req)
         (first :: rest))
      (first :: rest) w1 in
  orders.Order.Status (fst built) = orders.OrderStatusPending
  /\ (forall (e : error) (g' : G),
        payments.CreateIntent gateway (orders.intentRequest req (fst built))
          (orders.gatewayState w)
        = (inr e, g') ->
        orders.CreateFromCart s now req w
        = ((None, Some ErrPaymentFailed),
           orders.set_gatewayState g' (orders.set_repoState r' (snd built)))
        /\ orders.repoState (snd (orders.CreateFromCart s now req w)) = r'
        /\ orders.inventoryState (snd (orders.CreateFromCart s now req w))
           = orders.inventoryState w1)
  /\ (forall (intent : payments.PaymentIntent.t) (g' : G),
        payments.CreateIntent gateway (orders.intentRequest req (fst built))
          (orders.gatewayState w)
        = (inl intent, g') ->
        String.eqb (payments.PaymentIntent.Status intent)
          payments.IntentStatusSucceeded = false ->
        orders.CreateFromCart s now req w
        = ((Some (fst built), None),
           orders.set_gatewayState g' (orders.set_repoState r' (snd built)))
        /\ orders.repoState (snd (orders.CreateFromCart s now req w)) = r'
        /\ orders.inventoryState (snd (orders.CreateFromCart s now req w))
           = orders.inventoryState w1).
Proof.
  intros Hc Hi Haddr Hres Hsave Hgw built.
  pose proof (buildOrder_world s now req (orders.billingAddressOf req)
                (pricedResult (orders.pricingService s) now
                   (orders.pricingRequest req) (first :: rest))
                (first :: rest) w1) as (Hst & Hrepo & Hinv & Hgs).
  fold built in Hst, Hrepo, Hinv, Hgs, Hsave.
  pose proof (reserveInventory_repoState s (first :: rest) w) as (Hr1 & Hg1).
  rewrite Hres in Hr1, Hg1. cbn [snd] in Hr1, Hg1.
  assert (Hsteps : orders.CreateFromCart s now req w
                   = orders.processPayment s now req (fst built)
                       (orders.set_repoState r' (snd built))).
  { rewrite (CreateFromCart_steps s now req c first rest Hc Hi Haddr w), Hres.
    cbn zeta. fold built. rewrite Hrepo, Hr1, Hsave. reflexivity. }
  split; [exact Hst |]. split.
  - intros e g' Hfail. rewrite Hsteps. unfold orders.processPayment.
    rewrite Hgw. cbn [orders.gatewayState orders.set_repoState].
    rewrite Hgs, Hg1, Hfail. cbn. auto.
  - intros intent g' Hintent Hstatus. rewrite Hsteps.
    unfold orders.processPayment.
    rewrite Hgw. cbn [orders.gatewayState orders.set_repoState].
    rewrite Hgs, Hg1, Hintent, Hstatus. cbn. auto.
Qed.

Lemma CreateFromCart_payment_failure_witness :
  fst (orders.CreateFromCart
         (sample.orderService sample.memRepository (Some sample.memInventory)
            (Some sample.decliningGateway))
         5 (sample.orderRequest sample.twoLines [])
         (sample.world (sample.stock 5 5) 0%nat))
  = (None, Some ErrPaymentFailed)
  /\ option_map orders.Order.Status
       (orders.repoState
          (snd (orders.CreateFromCart
                  (sample.orderService sample.memRepository
                     (Some sample.memInventory) (Some sample.decliningGateway))
                  5 (sample.orderRequest sample.twoLines [])
                  (sample.world (sample.stock 5 5) 0%nat)))
        !! "id-3")
     = Some "pending"
  /\ sample.held
       (orders.inventoryState
          (snd (orders.CreateFromCart
                  (sample.orderService sample.memRepository
                     (Some sample.memInventory) (Some sample.decliningGateway))
                  5 (sample.orderRequest sample.twoLines [])
                  (sample.world (sample.stock 5 5) 0%nat))))
     = [("A", 2, "id-0"); ("B", 1, "id-0")].
Proof.
  destruct
    (CreateFromCart_payment_failure
       (sample.orderService sample.memRepository (Some sample.memInventory)
          (Some sample.decliningGateway))
       5 (sample.orderRequest sample.twoLines [])
       (sample.world (sample.stock 5 5) 0%nat)
       (snd (orders.reserveInventory
               (sample.orderService sample.memRepository
                  (Some sample.memInventory) (Some sample.decliningGateway))
               sample.twoLines (sample.world (sample.stock 5 5) 0%nat)))
       (sample.cartOf sample.twoLines)
       (sample.cartItem "line-1" "A" (mkMoney 1000 "USD") 2)
       [sample.cartItem "line-2" "B" (mkMoney 500 "USD") 1]
       sample.decliningGateway
       (snd (orders.Save sample.memRepository
               (fst (orders.buildOrder
                       (sample.orderService sample.memRepository
                          (Some sample.memInventory)
                          (Some sample.decliningGateway))
                       5 (sample.orderRequest sample.twoLines [])
                       sample.address
                       (pricedResult sample.pricingOnly 5
                          (orders.pricingRequest
                             (sample.orderRequest sample.twoLines []))
                          sample.twoLines)
                       sample.twoLines
                       (snd (orders.reserveInventory
                               (sample.orderService sample.memRepository
                                  (Some sample.memInventory)
                                  (Some sample.decliningGateway))
                               sample.twoLines
                               (sample.world (sample.stock 5 5) 0%nat)))))
               ∅))
       eq_refl eq_refl eq_refl eq_refl eq_refl eq_refl)
    as (_ & Hfail & _).
  destruct (Hfail (ErrOther "card declined") 1%nat eq_refl)
    as (Hresult & Hrepo & Hinv).
  split; [rewrite Hresult; reflexivity |].
  split; [rewrite Hrepo; vm_compute; reflexivity |].
  rewrite Hinv. vm_compute. reflexivity.
Defined.

(** C3, as stated, fails: with a gateway that declines, the order is
    saved as pending and the reservations stay, but the caller gets
    [ErrPaymentFailed] and no order. *)
Lemma CreateFromCart_payment_failure_counterexample :
  fst (orders.CreateFromCart
         (sample.orderService sample.memRepository (Some sample.memInventory)
            (Some sample.decliningGateway))
         5 (sample.orderRequest sample.twoLines [])
         (sample.world (sample.stock 5 5) 0%nat))
  = (None, Some ErrPaymentFailed)
  /\ map (fun entry : string * orders.Order.t =>
            (fst entry, orders.Order.Status (snd entry)))
       (map_to_list
          (orders.repoState
             (snd (orders.CreateFromCart
                     (sample.orderService sample.memRepository
                        (Some sample.memInventory)
                        (Some sample.decliningGateway))
                     5 (sample.orderRequest sample.twoLines [])
                     (sample.world (sample.stock 5 5) 0%nat)))))
     = [("id-3", "pending")].
Proof. split; vm_compute; reflexivity. Qed.

(** The reservation loop on a cart whose lines [reserved] are reserved
    without error and whose next line is refused: the loop stops at that
    line with the error of its [Reserve] call, and rolls back from the
    inventory that call left. *)
Lemma reserveLoop_refused {R I G : Type} (s : orders.OrderService R I G)
    (inv : inventory.Service I) (reservationID : string)
    (failed : cart.CartItem.t) (later : list cart.CartItem.t) (err : error)
    (st : I) (reserved : list cart.CartItem.t) :
  forall w : orders.World R I G,
    allReserved inv reservationID reserved (orders.inventoryState w) = true ->
    inventory.Reserve inv (cart.CartItem.SKU failed)
      (cart.CartItem.Quantity failed) reservationID
      (reservedUnder inv reservationID reserved (orders.inventoryState w))
    = (Some err, st) ->
    orders.reserveLoop s inv reservationID (reserved ++ failed :: later) w
    = (Some err,
       orders.rollbackInventory s reservationID (orders.set_inventoryState st w)).
Proof.
  induction reserved as [| item reserved IH]; intros w Hall Hfail.
  - cbn [app orders.reserveLoop]. cbn [reservedUnder] in Hfail.
    rewrite Hfail. reflexivity.
  - cbn [app orders.reserveLoop]. cbn [allReserved reservedUnder] in Hall, Hfail.
    destruct (inventory.Reserve inv (cart.CartItem.SKU item)
                (cart.CartItem.Quantity item) reservationID
                (orders.inventoryState w)) as [[e |] st'];
      [discriminate |].
    cbn [snd] in Hfail.
    rewrite (IH (orders.set_inventoryState st' w) Hall Hfail).
    reflexivity.
Qed.

(** The reservation-failure path of [CreateFromCart].  When the
    [Reserve] calls of the first cart lines return without error and the
    [Reserve] call of the next line returns an error, all under the first
    id the call generates, [CreateFromCart] returns that error and no
    order.  No later line is reserved, nothing is saved and the gateway is
    not called: the world afterwards differs from the one before by the
    one generated id and by the inventory, which is the one the refused
    [Reserve] left after the single [Release] call of [rollbackInventory]
    (empty SKU, zero quantity, the reservation id). *)
Lemma CreateFromCart_reservation_failure {R I G : Type}
    (s : orders.OrderService R I G) (now : Z)
    (req : orders.CreateOrderRequest.t) (w : orders.World R I G)
    (c : cart.Cart.t) (inv : inventory.Service I)
    (reserved : list cart.CartItem.t) (failed : cart.CartItem.t)
    (later : list cart.CartItem.t) (err : error) (st : I) :
  orders.CreateOrderRequest.Cart req = Some c ->
  cart.Cart.Items c = reserved ++ failed :: later ->
  orders.Address.IsComplete (orders.CreateOrderRequest.ShippingAddress req) = true ->
  orders.inventoryService s = Some inv ->
  allReserved inv (orders.idGenerator s (orders.idCalls w)) reserved
    (orders.inventoryState w) = true ->
  inventory.Reserve inv (cart.CartItem.SKU failed)
    (cart.CartItem.Quantity failed) (orders.idGenerator s (orders.idCalls w))
    (reservedUnder inv (orders.idGenerator s (orders.idCalls w)) reserved
       (orders.inventoryState w))
  = (Some err, st) ->
  orders.CreateFromCart s now req w
  = ((None, Some err),
     orders.mkWorld (orders.repoState w)
       (snd (inventory.Release inv "" 0
               (orders.idGenerator s (orders.idCalls w)) st))
       (orders.gatewayState w) (S (orders.idCalls w))
       (orders.orderNumberCalls w)).
Proof.
  intros Hc Hi Haddr Hinv Hall Hfail.
  assert (Hitems : exists first rest, reserved ++ failed :: later = first :: rest).
  { destruct reserved as [| item reserved]; cbn [app]; eauto. }
  destruct Hitems as (first & rest & Hitems). rewrite Hitems in Hi.
  rewrite (CreateFromCart_steps s now req c first rest Hc Hi Haddr w).
  rewrite <- Hitems. unfold orders.reserveInventory. rewrite Hinv.
  unfold orders.nextID. cbn zeta beta iota.
  rewrite (reserveLoop_refused s inv _ failed later err st reserved);
    [| exact Hall | exact Hfail].
  unfold orders.rollbackInventory. rewrite Hinv. reflexivity.
Qed.

Lemma CreateFromCart_reservation_failure_witness :
  orders.CreateFromCart
    (sample.orderService sample.memRepository (Some sample.memInventory)
       (Some sample.acceptingGateway))
    5 (sample.orderRequest sample.twoLines [])
    (sample.world (sample.stock 5 0) 0%nat)
  = ((None, Some ErrInsufficientStock),
     orders.mkWorld ∅ (sample.stock 5 0) 0%nat 1%nat 0%nat).
Proof.
  apply (CreateFromCart_reservation_failure
           (sample.orderService sample.memRepository (Some sample.memInventory)
              (Some sample.acceptingGateway))
           5 (sample.orderRequest sample.twoLines [])
           (sample.world (sample.stock 5 0) 0%nat)
           (sample.cartOf sample.twoLines) sample.memInventory
           [sample.cartItem "line-1" "A" (mkMoney 1000 "USD") 2]
           (sample.cartItem "line-2" "B" (mkMoney 500 "USD") 1) []
           ErrInsufficientStock
           (sample.mkStock (sample.onHand (sample.stock 5 0)) [("A", 2, "id-0")]));
    reflexivity.
Defined.

(** With the inventory in memory: the second line cannot be reserved,
    the error is [ErrInsufficientStock], the one [Release] call of
    [rollbackInventory] (empty SKU, zero quantity) drops the reservation of
    the first line, and no order is saved. *)
Lemma CreateFromCart_reservation_failure_example :
  fst (orders.CreateFromCart
         (sample.orderService sample.memRepository (Some sample.memInventory)
            (Some sample.acceptingGateway))
         5 (sample.orderRequest sample.twoLines [])
         (sample.world (sample.stock 5 0) 0%nat))
  = (None, Some ErrInsufficientStock)
  /\ sample.held
       (orders.inventoryState
          (snd (orders.CreateFromCart
                  (sample.orderService sample.memRepository
                     (Some sample.memInventory) (Some sample.acceptingGateway))
                  5 (sample.orderRequest sample.twoLines [])
                  (sample.world (sample.stock 5 0) 0%nat))))
     = []
  /\ orders.repoState
       (snd (orders.CreateFromCart
               (sample.orderService sample.memRepository
                  (Some sample.memInventory) (Some sample.acceptingGateway))
               5 (sample.orderRequest sample.twoLines [])
               (sample.world (sample.stock 5 0) 0%nat)))
     = ∅.
Proof. repeat split; vm_compute; reflexivity. Qed.

(** With the inventory that releases per SKU only, the same call leaves
    the reservation of the first line held: the [Release] of
    [rollbackInventory] names no SKU. *)
Lemma CreateFromCart_reservation_failure_per_sku_example :
  fst (orders.CreateFromCart
         (sample.orderService sample.memRepository
            (Some sample.perSkuInventory) (Some sample.acceptingGateway))
         5 (sample.orderRequest sample.twoLines [])
         (sample.world (sample.stock 5 0) 0%nat))
  = (None, Some ErrInsufficientStock)
  /\ sample.held
       (orders.inventoryState
          (snd (orders.CreateFromCart
                  (sample.orderService sample.memRepository
                     (Some sample.perSkuInventory)
                     (Some sample.acceptingGateway))
                  5 (sample.orderRequest sample.twoLines [])
                  (sample.world (sample.stock 5 0) 0%nat))))
     = [("A", 2, "id-0")].
Proof. split; vm_compute; reflexivity. Qed.

(** C1, the persistence-failure path.  When every reservation has
    succeeded and saving the order fails, [CreateFromCart] returns the
    error of the save and no order, and returns at once: no [Release] is
    called, and the inventory stays in the state the reservations
    produced. *)
Theorem CreateFromCart_save_failure {R I G : Type}
    (s : orders.OrderService R I G) (now : Z)
    (req : orders.CreateOrderRequest.t) (w w1 : orders.World R I G)
    (c : cart.Cart.t) (first : cart.CartItem.t) (rest : list cart.CartItem.t)
    (err : error) (r' : R) :
  orders.CreateOrderRequest.Cart req = Some c ->
  cart.Cart.Items c = first :: rest ->
  orders.Address.IsComplete (orders.CreateOrderRequest.ShippingAddress req) = true ->
  orders.reserveInventory s (first :: rest) w = (None, w1) ->
  orders.Save (orders.repo s)
    (fst (orders.buildOrder s now req (orders.billingAddressOf req)
            (pricedResult (orders.pricingService s) now
               (orders.pricingRequest req) (first :: rest))
            (first :: rest) w1))
    (orders.repoState w)
  = (Some err, r') ->
  fst (orders.CreateFromCart s now req w) = (None, Some err)
  /\ orders.repoState (snd (orders.CreateFromCart s now req w)) = r'
  /\ orders.inventoryState (snd (orders.CreateFromCart s now req w))
     = orders.inventoryState w1.
Proof.
  intros Hc Hi Haddr Hres Hsave.
  pose proof (buildOrder_world s now req (orders.billingAddressOf req)
                (pricedResult (orders.pricingService s) now
                   (orders.pricingRequest req) (first :: rest))
                (first :: rest) w1) as (_ & Hrepo & Hinv & _).
  pose proof (reserveInventory_repoState s (first :: rest) w) as (Hr1 & _).
  rewrite Hres in Hr1. cbn [snd] in Hr1.
  rewrite (CreateFromCart_steps s now req c first rest Hc Hi Haddr w), Hres.
  cbn zeta. rewrite Hrepo, Hr1, Hsave. cbn. auto.
Qed.

Lemma CreateFromCart_save_failure_witness :
  fst (orders.CreateFromCart
         (sample.orderService sample.failingRepository
            (Some sample.memInventory) (Some sample.acceptingGateway))
         5 (sample.orderRequest sample.twoLines [])
         (sample.world (sample.stock 5 5) 0%nat))
  = (None, Some (ErrOther "database unavailable"))
  /\ orders.repoState
       (snd (orders.CreateFromCart
               (sample.orderService sample.failingRepository
                  (Some sample.memInventory) (Some sample.acceptingGateway))
               5 (sample.orderRequest sample.twoLines [])
               (sample.world (sample.stock 5 5) 0%nat)))
     = ∅
  /\ sample.heldUnder "id-0"
       (orders.inventoryState
          (snd (orders.CreateFromCart
                  (sample.orderService sample.failingRepository
                     (Some sample.memInventory) (Some sample.acceptingGateway))
                  5 (sample.orderRequest sample.twoLines [])
                  (sample.world (sample.stock 5 5) 0%nat))))
     = [("A", 2, "id-0"); ("B", 1, "id-0")].
Proof.
  destruct
    (CreateFromCart_save_failure
       (sample.orderService sample.failingRepository
          (Some sample.memInventory) (Some sample.acceptingGateway))
       5 (sample.orderRequest sample.twoLines [])
       (sample.world (sample.stock 5 5) 0%nat)
       (snd (orders.reserveInventory
               (sample.orderService sample.failingRepository
                  (Some sample.memInventory) (Some sample.acceptingGateway))
               sample.twoLines (sample.world (sample.stock 5 5) 0%nat)))
       (sample.cartOf sample.twoLines)
       (sample.cartItem "line-1" "A" (mkMoney 1000 "USD") 2)
       [sample.cartItem "line-2" "B" (mkMoney 500 "USD") 1]
       (ErrOther "database unavailable") ∅
       eq_refl eq_refl eq_refl eq_refl eq_refl)
    as (Hresult & Hrepo & Hinv).
  split; [exact Hresult |]. split; [exact Hrepo |].
  rewrite Hinv. vm_compute. reflexivity.
Defined.

(** * Further properties of the packages *)

(** ** Package money: the algebra of the operations *)

Section MoneyAlgebra.

Lemma wrap_add_l (x y : Z) : Int64.wrap (Int64.wrap x + y) = Int64.wrap (x + y).
Proof. apply wrap_proper. rewrite wrap_eqm. reflexivity. Qed.

Lemma wrap_add_r (x y : Z) : Int64.wrap (x + Int64.wrap y) = Int64.wrap (x + y).
Proof. apply wrap_proper. rewrite wrap_eqm. reflexivity. Qed.

Lemma wrap_sub_l (x y : Z) : Int64.wrap (Int64.wrap x - y) = Int64.wrap (x - y).
Proof. apply wrap_proper. rewrite wrap_eqm. reflexivity. Qed.

Lemma wrap_mul_l (x y : Z) : Int64.wrap (Int64.wrap x * y) = Int64.wrap (x * y).
Proof. apply wrap_proper. rewrite wrap_eqm. reflexivity. Qed.

Lemma addTimes_amount (n : nat) (m : Money) :
  addTimes n m = mkMoney (Int64.wrap (Amount m * Z.of_nat n)) (Currency m).
Proof.
  induction n as [| n IH].
  - cbn [addTimes]. unfold Zero. rewrite Z.mul_0_r. reflexivity.
  - cbn [addTimes]. rewrite IH. unfold Add. cbn [Amount Currency].
    rewrite String.eqb_refl. cbn [negb fst]. unfold Int64.add.
    rewrite wrap_add_l. do 2 f_equal. lia.
Qed.

End MoneyAlgebra.

(** Adding and then subtracting the same value of the same currency,
    or subtracting and then adding it, gives the first value back with no
    error, also when the intermediate sum or difference wraps around. *)
Theorem Add_Subtract_round_trip (a b : Money) :
  Currency a = Currency b ->
  Int64.in_range (Amount a) ->
  Subtract (fst (Add a b)) b = (a, None)
  /\ Add (fst (Subtract a b)) b = (a, None).
Proof.
  intros Hc Ha. unfold Add, Subtract. rewrite Hc, String.eqb_refl.
  cbn [negb fst Amount Currency]. rewrite String.eqb_refl. cbn [negb].
  unfold Int64.add, Int64.sub. destruct a as [x cur]. cbn in *. subst cur.
  split; f_equal; f_equal.
  - rewrite wrap_sub_l. replace (x + Amount b - Amount b) with x by lia.
    apply wrap_in_range, Ha.
  - rewrite wrap_add_l. replace (x - Amount b + Amount b) with x by lia.
    apply wrap_in_range, Ha.
Qed.

Lemma Add_Subtract_round_trip_witness :
  Subtract (fst (Add (mkMoney (2 ^ 63 - 1) "USD") (mkMoney 5 "USD")))
    (mkMoney 5 "USD")
  = (mkMoney (2 ^ 63 - 1) "USD", None)
  /\ Amount (fst (Add (mkMoney (2 ^ 63 - 1) "USD") (mkMoney 5 "USD")))
     = - 2 ^ 63 + 4.
Proof.
  split.
  - apply (Add_Subtract_round_trip (mkMoney (2 ^ 63 - 1) "USD")
             (mkMoney 5 "USD")); [reflexivity |].
    unfold Int64.in_range, Int64.min_int, Int64.max_int. cbn [Amount]. lia.
  - vm_compute. reflexivity.
Defined.

(** [Add] is commutative for any two values (with the same error when
    the currencies differ); on three values of one currency it is
    associative, and the zero of the currency is its identity, all in
    wrap-around arithmetic. *)
Theorem Add_commutative_monoid (a b c : Money) :
  Add a b = Add b a
  /\ (Currency a = Currency b -> Currency b = Currency c ->
      Add (fst (Add a b)) c = Add a (fst (Add b c)))
  /\ (Int64.in_range (Amount a) ->
      Add (Zero (Currency a)) a = (a, None)
      /\ Add a (Zero (Currency a)) = (a, None)).
Proof.
  split; [| split].
  - unfold Add. rewrite (String.eqb_sym (Currency b)).
    destruct (String.eqb_spec (Currency a) (Currency b)) as [He | Hn];
      [| reflexivity].
    cbn [negb]. unfold Int64.add. rewrite He, (Z.add_comm (Amount b)).
    reflexivity.
  - intros Hab Hbc. unfold Add. rewrite Hab, Hbc, String.eqb_refl.
    cbn [negb fst Amount Currency]. rewrite String.eqb_refl. cbn [negb].
    unfold Int64.add. rewrite wrap_add_l, wrap_add_r, Z.add_assoc.
    reflexivity.
  - intros Ha. unfold Add, Zero. cbn [Amount Currency].
    rewrite String.eqb_refl. cbn [negb]. unfold Int64.add.
    rewrite Z.add_0_l, Z.add_0_r, (wrap_in_range _ Ha).
    destruct a; split; reflexivity.
Qed.

Lemma Add_commutative_monoid_witness :
  Add (fst (Add (mkMoney 100 "USD") (mkMoney 250 "USD"))) (mkMoney 7 "USD")
  = Add (mkMoney 100 "USD") (fst (Add (mkMoney 250 "USD") (mkMoney 7 "USD")))
  /\ Add (Zero "USD") (mkMoney 100 "USD") = (mkMoney 100 "USD", None).
Proof.
  pose proof (Add_commutative_monoid (mkMoney 100 "USD") (mkMoney 250 "USD")
                (mkMoney 7 "USD")) as (_ & Hassoc & Hzero).
  split.
  - apply Hassoc; reflexivity.
  - apply Hzero. unfold Int64.in_range, Int64.min_int, Int64.max_int.
    cbn [Amount]. lia.
Defined.

(** [MultiplyInt] by a count [n] is [n] successive additions of the
    value, and it distributes over [Add] and [Subtract] of values of one
    currency, all in wrap-around arithmetic. *)
Theorem MultiplyInt_repeated_Add (m other : Money) (n : nat) (factor : Z) :
  MultiplyInt m (Z.of_nat n) = addTimes n m
  /\ (Currency m = Currency other ->
      MultiplyInt (fst (Add m other)) factor
      = fst (Add (MultiplyInt m factor) (MultiplyInt other factor))
      /\ MultiplyInt (fst (Subtract m other)) factor
         = fst (Subtract (MultiplyInt m factor) (MultiplyInt other factor))).
Proof.
  split.
  - rewrite addTimes_amount. reflexivity.
  - intros Hc. unfold MultiplyInt, Add, Subtract.
    cbn [Amount Currency]. rewrite Hc, String.eqb_refl.
    cbn [negb fst Amount Currency].
    unfold Int64.mul, Int64.add, Int64.sub. split; f_equal.
    + rewrite wrap_mul_l. apply wrap_proper.
      rewrite !wrap_eqm. eqm_lia.
    + rewrite wrap_mul_l. apply wrap_proper.
      rewrite !wrap_eqm. eqm_lia.
Qed.

Lemma MultiplyInt_repeated_Add_witness :
  MultiplyInt (fst (Add (mkMoney 1999 "USD") (mkMoney 1 "USD"))) 3
  = fst (Add (MultiplyInt (mkMoney 1999 "USD") 3)
           (MultiplyInt (mkMoney 1 "USD") 3)).
Proof.
  apply (MultiplyInt_repeated_Add (mkMoney 1999 "USD") (mkMoney 1 "USD") 0 3).
  reflexivity.
Defined.

(** Two values of one currency compare in exactly one way: less, equal
    or greater; [LessThan] is [GreaterThan] with the arguments exchanged;
    [Equals] holds exactly of identical values; and the three sign tests
    are the comparisons with the zero of the currency. *)
Theorem comparisons_trichotomy (a b : Money) :
  (Equals a b = true <-> a = b)
  /\ LessThan a b = GreaterThan b a
  /\ (IsNegative a = fst (LessThan a (Zero (Currency a)))
      /\ IsPositive a = fst (GreaterThan a (Zero (Currency a)))
      /\ IsZero a = Equals a (Zero (Currency a)))
  /\ (Currency a = Currency b ->
      (fst (LessThan a b) = true /\ Equals a b = false
       /\ fst (GreaterThan a b) = false)
      \/ (fst (LessThan a b) = false /\ Equals a b = true
          /\ fst (GreaterThan a b) = false)
      \/ (fst (LessThan a b) = false /\ Equals a b = false
          /\ fst (GreaterThan a b) = true)).
Proof.
  split; [| split; [| split]].
  - unfold Equals. rewrite andb_true_iff, Z.eqb_eq, String.eqb_eq.
    destruct a, b; cbn. split; [intros []; congruence | intros [= -> ->]; auto].
  - unfold LessThan, GreaterThan. rewrite (String.eqb_sym (Currency b)).
    reflexivity.
  - unfold IsNegative, IsPositive, IsZero, LessThan, GreaterThan, Equals, Zero.
    cbn [Amount Currency]. rewrite String.eqb_refl. cbn [negb fst].
    rewrite andb_true_r. auto.
  - intros Hc. unfold LessThan, GreaterThan, Equals.
    rewrite Hc, String.eqb_refl. cbn [negb fst]. rewrite andb_true_r.
    destruct (Z.ltb_spec (Amount a) (Amount b)),
      (Z.eqb_spec (Amount a) (Amount b)),
      (Z.ltb_spec (Amount b) (Amount a)); try lia; auto.
Qed.

Lemma comparisons_trichotomy_witness :
  fst (LessThan (mkMoney 5 "USD") (mkMoney 7 "USD")) = true
  /\ Equals (mkMoney 5 "USD") (mkMoney 7 "USD") = false
  /\ fst (GreaterThan (mkMoney 5 "USD") (mkMoney 7 "USD")) = false.
Proof.
  destruct (comparisons_trichotomy (mkMoney 5 "USD") (mkMoney 7 "USD"))
    as (_ & _ & _ & H).
  destruct (H eq_refl) as [H1 | [(H1 & _) | (H1 & _)]];
    [exact H1 | discriminate H1 | discriminate H1].
Defined.

(** ** Package orders: the life cycle *)

Section LifeCycle.

Lemma UpdateStatus_listed (now : Z) (o : orders.Order.t)
    (target : orders.OrderStatus) :
  (listed_edge (orders.Order.Status o) target
   /\ fst (orders.Order.UpdateStatus now o target) = true
   /\ orders.Order.Status (snd (orders.Order.UpdateStatus now o target)) = target)
  \/ (~ listed_edge (orders.Order.Status o) target
      /\ orders.Order.UpdateStatus now o target = (false, o)).
Proof.
  unfold orders.Order.UpdateStatus.
  destruct (orders.Order.CanTransitionTo o target) eqn:Hcan; cbn [negb].
  - left. apply CanTransitionTo_listed in Hcan. split; [exact Hcan |].
    split; [reflexivity |].
    destruct (String.eqb target orders.OrderStatusDelivered),
      (String.eqb target orders.OrderStatusCanceled); reflexivity.
  - right. split; [| reflexivity]. rewrite <- CanTransitionTo_listed.
    congruence.
Qed.

Lemma listed_edge_rank (a b : orders.OrderStatus) :
  listed_edge a b -> (statusRank a < statusRank b)%nat.
Proof. destruct 1; vm_compute; lia. Qed.

Lemma statusRank_bound (st : orders.OrderStatus) : (statusRank st <= 5)%nat.
Proof. unfold statusRank. repeat case_match; lia. Qed.

Lemma statusHistory_ranks (updates : list (Z * orders.OrderStatus)) :
  forall o : orders.Order.t,
    (length (statusHistory o updates) + statusRank (orders.Order.Status o) <= 5)%nat
    /\ Forall (fun st => (statusRank (orders.Order.Status o) < statusRank st)%nat)
         (statusHistory o updates)
    /\ NoDup (statusHistory o updates).
Proof.
  induction updates as [| [now target] rest IH]; intros o.
  - cbn. pose proof (statusRank_bound (orders.Order.Status o)).
    repeat split; [lia | constructor | constructor].
  - cbn [statusHistory].
    destruct (UpdateStatus_listed now o target) as [(He & Hok & Hst) | (_ & Hno)].
    + destruct (orders.Order.UpdateStatus now o target) as [ok o'].
      cbn [fst snd] in Hok, Hst. subst ok.
      destruct (IH o') as (Hlen & Hall & Hnd). rewrite Hst in Hlen, Hall.
      apply listed_edge_rank in He. repeat split.
      * cbn [length]. lia.
      * constructor; [exact He |].
        eapply Forall_impl; [exact Hall |]. cbn. intros; lia.
      * constructor; [| exact Hnd]. intros Hin.
        rewrite Forall_forall in Hall. specialize (Hall _ Hin). lia.
    + rewrite Hno. apply IH.
Qed.

End LifeCycle.

Lemma IsCancelable_CanTransitionTo (o : orders.Order.t) :
  orders.Order.IsCancelable o
  = orders.Order.CanTransitionTo o orders.OrderStatusCanceled
  /\ orders.Order.IsRefundable o
     = orders.Order.CanTransitionTo o orders.OrderStatusRefunded.
Proof.
  unfold orders.Order.IsCancelable, orders.Order.IsRefundable,
    orders.Order.CanTransitionTo.
  rewrite transitions_lookup.
  unfold orders.OrderStatusPending, orders.OrderStatusPaid,
    orders.OrderStatusProcessing, orders.OrderStatusDelivered,
    orders.OrderStatusCanceled, orders.OrderStatusRefunded.
  repeat case_decide;
    repeat match goal with H : orders.Order.Status o = _ |- _ => rewrite H end;
    try (split; reflexivity).
  repeat match goal with
    | H : orders.Order.Status o <> _ |- _ =>
        apply String.eqb_neq in H; rewrite ?H; clear H
    end.
  split; reflexivity.
Qed.

(** An order is cancelable exactly when the life cycle allows the
    transition to canceled from its status, and refundable exactly when it
    allows the transition to refunded: [UpdateStatus] to canceled succeeds
    on the cancelable orders and on no other, and to refunded on the
    refundable orders and on no other. *)
Theorem IsCancelable_IsRefundable_transitions (now : Z) (o : orders.Order.t) :
  orders.Order.IsCancelable o
  = fst (orders.Order.UpdateStatus now o orders.OrderStatusCanceled)
  /\ orders.Order.IsRefundable o
     = fst (orders.Order.UpdateStatus now o orders.OrderStatusRefunded)
  /\ orders.Order.IsCancelable o
     = orders.Order.CanTransitionTo o orders.OrderStatusCanceled
  /\ orders.Order.IsRefundable o
     = orders.Order.CanTransitionTo o orders.OrderStatusRefunded.
Proof.
  destruct (IsCancelable_CanTransitionTo o) as (Hc & Hr).
  unfold orders.Order.UpdateStatus. rewrite <- Hc, <- Hr.
  destruct (orders.Order.IsCancelable o), (orders.Order.IsRefundable o);
    repeat split; reflexivity.
Qed.

(** Under any sequence of [UpdateStatus] calls an order never takes a
    status twice, its own included, and changes status at most five
    times; from canceled and from refunded it never changes again. *)
Theorem order_status_never_revisited (o : orders.Order.t)
    (updates : list (Z * orders.OrderStatus)) :
  NoDup (orders.Order.Status o :: statusHistory o updates)
  /\ (length (statusHistory o updates) <= 5)%nat
  /\ (orders.Order.Status o = orders.OrderStatusCanceled
      \/ orders.Order.Status o = orders.OrderStatusRefunded ->
      statusHistory o updates = []).
Proof.
  destruct (statusHistory_ranks updates o) as (Hlen & Hall & Hnd).
  split; [| split].
  - constructor; [| exact Hnd]. intros Hin.
    rewrite Forall_forall in Hall. specialize (Hall _ Hin). lia.
  - lia.
  - intros Hfinal. clear Hlen Hall Hnd.
    induction updates as [| [now target] rest IH]; [reflexivity |].
    cbn [statusHistory].
    destruct (UpdateStatus_listed now o target) as [(He & _) | (_ & Hno)].
    + exfalso. destruct Hfinal as [Hf | Hf]; rewrite Hf in He; inversion He.
    + rewrite Hno. exact IH.
Qed.

Lemma order_status_never_revisited_witness :
  statusHistory (sample.order "o-1" "canceled")
    [(1, "paid"); (2, "pending"); (3, "refunded")]
  = [].
Proof.
  apply (order_status_never_revisited (sample.order "o-1" "canceled")
           [(1, "paid"); (2, "pending"); (3, "refunded")]).
  left. reflexivity.
Defined.

(** ** Package pricing: the price lines *)

(** A field of the price lines that none of the three assignments of
    [PriceCart] touches keeps its initial value. *)
Section LineFields.

Context {A : Type} (f : pricing.LineItemPrice.t -> A).
Hypothesis f_discount :
  forall v p, f (pricing.LineItemPrice.set_DiscountAmount v p) = f p.
Hypothesis f_tax :
  forall v p, f (pricing.LineItemPrice.set_TaxAmount v p) = f p.
Hypothesis f_total :
  forall v p, f (pricing.LineItemPrice.set_Total v p) = f p.

Lemma discountLines_field promotion currency items prices :
  map f (discountLines promotion currency items prices) = map f prices.
Proof.
  revert prices. induction items as [| item items IH]; intros [| price prices];
    cbn [discountLines map]; try reflexivity.
  rewrite IH. f_equal. unfold discountLine.
  destruct (pricing.Promotion.CanApplyToProduct _ _); [apply f_discount | reflexivity].
Qed.

Lemma taxedLines_field taxes prices :
  map f (taxedLines taxes prices) = map f prices.
Proof.
  revert prices. induction taxes as [| t taxes IH]; intros [| p prices];
    cbn [taxedLines map]; try reflexivity.
  rewrite IH, f_tax. reflexivity.
Qed.

Lemma taxedLines_length taxes (prices : list pricing.LineItemPrice.t) :
  length (taxedLines taxes prices) = length prices.
Proof.
  revert prices. induction taxes as [| t taxes IH]; intros [| p prices];
    cbn [taxedLines length]; try reflexivity.
  rewrite IH. reflexivity.
Qed.

Lemma applyPromotions_loop_field (s : pricing.PricingService) (now : Z)
    (lineItems : list pricing.LineItem.t) (codes : list string) :
  forall (applied : list pricing.AppliedDiscount.t)
         (prices : list pricing.LineItemPrice.t),
    length prices = length lineItems ->
    map f (snd (pricing.applyPromotions_loop s now lineItems codes
                  (applied, prices)))
    = map f prices.
Proof.
  induction codes as [| code codes IH]; intros applied prices Hlen;
    [reflexivity |].
  cbn [pricing.applyPromotions_loop].
  assert (H : length (snd (pricing.applyPromotion s now lineItems code
                             (applied, prices))) = length lineItems
              /\ map f (snd (pricing.applyPromotion s now lineItems code
                               (applied, prices))) = map f prices).
  { unfold pricing.applyPromotion.
    destruct (pricing.FindByCode (pricing.promotionRepo s) code)
      as [promotion | e]; [| auto].
    destruct (pricing.Promotion.IsValid promotion now); [| auto]. cbn [negb].
    destruct lineItems as [| first rest].
    - cbn. auto.
    - rewrite (calculateDiscount_lines promotion first rest prices Hlen).
      destruct (appliedDiscountOf _ _ _); cbn [snd];
        rewrite discountLines_length, discountLines_field; auto. }
  destruct (pricing.applyPromotion s now lineItems code (applied, prices))
    as [applied' prices'].
  cbn [snd] in H. destruct H as (Hl & Hf).
  rewrite (IH applied' prices' Hl). exact Hf.
Qed.

Lemma taxStep_field (s : pricing.PricingService) (currency : string)
    (lineItems : list pricing.LineItem.t)
    (prices : list pricing.LineItemPrice.t) (shippingTotal : Money)
    (req : pricing.PriceCartRequest.t) :
  map f (snd (pricing.taxStep s currency lineItems prices shippingTotal req))
  = map f prices
  /\ length (snd (pricing.taxStep s currency lineItems prices shippingTotal req))
     = length prices.
Proof.
  unfold pricing.taxStep.
  destruct (pricing.PriceCartRequest.ShippingAddress req); [| auto].
  destruct (pricing.taxCalculator s) as [calc |]; [| auto].
  destruct (tax.Calculate calc _) as [taxResult | e]; [| auto].
  cbn [snd].
  rewrite (updateLineTaxes_lines _ [] prices). cbn [app].
  rewrite taxedLines_field, taxedLines_length. auto.
Qed.

Lemma pricedResult_after_promotions (s : pricing.PricingService) (now : Z)
    (req : pricing.PriceCartRequest.t) (items : list cart.CartItem.t) :
  map f (pricing.PricingResult.LineItemPrices (pricedResult s now req items))
  = map f (snd (afterPromotions s now items
                  (pricing.PriceCartRequest.PromotionCodes req))).
Proof.
  unfold pricedResult. cbn [pricing.PricingResult.LineItemPrices].
  rewrite map_map.
  rewrite (map_ext (fun p => f (pricing.lineTotal p)) f)
    by (intros p; apply f_total).
  apply taxStep_field.
Qed.

Lemma pricedResult_field (s : pricing.PricingService) (now : Z)
    (req : pricing.PriceCartRequest.t) (items : list cart.CartItem.t) :
  map f (pricing.PricingResult.LineItemPrices (pricedResult s now req items))
  = map f (undiscountedPrices items).
Proof.
  rewrite pricedResult_after_promotions.
  unfold afterPromotions. apply applyPromotions_loop_field.
  unfold undiscountedPrices. apply length_map.
Qed.

End LineFields.

Lemma pricedResult_length (s : pricing.PricingService) (now : Z)
    (req : pricing.PriceCartRequest.t) (items : list cart.CartItem.t) :
  length (pricing.PricingResult.LineItemPrices (pricedResult s now req items))
  = length items.
Proof.
  rewrite <- (length_map (fun _ => tt)).
  rewrite (pricedResult_field (fun _ => tt)) by reflexivity.
  unfold undiscountedPrices, cartLines. rewrite !length_map. reflexivity.
Qed.

Lemma subtotalLoop_cart (items : list cart.CartItem.t) :
  forall t : Money,
    pricing.subtotalLoop (cartLines items) t = cart.Cart.subtotalLoop items t.
Proof.
  induction items as [| item items IH]; intros t; [reflexivity |].
  cbn [cartLines map pricing.subtotalLoop cart.Cart.subtotalLoop].
  apply IH.
Qed.

Lemma PriceCart_outcome (s : pricing.PricingService) (now : Z)
    (req : pricing.PriceCartRequest.t) :
  snd (pricing.PriceCart s now req) = None
  /\ (fst (pricing.PriceCart s now req) = None
      <-> pricing.PriceCartRequest.Cart req = None
          \/ exists c, pricing.PriceCartRequest.Cart req = Some c
                       /\ cart.Cart.Items c = []).
Proof.
  destruct (pricing.PriceCartRequest.Cart req) as [c |] eqn:Hc.
  2:{ unfold pricing.PriceCart. rewrite Hc. cbn. split; [reflexivity | tauto]. }
  destruct (cart.Cart.Items c) as [| first rest] eqn:Hi.
  { unfold pricing.PriceCart. rewrite Hc, Hi. cbn.
    split; [reflexivity |]. split; [| reflexivity].
    intros _. right. exists c. auto. }
  rewrite (PriceCart_nonempty s now req c first rest Hc Hi). cbn [fst snd].
  split; [reflexivity |]. split; [discriminate |].
  intros [H | (c' & H & H')]; [discriminate |]. congruence.
Qed.

(** The line taxes are in the currency of the cart when the taxes the
    calculator reports for the lines are. *)
Lemma taxStep_lineTaxes_inCur (s : pricing.PricingService) (now : Z)
    (req : pricing.PriceCartRequest.t) (cur : string) (c : cart.Cart.t)
    (first : cart.CartItem.t) (rest : list cart.CartItem.t) :
  Forall (fun item => inCurrency cur (cart.CartItem.Price item)) (first :: rest) ->
  pricing.PriceCartRequest.Cart req = Some c ->
  cart.Cart.Items c = first :: rest ->
  (forall calc q res,
      taxCall s now req = Some (calc, q) ->
      tax.Calculate calc q = inl res ->
      Forall (fun t => inCurrency cur (tax.LineItemTax.TaxAmount t))
        (tax.CalculationResult.LineItemTaxes res)) ->
  Forall (fun q => inCurrency cur (pricing.LineItemPrice.TaxAmount q))
    (snd (pricing.taxStep s cur (cartLines (first :: rest))
            (snd (afterPromotions s now (first :: rest)
                    (pricing.PriceCartRequest.PromotionCodes req)))
            (pricing.shippingStep s cur (cartLines (first :: rest)) req) req)).
Proof.
  intros Hitems Hc Hi H.
  set (prices := snd (afterPromotions s now (first :: rest)
                        (pricing.PriceCartRequest.PromotionCodes req))).
  assert (Hp : Forall (fun q => inCurrency cur (pricing.LineItemPrice.TaxAmount q))
                 prices).
  { apply (Forall_map pricing.LineItemPrice.TaxAmount (inCurrency cur)).
    subst prices.
    rewrite (proj2 (proj2 (proj2 (PriceCart_prices_length s now (first :: rest)
                                    (pricing.PriceCartRequest.PromotionCodes req))))).
    apply Forall_map.
    eapply Forall_impl; [apply (proj1 (undiscountedPrices_inCur cur first rest Hitems)) |].
    intros q (_ & _ & Hq). exact Hq. }
  unfold pricing.taxStep.
  destruct (pricing.PriceCartRequest.ShippingAddress req) as [addr |] eqn:Haddr;
    [| exact Hp].
  destruct (pricing.taxCalculator s) as [calc |] eqn:Hcalc; [| exact Hp].
  destruct (tax.Calculate calc _) as [res | e] eqn:Hres; [| exact Hp].
  cbn [snd].
  pose proof (updateLineTaxes_lines (tax.CalculationResult.LineItemTaxes res)
                [] prices) as Hlines.
  cbn [length app] in Hlines. rewrite Hlines.
  apply taxedLines_inCurrency; [| exact Hp].
  eapply (H calc); [| exact Hres].
  unfold taxCall.
  rewrite Hc, Hi, Haddr, Hcalc, (cartCurrency_inCur cur first rest Hitems).
  reflexivity.
Qed.

(** [PriceCart] never returns an error, and returns no result exactly
    when there is no cart or the cart is empty.  Its result has the
    currency of the first line and one price line per cart line, in the
    order of the cart: the line carries the id of the cart line and its
    subtotal is the unit price times the quantity.  The subtotal of the
    result is the subtotal the cart itself reports.  The total of a line is
    its subtotal minus its discount plus its tax in [int64] arithmetic
    when every cart line is priced in one currency, every valid promotion
    among the codes is a percentage or a fixed-amount promotion and the
    line taxes the calculator reports are in that currency; it need not be
    otherwise: under a valid free-shipping promotion the discount and the
    total of a line of 10000 are the zero value without currency. *)
Theorem PriceCart_result_lines (s : pricing.PricingService) (now : Z)
    (req : pricing.PriceCartRequest.t) :
  snd (pricing.PriceCart s now req) = None
  /\ (fst (pricing.PriceCart s now req) = None
      <-> pricing.PriceCartRequest.Cart req = None
          \/ exists c, pricing.PriceCartRequest.Cart req = Some c
                       /\ cart.Cart.Items c = [])
  /\ (forall (c : cart.Cart.t) (r : pricing.PricingResult.t),
        pricing.PriceCartRequest.Cart req = Some c ->
        pricing.PriceCart s now req = (Some r, None) ->
        map pricing.LineItemPrice.LineItemID (pricing.PricingResult.LineItemPrices r)
        = map cart.CartItem.ID (cart.Cart.Items c)
        /\ map pricing.LineItemPrice.Subtotal (pricing.PricingResult.LineItemPrices r)
           = map (fun item => MultiplyInt (cart.CartItem.Price item)
                                (cart.CartItem.Quantity item))
               (cart.Cart.Items c)
        /\ (forall cur : string,
               Forall (fun item => inCurrency cur (cart.CartItem.Price item))
                 (cart.Cart.Items c) ->
               promotionsSupported s now
                 (pricing.PriceCartRequest.PromotionCodes req) ->
               (forall calc q res,
                   taxCall s now req = Some (calc, q) ->
                   tax.Calculate calc q = inl res ->
                   Forall (fun t => inCurrency cur (tax.LineItemTax.TaxAmount t))
                     (tax.CalculationResult.LineItemTaxes res)) ->
               Forall (fun p =>
                         pricing.LineItemPrice.Total p
                         = mkMoney
                             (Int64.add
                                (Int64.sub
                                   (Amount (pricing.LineItemPrice.Subtotal p))
                                   (Amount (pricing.LineItemPrice.DiscountAmount p)))
                                (Amount (pricing.LineItemPrice.TaxAmount p)))
                             cur)
                 (pricing.PricingResult.LineItemPrices r))
        /\ pricing.PricingResult.Subtotal r = cart.Cart.Subtotal c
        /\ option_map (fun item => Currency (cart.CartItem.Price item))
             (head (cart.Cart.Items c))
           = Some (pricing.PricingResult.Currency r)
        /\ pricing.PricingResult.CalculatedAt r = now)
  /\ option_map
       (fun r =>
          map (fun p => (pricing.LineItemPrice.Subtotal p,
                         pricing.LineItemPrice.DiscountAmount p,
                         pricing.LineItemPrice.TaxAmount p,
                         pricing.LineItemPrice.Total p))
            (pricing.PricingResult.LineItemPrices r))
       (fst (pricing.PriceCart sample.pricingOnly 5
               (sample.priceRequest
                  [sample.cartItem "line-1" "A" (mkMoney 10000 "USD") 1]
                  ["SHIPFREE"])))
     = Some [(mkMoney 10000 "USD", mkMoney 0 "", mkMoney 0 "USD", mkMoney 0 "")].
Proof.
  destruct (PriceCart_outcome s now req) as (Herr & Hnone).
  split; [exact Herr |]. split; [exact Hnone |].
  split; [| vm_compute; reflexivity].
  intros c r Hc Hr.
  destruct (cart.Cart.Items c) as [| first rest] eqn:Hi.
  { unfold pricing.PriceCart in Hr. rewrite Hc, Hi in Hr. discriminate. }
  rewrite (PriceCart_nonempty s now req c first rest Hc Hi) in Hr.
  injection Hr as <-.
  split; [| split; [| split; [| split; [| split; reflexivity]]]].
  - rewrite (pricedResult_field pricing.LineItemPrice.LineItemID)
      by reflexivity.
    unfold undiscountedPrices, cartLines. rewrite !map_map. reflexivity.
  - rewrite (pricedResult_field pricing.LineItemPrice.Subtotal)
      by reflexivity.
    unfold undiscountedPrices, cartLines. rewrite !map_map. reflexivity.
  - intros cur Hitems Hsup Htax.
    pose proof (PriceCart_in_one_currency s now req c cur first rest Hc Hi Hitems
                  Hsup) as (_ & Hs1 & Hd1 & _).
    pose proof (taxStep_lineTaxes_inCur s now req cur c first rest Hitems Hc Hi
                  Htax) as Htl.
    unfold pricedResult. cbn [pricing.PricingResult.LineItemPrices].
    rewrite (cartCurrency_inCur cur first rest Hitems).
    set (promoted := afterPromotions s now (first :: rest)
                       (pricing.PriceCartRequest.PromotionCodes req)) in *.
    set (taxed := pricing.taxStep s cur (cartLines (first :: rest)) (snd promoted)
                    (pricing.shippingStep s cur (cartLines (first :: rest)) req)
                    req) in *.
    destruct (taxStep_field pricing.LineItemPrice.Subtotal
                ltac:(reflexivity) s cur (cartLines (first :: rest))
                (snd promoted)
                (pricing.shippingStep s cur (cartLines (first :: rest)) req) req)
      as (Hts & _).
    destruct (taxStep_field pricing.LineItemPrice.DiscountAmount
                ltac:(reflexivity) s cur (cartLines (first :: rest))
                (snd promoted)
                (pricing.shippingStep s cur (cartLines (first :: rest)) req) req)
      as (Htd & _).
    fold taxed in Hts, Htd.
    apply Forall_map, Forall_forall. intros q Hq.
    rewrite (lineTotal_inCurrency cur q); [reflexivity |]. repeat split.
    + pose proof (map_eq_Forall pricing.LineItemPrice.Subtotal (inCurrency cur)
                    _ _ Hts Hs1) as H.
      rewrite Forall_forall in H. apply H, Hq.
    + pose proof (map_eq_Forall pricing.LineItemPrice.DiscountAmount
                    (inCurrency cur) _ _ Htd Hd1) as H.
      rewrite Forall_forall in H. apply H, Hq.
    + rewrite Forall_forall in Htl. apply Htl, Hq.
  - unfold pricedResult, cart.Cart.Subtotal.
    cbn [pricing.PricingResult.Subtotal]. rewrite Hi. apply subtotalLoop_cart.
Qed.

Lemma PriceCart_result_lines_witness :
  exists r : pricing.PricingResult.t,
    pricing.PriceCart sample.pricingWithPercentTax 5
      (sample.priceRequest sample.twoLines ["SAVE10"])
    = (Some r, None)
    /\ map pricing.LineItemPrice.LineItemID (pricing.PricingResult.LineItemPrices r)
       = ["line-1"; "line-2"]
    /\ Forall (fun p =>
                 pricing.LineItemPrice.Total p
                 = mkMoney
                     (Int64.add
                        (Int64.sub (Amount (pricing.LineItemPrice.Subtotal p))
                           (Amount (pricing.LineItemPrice.DiscountAmount p)))
                        (Amount (pricing.LineItemPrice.TaxAmount p)))
                     "USD")
         (pricing.PricingResult.LineItemPrices r)
    /\ map (fun p => (pricing.LineItemPrice.Subtotal p,
                      pricing.LineItemPrice.DiscountAmount p,
                      pricing.LineItemPrice.TaxAmount p,
                      pricing.LineItemPrice.Total p))
         (pricing.PricingResult.LineItemPrices r)
       = [(mkMoney 2000 "USD", mkMoney 200 "USD", mkMoney 20 "USD",
           mkMoney 1820 "USD");
          (mkMoney 500 "USD", mkMoney 50 "USD", mkMoney 5 "USD",
           mkMoney 455 "USD")].
Proof.
  pose proof (PriceCart_nonempty sample.pricingWithPercentTax 5
                (sample.priceRequest sample.twoLines ["SAVE10"])
                (sample.cartOf sample.twoLines)
                (sample.cartItem "line-1" "A" (mkMoney 1000 "USD") 2)
                [sample.cartItem "line-2" "B" (mkMoney 500 "USD") 1]
                eq_refl eq_refl) as Hr.
  destruct (PriceCart_result_lines sample.pricingWithPercentTax 5
              (sample.priceRequest sample.twoLines ["SAVE10"]))
    as (_ & _ & H & _).
  destruct (H (sample.cartOf sample.twoLines) _ eq_refl Hr)
    as (Hids & _ & Htotals & _).
  eexists. split; [exact Hr |]. split; [rewrite Hids; reflexivity |].
  split.
  - apply (Htotals "USD").
    + repeat constructor.
    + intros code p [<- | []] Hfind _. vm_compute in Hfind.
      injection Hfind as <-. left. reflexivity.
    + intros calc q res Hcall Hres.
      assert (Hq : taxCall sample.pricingWithPercentTax 5
                     (sample.priceRequest sample.twoLines ["SAVE10"])
                   = Some (sample.percentTaxCalculator 1,
                           tax.CalculationRequest.mk
                             [tax.TaxableItem.mk "line-1" (mkMoney 2000 "USD") 2
                                "" false;
                              tax.TaxableItem.mk "line-2" (mkMoney 500 "USD") 1
                                "" false]
                             (mkMoney 1000 "USD")
                             (tax.Address.mk "GB" "" "London" "SW1Y 4JH" "")
                             false)) by reflexivity.
      rewrite Hq in Hcall. injection Hcall as <- <-.
      vm_compute in Hres. injection Hres as <-. repeat constructor.
  - vm_compute. reflexivity.
Defined.

(** ** Package pricing: PriceLineItems *)

Lemma toLineItem_convert (items : list pricing.LineItem.t) :
  cartLines (pricing.convertLineItemsToCartItems items) = items.
Proof.
  unfold cartLines, pricing.convertLineItemsToCartItems. rewrite map_map.
  rewrite <- (map_id items) at 2. apply map_ext. intros []. reflexivity.
Qed.

(** [PriceLineItems] never returns an error and returns no result on an
    empty list of items.  Its result prices the items themselves, one
    price line per item; the shipping cost of the request plays no part
    and the shipping-rate calculator is never asked, so the shipping total
    is always the zero of the currency of the first item. *)
Theorem PriceLineItems_ignores_shipping (s : pricing.PricingService) (now : Z)
    (req : pricing.PriceLineItemsRequest.t) :
  snd (pricing.PriceLineItems s now req) = None
  /\ (fst (pricing.PriceLineItems s now req) = None
      <-> pricing.PriceLineItemsRequest.Items req = [])
  /\ (forall shippingCost : option Money,
        pricing.PriceLineItems s now
          (pricing.PriceLineItemsRequest.mk
             (pricing.PriceLineItemsRequest.Items req)
             (pricing.PriceLineItemsRequest.PromotionCodes req) shippingCost
             (pricing.PriceLineItemsRequest.ShippingAddress req)
             (pricing.PriceLineItemsRequest.TaxInclusive req))
        = pricing.PriceLineItems s now req)
  /\ (forall (first : pricing.LineItem.t) (r : pricing.PricingResult.t),
        head (pricing.PriceLineItemsRequest.Items req) = Some first ->
        pricing.PriceLineItems s now req = (Some r, None) ->
        pricing.PricingResult.ShippingTotal r
        = Zero (Currency (pricing.LineItem.UnitPrice first))
        /\ map pricing.LineItemPrice.LineItemID
             (pricing.PricingResult.LineItemPrices r)
           = map pricing.LineItem.ID (pricing.PriceLineItemsRequest.Items req)
        /\ map pricing.LineItemPrice.Subtotal
             (pricing.PricingResult.LineItemPrices r)
           = map (fun item => MultiplyInt (pricing.LineItem.UnitPrice item)
                                (pricing.LineItem.Quantity item))
               (pricing.PriceLineItemsRequest.Items req)).
Proof.
  unfold pricing.PriceLineItems.
  set (c := cart.Cart.mk _ _ _ _ _ _ _).
  set (q := pricing.PriceCartRequest.mk _ _ _ _ _).
  destruct (PriceCart_outcome s now q) as (Herr & Hnone).
  split; [exact Herr |]. split; [| split].
  - rewrite Hnone. subst q c. cbn. split.
    + intros [H | (c' & [= <-] & H)]; [discriminate |]. cbn in H.
      destruct (pricing.PriceLineItemsRequest.Items req);
        [reflexivity | discriminate].
    + intros ->. right. eexists. split; reflexivity.
  - reflexivity.
  - intros first r Hfirst Hr.
    destruct (pricing.PriceLineItemsRequest.Items req) as [| first' rest] eqn:Hi;
      [discriminate |].
    injection Hfirst as ->.
    assert (Hc : pricing.PriceCartRequest.Cart q = Some c) by reflexivity.
    rewrite (PriceCart_nonempty s now q c
               (pricing.toCartItem first)
               (pricing.convertLineItemsToCartItems rest) Hc eq_refl) in Hr.
    injection Hr as <-.
    change (pricing.toCartItem first
            :: pricing.convertLineItemsToCartItems rest)
      with (pricing.convertLineItemsToCartItems (first :: rest)).
    split; [| split].
    + reflexivity.
    + rewrite (pricedResult_field pricing.LineItemPrice.LineItemID)
        by reflexivity.
      unfold undiscountedPrices. rewrite toLineItem_convert, map_map.
      reflexivity.
    + rewrite (pricedResult_field pricing.LineItemPrice.Subtotal)
        by reflexivity.
      unfold undiscountedPrices. rewrite toLineItem_convert, map_map.
      reflexivity.
Qed.

(** ** Package pricing: which codes count *)

Lemma applyPromotions_loop_valid (s : pricing.PricingService) (now : Z)
    (lineItems : list pricing.LineItem.t) (codes : list string) :
  forall st,
    pricing.applyPromotions_loop s now lineItems codes st
    = pricing.applyPromotions_loop s now lineItems
        (List.filter (validCode s now) codes) st.
Proof.
  induction codes as [| code codes IH]; intros st; [reflexivity |].
  cbn [pricing.applyPromotions_loop List.filter].
  destruct (validCode s now code) eqn:Hv.
  - cbn [pricing.applyPromotions_loop]. apply IH.
  - rewrite <- IH. f_equal. unfold pricing.applyPromotion, validCode in *.
    destruct st as [applied prices].
    destruct (pricing.FindByCode (pricing.promotionRepo s) code);
      [| reflexivity].
    rewrite Hv. reflexivity.
Qed.

(** A code whose promotion is not found, is inactive, is outside its
    validity window or has used up its usage limit is skipped without an
    error: [PriceCart] returns what it returns on the valid codes alone,
    and when no code is valid there is no applied discount and the
    discount total is the zero of the currency of the first line. *)
Theorem PriceCart_skips_invalid_codes (s : pricing.PricingService) (now : Z)
    (req : pricing.PriceCartRequest.t) :
  pricing.PriceCart s now req
  = pricing.PriceCart s now
      (withCodes
         (List.filter (validCode s now)
            (pricing.PriceCartRequest.PromotionCodes req))
         req)
  /\ (forall (c : cart.Cart.t) (first : cart.CartItem.t)
             (r : pricing.PricingResult.t),
        pricing.PriceCartRequest.Cart req = Some c ->
        head (cart.Cart.Items c) = Some first ->
        pricing.PriceCart s now req = (Some r, None) ->
        Forall (fun code => validCode s now code = false)
          (pricing.PriceCartRequest.PromotionCodes req) ->
        pricing.PricingResult.AppliedDiscounts r = []
        /\ pricing.PricingResult.DiscountTotal r
           = Zero (Currency (cart.CartItem.Price first))
        /\ Forall (fun p => pricing.LineItemPrice.DiscountAmount p
                            = Zero (Currency (cart.CartItem.Price first)))
             (pricing.PricingResult.LineItemPrices r)).
Proof.
  assert (Hsame :
    pricing.PriceCart s now req
    = pricing.PriceCart s now
        (withCodes
           (List.filter (validCode s now)
              (pricing.PriceCartRequest.PromotionCodes req))
           req)).
  { unfold pricing.PriceCart, withCodes.
    cbn [pricing.PriceCartRequest.Cart pricing.PriceCartRequest.PromotionCodes].
    destruct (pricing.PriceCartRequest.Cart req) as [c |]; [| reflexivity].
    destruct (cart.Cart.Items c) as [| first rest]; [reflexivity |].
    unfold pricing.applyPromotions.
    rewrite <- applyPromotions_loop_valid. reflexivity. }
  split; [exact Hsame |].
  intros c first r Hc Hfirst Hr Hall.
  destruct (cart.Cart.Items c) as [| first' rest] eqn:Hi; [discriminate |].
  injection Hfirst as ->.
  assert (Hnil : List.filter (validCode s now)
                   (pricing.PriceCartRequest.PromotionCodes req) = []).
  { clear Hsame Hr.
    induction Hall as [| code codes Hcode _ IH]; [reflexivity |].
    cbn [List.filter]. rewrite Hcode. exact IH. }
  rewrite Hsame, Hnil in Hr.
  rewrite (PriceCart_nonempty s now (withCodes [] req) c first rest Hc Hi) in Hr.
  injection Hr as <-.
  split; [reflexivity |]. split; [reflexivity |].
  apply (Forall_map pricing.LineItemPrice.DiscountAmount
           (fun d => d = Zero (Currency (cart.CartItem.Price first)))).
  rewrite (pricedResult_after_promotions pricing.LineItemPrice.DiscountAmount)
    by reflexivity.
  unfold afterPromotions, withCodes.
  cbn [pricing.PriceCartRequest.PromotionCodes pricing.applyPromotions_loop snd].
  unfold undiscountedPrices. rewrite map_map.
  apply Forall_map, Forall_forall. intros item _. reflexivity.
Qed.

(** ** Package pricing: discounts on the lines *)

Lemma containsID_In (ids : list string) (id : string) :
  pricing.containsID ids id = true <-> In id ids.
Proof.
  induction ids as [| x ids IH]; cbn [pricing.containsID In].
  - split; [discriminate | tauto].
  - destruct (String.eqb_spec x id) as [-> | Hne]; [tauto |].
    rewrite IH. split; [tauto | intros [? | ?]; [contradiction | assumption]].
Qed.

Lemma discountLines_lookup_skip (promotion : pricing.Promotion.t)
    (currency : string) (item : pricing.LineItem.t)
    (items : list pricing.LineItem.t) :
  pricing.Promotion.CanApplyToProduct promotion (pricing.LineItem.ProductID item)
  = false ->
  forall (k : nat) (prices : list pricing.LineItemPrice.t),
    items !! k = Some item ->
    discountLines promotion currency items prices !! k = prices !! k.
Proof.
  intros Hcan. induction items as [| item' items IH]; intros k prices Hk;
    [discriminate |].
  destruct prices as [| price prices]; [reflexivity |].
  cbn [discountLines]. destruct k as [| k].
  - injection Hk as ->. cbn. unfold discountLine. rewrite Hcan. reflexivity.
  - cbn. apply IH. exact Hk.
Qed.

Lemma applyPromotions_loop_lookup_skip (s : pricing.PricingService) (now : Z)
    (lineItems : list pricing.LineItem.t) (item : pricing.LineItem.t)
    (k : nat) (codes : list string) :
  lineItems !! k = Some item ->
  (forall code p,
      In code codes ->
      pricing.FindByCode (pricing.promotionRepo s) code = inl p ->
      pricing.Promotion.IsValid p now = true ->
      pricing.Promotion.CanApplyToProduct p (pricing.LineItem.ProductID item)
      = false) ->
  forall (applied : list pricing.AppliedDiscount.t)
         (prices : list pricing.LineItemPrice.t),
    length prices = length lineItems ->
    snd (pricing.applyPromotions_loop s now lineItems codes (applied, prices))
      !! k
    = prices !! k.
Proof.
  intros Hk. induction codes as [| code codes IH]; intros Hcodes applied prices Hlen;
    [reflexivity |].
  cbn [pricing.applyPromotions_loop].
  assert (H : length (snd (pricing.applyPromotion s now lineItems code
                             (applied, prices))) = length lineItems
              /\ snd (pricing.applyPromotion s now lineItems code
                        (applied, prices)) !! k = prices !! k).
  { unfold pricing.applyPromotion.
    destruct (pricing.FindByCode (pricing.promotionRepo s) code)
      as [promotion | e] eqn:Hfind; [| auto].
    destruct (pricing.Promotion.IsValid promotion now) eqn:Hvalid; [| auto].
    cbn [negb].
    destruct lineItems as [| first rest]; [discriminate |].
    rewrite (calculateDiscount_lines promotion first rest prices Hlen).
    destruct (appliedDiscountOf _ _ _); cbn [snd];
      (split; [rewrite discountLines_length; exact Hlen |]);
      apply (discountLines_lookup_skip promotion _ item);
      try exact Hk;
      apply (Hcodes code promotion (or_introl eq_refl) Hfind Hvalid). }
  destruct (pricing.applyPromotion s now lineItems code (applied, prices))
    as [applied' prices'].
  cbn [snd] in H. destruct H as (Hl & Hsame).
  rewrite <- Hsame. apply IH; [| exact Hl].
  intros code' p Hin. apply Hcodes. right. exact Hin.
Qed.

(** A promotion applies to a product unless the product is on its
    exclusion list, or it has a list of applicable products that does not
    name the product: exclusion wins over inclusion.  In the result of
    [PriceCart], a line whose product none of the valid promotions among
    the codes applies to has no discount. *)
Theorem excluded_product_gets_no_discount (s : pricing.PricingService)
    (now : Z) (req : pricing.PriceCartRequest.t) :
  (forall (p : pricing.Promotion.t) (productID : string),
      pricing.Promotion.CanApplyToProduct p productID = false
      <-> In productID (pricing.Promotion.ExcludedProductIDs p)
          \/ (pricing.Promotion.ApplicableProductIDs p <> []
              /\ ~ In productID (pricing.Promotion.ApplicableProductIDs p)))
  /\ (forall (c : cart.Cart.t) (first item : cart.CartItem.t) (k : nat),
        pricing.PriceCartRequest.Cart req = Some c ->
        head (cart.Cart.Items c) = Some first ->
        cart.Cart.Items c !! k = Some item ->
        (forall code p,
            In code (pricing.PriceCartRequest.PromotionCodes req) ->
            pricing.FindByCode (pricing.promotionRepo s) code = inl p ->
            pricing.Promotion.IsValid p now = true ->
            pricing.Promotion.CanApplyToProduct p (cart.CartItem.ProductID item)
            = false) ->
        exists (r : pricing.PricingResult.t) (line : pricing.LineItemPrice.t),
          pricing.PriceCart s now req = (Some r, None)
          /\ pricing.PricingResult.LineItemPrices r !! k = Some line
          /\ pricing.LineItemPrice.LineItemID line = cart.CartItem.ID item
          /\ pricing.LineItemPrice.DiscountAmount line
             = Zero (Currency (cart.CartItem.Price first))).
Proof.
  split.
  - intros p productID. unfold pricing.Promotion.CanApplyToProduct.
    destruct (pricing.containsID (pricing.Promotion.ExcludedProductIDs p)
                productID) eqn:Hex.
    + apply containsID_In in Hex. tauto.
    + assert (Hnot : ~ In productID (pricing.Promotion.ExcludedProductIDs p)).
      { rewrite <- containsID_In. congruence. }
      destruct (pricing.Promotion.ApplicableProductIDs p) as [| x ids] eqn:Hap.
      * cbn. split; [discriminate |]. intros [? | [? _]]; contradiction.
      * cbn [length Nat.ltb Nat.leb].
        destruct (pricing.containsID (x :: ids) productID) eqn:Hin.
        -- apply containsID_In in Hin. split; [discriminate |].
           intros [? | [_ ?]]; contradiction.
        -- split; [| reflexivity]. intros _. right. split; [discriminate |].
           rewrite <- containsID_In. congruence.
  - intros c first item k Hc Hfirst Hk Hcodes.
    destruct (cart.Cart.Items c) as [| first' rest] eqn:Hi; [discriminate |].
    injection Hfirst as ->.
    set (r := pricedResult s now req (first :: rest)).
    assert (Hline :
      option_map (fun p => (pricing.LineItemPrice.LineItemID p,
                            pricing.LineItemPrice.DiscountAmount p))
        (pricing.PricingResult.LineItemPrices r !! k)
      = Some (cart.CartItem.ID item, Zero (Currency (cart.CartItem.Price first)))).
    { change (option_map ?f ?x) with (f <$> x).
      rewrite <- list_lookup_fmap.
      change (?f <$> ?l) with (map f l). subst r.
      rewrite (pricedResult_after_promotions
                 (fun p => (pricing.LineItemPrice.LineItemID p,
                            pricing.LineItemPrice.DiscountAmount p)))
        by reflexivity.
      change (map ?f ?l) with (f <$> l). rewrite list_lookup_fmap.
      unfold afterPromotions.
      rewrite (applyPromotions_loop_lookup_skip s now (cartLines (first :: rest))
                 (pricing.toLineItem item) k).
      - unfold undiscountedPrices, cartLines.
        change (map ?f ?l) with (f <$> l). rewrite !list_lookup_fmap, Hk.
        reflexivity.
      - unfold cartLines. change (map ?f ?l) with (f <$> l).
        rewrite list_lookup_fmap, Hk. reflexivity.
      - exact Hcodes.
      - unfold undiscountedPrices. apply length_map. }
    destruct (pricing.PricingResult.LineItemPrices r !! k) as [line |] eqn:Hl;
      [| discriminate].
    injection Hline as Hid Hd.
    exists r, line. split; [apply (PriceCart_nonempty s now req c first rest Hc Hi) |].
    auto.
Qed.

Lemma excluded_product_gets_no_discount_witness :
  exists (r : pricing.PricingResult.t) (line : pricing.LineItemPrice.t),
    pricing.PriceCart sample.pricingWithRestrictions 5
      (sample.priceRequest sample.twoLines ["NOTB"; "ONLYA"])
    = (Some r, None)
    /\ pricing.PricingResult.LineItemPrices r !! 1%nat = Some line
    /\ pricing.LineItemPrice.LineItemID line = "line-2"
    /\ pricing.LineItemPrice.DiscountAmount line = Zero "USD"
    /\ map pricing.AppliedDiscount.Code (pricing.PricingResult.AppliedDiscounts r)
       = ["NOTB"; "ONLYA"]
    /\ map pricing.LineItemPrice.DiscountAmount
         (pricing.PricingResult.LineItemPrices r)
       = [mkMoney 400 "USD"; mkMoney 0 "USD"].
Proof.
  destruct (excluded_product_gets_no_discount sample.pricingWithRestrictions 5
              (sample.priceRequest sample.twoLines ["NOTB"; "ONLYA"])) as (_ & H).
  destruct (H (sample.cartOf sample.twoLines)
              (sample.cartItem "line-1" "A" (mkMoney 1000 "USD") 2)
              (sample.cartItem "line-2" "B" (mkMoney 500 "USD") 1) 1%nat
              eq_refl eq_refl eq_refl)
    as (r & line & Hr & Hline & Hid & Hd).
  { intros code p [<- | [<- | []]] Hfind _; vm_compute in Hfind;
      injection Hfind as <-; reflexivity. }
  exists r, line. do 4 (split; [assumption |]).
  vm_compute in Hr. injection Hr as <-. split; reflexivity.
Defined.

(** ** Package pricing: the maximum discount *)

Lemma discountSum_capped (p : pricing.Promotion.t) (cur : string) (m : Z)
    (items : list pricing.LineItem.t) :
  (forall price, pricing.itemDiscount p cur price = mkMoney m cur) ->
  Forall (fun item => pricing.Promotion.CanApplyToProduct p
                        (pricing.LineItem.ProductID item) = true) items ->
  forall (prices : list pricing.LineItemPrice.t) (t : Z),
    length prices = length items ->
    discountSum p cur items prices (mkMoney t cur)
    = mkMoney (Int64.wrap (t + m * Z.of_nat (length items))) cur
    \/ items = [] /\ discountSum p cur items prices (mkMoney t cur) = mkMoney t cur.
Proof.
  intros Hd Hall. induction Hall as [| item items Hcan _ IH]; intros prices t Hlen.
  - right. destruct prices; auto.
  - left. destruct prices as [| price prices]; [discriminate |].
    injection Hlen as Hlen. cbn [discountSum]. rewrite Hcan, Hd.
    unfold Add. cbn [Currency Amount]. rewrite String.eqb_refl. cbn [negb fst].
    destruct (IH prices (Int64.add t m) Hlen) as [-> | (-> & ->)].
    + unfold Int64.add. rewrite wrap_add_l. do 2 f_equal.
      cbn [length]. lia.
    + unfold Int64.add. cbn [length]. do 2 f_equal. lia.
Qed.

(** The maximum discount of a promotion caps the discount of each line,
    not the discount of the promotion: no line gets more than the maximum,
    and a fixed-amount promotion above its maximum gives the maximum to
    every line it applies to, so that on [n] lines its discount is [n]
    times the maximum. *)
Theorem MaxDiscount_caps_each_line (p : pricing.Promotion.t)
    (maxDiscount : Money) :
  pricing.Promotion.MaxDiscount p = Some maxDiscount ->
  (forall (currency : string) (price : pricing.LineItemPrice.t),
      fst (GreaterThan (pricing.itemDiscount p currency price) maxDiscount)
      = false)
  /\ (forall (first : pricing.LineItem.t) (rest : list pricing.LineItem.t)
             (prices : list pricing.LineItemPrice.t),
        pricing.Promotion.DiscountType p = pricing.DiscountTypeFixedAmount ->
        Currency maxDiscount = Currency (pricing.LineItem.UnitPrice first) ->
        Currency maxDiscount <> "" ->
        Amount maxDiscount < Float64.to_int64 (pricing.Promotion.Value p) ->
        Forall (fun item => pricing.Promotion.CanApplyToProduct p
                              (pricing.LineItem.ProductID item) = true)
          (first :: rest) ->
        length prices = length (first :: rest) ->
        fst (pricing.calculateDiscount p (first :: rest) prices)
        = appliedDiscountOf p (first :: rest)
            (mkMoney
               (Int64.wrap (Amount maxDiscount
                            * Z.of_nat (length (first :: rest))))
               (Currency maxDiscount))).
Proof.
  intros Hmax. split.
  - intros currency price. unfold pricing.itemDiscount. rewrite Hmax.
    set (d := if String.eqb _ _ then _ else _).
    destruct (fst (GreaterThan d maxDiscount)) eqn:Hg; [| exact Hg].
    unfold GreaterThan. rewrite String.eqb_refl. cbn [negb fst].
    apply Z.ltb_irrefl.
  - intros first rest prices Htype Hcur Hne Hlt Hall Hlen.
    rewrite (calculateDiscount_lines p first rest prices Hlen). cbn [fst].
    f_equal. rewrite <- Hcur.
    assert (Hd : forall price,
               pricing.itemDiscount p (Currency maxDiscount) price
               = mkMoney (Amount maxDiscount) (Currency maxDiscount)).
    { intros price. unfold pricing.itemDiscount. rewrite Hmax, Htype.
      change (String.eqb pricing.DiscountTypeFixedAmount
                pricing.DiscountTypePercentage) with false.
      change (String.eqb pricing.DiscountTypeFixedAmount
                pricing.DiscountTypeFixedAmount) with true.
      cbv iota. unfold money.New.
      apply String.eqb_neq in Hne. rewrite Hne. cbn [fst].
      unfold GreaterThan. cbn [Currency Amount]. rewrite String.eqb_refl.
      cbn [negb fst].
      destruct (Z.ltb_spec (Amount maxDiscount)
                  (Float64.to_int64 (pricing.Promotion.Value p))); [| lia].
      destruct maxDiscount; reflexivity. }
    destruct (discountSum_capped p (Currency maxDiscount) (Amount maxDiscount)
                (first :: rest) Hd Hall prices 0 Hlen) as [H | (H & _)];
      [| discriminate].
    unfold Zero. rewrite H. rewrite Z.add_0_l. reflexivity.
Qed.

Lemma MaxDiscount_caps_each_line_witness :
  fst (pricing.calculateDiscount sample.cappedPromotion
         (cartLines sample.twoLines) (undiscountedPrices sample.twoLines))
  = appliedDiscountOf sample.cappedPromotion (cartLines sample.twoLines)
      (mkMoney 600 "USD").
Proof.
  destruct (MaxDiscount_caps_each_line sample.cappedPromotion
              (mkMoney 300 "USD") eq_refl) as (_ & H).
  apply (H (pricing.toLineItem
              (sample.cartItem "line-1" "A" (mkMoney 1000 "USD") 2))
           [pricing.toLineItem
              (sample.cartItem "line-2" "B" (mkMoney 500 "USD") 1)]
           (undiscountedPrices sample.twoLines)).
  - reflexivity.
  - reflexivity.
  - discriminate.
  - vm_compute. reflexivity.
  - repeat constructor.
  - reflexivity.
Defined.

(** ** Package pricing: totals and lines in one currency *)

(** When every cart line is priced in one currency and every valid
    promotion among the codes is a percentage or a fixed-amount promotion,
    the subtotal of the result is the sum of the subtotals of its price
    lines, and the discount total is both the sum of the applied discounts
    and the sum of the discounts of the price lines, in [int64]
    arithmetic: the discounts are allocated to the lines in full. *)
Theorem PriceCart_discount_allocated (s : pricing.PricingService) (now : Z)
    (req : pricing.PriceCartRequest.t) (c : cart.Cart.t) (cur : string)
    (first : cart.CartItem.t) (rest : list cart.CartItem.t) :
  pricing.PriceCartRequest.Cart req = Some c ->
  cart.Cart.Items c = first :: rest ->
  Forall (fun item => inCurrency cur (cart.CartItem.Price item)) (first :: rest) ->
  promotionsSupported s now (pricing.PriceCartRequest.PromotionCodes req) ->
  exists r : pricing.PricingResult.t,
    pricing.PriceCart s now req = (Some r, None)
    /\ Amount (pricing.PricingResult.Subtotal r)
       = Int64.sum (lineSubtotals (pricing.PricingResult.LineItemPrices r))
    /\ Amount (pricing.PricingResult.DiscountTotal r)
       = Int64.sum (discountAmounts (pricing.PricingResult.AppliedDiscounts r))
    /\ Amount (pricing.PricingResult.DiscountTotal r)
       = Int64.sum (lineDiscounts (pricing.PricingResult.LineItemPrices r)).
Proof.
  intros Hc Hi Hcur Hsup.
  exists (pricedResult s now req (first :: rest)).
  split; [apply (PriceCart_nonempty s now req c first rest Hc Hi) |].
  destruct (PriceCart_in_one_currency s now req c cur first rest Hc Hi Hcur Hsup)
    as (_ & _ & _ & Hsub & Hdisc & Hsubtotal & Hdiscount).
  rewrite Hsubtotal, Hdiscount. cbn [Amount].
  split; [| split].
  - f_equal. unfold lineSubtotals.
    rewrite (pricedResult_field
               (fun p => Amount (pricing.LineItemPrice.Subtotal p)))
      by reflexivity.
    reflexivity.
  - reflexivity.
  - unfold lineDiscounts.
    rewrite (pricedResult_after_promotions
               (fun p => Amount (pricing.LineItemPrice.DiscountAmount p)))
      by reflexivity.
    rewrite !sum_wrap. apply wrap_proper. symmetry. exact Hdisc.
Qed.

Lemma PriceCart_discount_allocated_witness :
  exists r : pricing.PricingResult.t,
    pricing.PriceCart sample.pricingOnly 5
      (sample.priceRequest sample.twoLines ["SAVE10"; "FIVEOFF"])
    = (Some r, None)
    /\ Amount (pricing.PricingResult.DiscountTotal r)
       = Int64.sum (lineDiscounts (pricing.PricingResult.LineItemPrices r)).
Proof.
  destruct (PriceCart_discount_allocated sample.pricingOnly 5
              (sample.priceRequest sample.twoLines ["SAVE10"; "FIVEOFF"])
              (sample.cartOf sample.twoLines) "USD"
              (sample.cartItem "line-1" "A" (mkMoney 1000 "USD") 2)
              [sample.cartItem "line-2" "B" (mkMoney 500 "USD") 1]
              eq_refl eq_refl)
    as (r & Hr & _ & _ & Hd).
  - repeat constructor.
  - intros code p [<- | [<- | []]] Hfind _; vm_compute in Hfind;
      injection Hfind as <-; [left | right]; reflexivity.
  - exists r. split; [exact Hr | exact Hd].
Defined.

(** ** Package pricing: carts in several currencies *)

Lemma subtotalLoop_empty (items : list cart.CartItem.t) :
  Forall (fun item => Currency (cart.CartItem.Price item) <> "") items ->
  cart.Cart.subtotalLoop items money.empty = money.empty.
Proof.
  induction 1 as [| item items Hne _ IH]; [reflexivity |].
  cbn [cart.Cart.subtotalLoop]. unfold Add at 1.
  cbn [Currency money.empty MultiplyInt].
  destruct (String.eqb_spec "" (Currency (cart.CartItem.Price item)))
    as [He | _]; [congruence |].
  exact IH.
Qed.

Lemma subtotalLoop_mixed (cur : string) (items : list cart.CartItem.t) :
  Forall (fun item => Currency (cart.CartItem.Price item) <> "") items ->
  Exists (fun item => Currency (cart.CartItem.Price item) <> cur) items ->
  forall t : Z, cart.Cart.subtotalLoop items (mkMoney t cur) = money.empty.
Proof.
  intros Hne. induction Hne as [| item items Hitem Hne IH]; intros Hex t;
    [inversion Hex |].
  cbn [cart.Cart.subtotalLoop]. unfold Add at 1. cbn [Currency MultiplyInt].
  destruct (String.eqb_spec cur (Currency (cart.CartItem.Price item)))
    as [He | Hdiff]; cbn [negb fst].
  - apply IH. inversion Hex; [congruence | assumption].
  - apply subtotalLoop_empty, Hne.
Qed.

(** When the lines of a cart carry currencies and some line is priced in
    another currency than the first, neither [PriceCart] nor the cart
    reports it: [PriceCart] returns a result and no error, and the
    subtotal of the result, like the subtotal of the cart, is the zero
    value of [Money], with no amount and no currency, while the result
    names the currency of the first line. *)
Theorem PriceCart_mixed_currencies (s : pricing.PricingService) (now : Z)
    (req : pricing.PriceCartRequest.t) (c : cart.Cart.t)
    (first : cart.CartItem.t) (rest : list cart.CartItem.t) :
  pricing.PriceCartRequest.Cart req = Some c ->
  cart.Cart.Items c = first :: rest ->
  Forall (fun item => Currency (cart.CartItem.Price item) <> "") (first :: rest) ->
  Exists (fun item => Currency (cart.CartItem.Price item)
                      <> Currency (cart.CartItem.Price first)) rest ->
  exists r : pricing.PricingResult.t,
    pricing.PriceCart s now req = (Some r, None)
    /\ pricing.PricingResult.Subtotal r = money.empty
    /\ cart.Cart.Subtotal c = money.empty
    /\ pricing.PricingResult.Currency r = Currency (cart.CartItem.Price first).
Proof.
  intros Hc Hi Hne Hex.
  exists (pricedResult s now req (first :: rest)).
  split; [apply (PriceCart_nonempty s now req c first rest Hc Hi) |].
  assert (Hsub : cart.Cart.Subtotal c = money.empty).
  { unfold cart.Cart.Subtotal. rewrite Hi.
    apply (subtotalLoop_mixed (Currency (cart.CartItem.Price first))
             (first :: rest) Hne).
    apply Exists_cons_tl, Hex. }
  split; [| split; [exact Hsub | reflexivity]].
  rewrite <- Hsub. unfold pricedResult, cart.Cart.Subtotal.
  cbn [pricing.PricingResult.Subtotal]. rewrite Hi. apply subtotalLoop_cart.
Qed.

Lemma PriceCart_mixed_currencies_witness :
  exists r : pricing.PricingResult.t,
    pricing.PriceCart sample.pricingOnly 5
      (sample.priceRequest
         [sample.cartItem "line-1" "A" (mkMoney 1000 "USD") 2;
          sample.cartItem "line-2" "B" (mkMoney 500 "EUR") 1] [])
    = (Some r, None)
    /\ pricing.PricingResult.Subtotal r = money.empty
    /\ cart.Cart.Subtotal
         (sample.cartOf
            [sample.cartItem "line-1" "A" (mkMoney 1000 "USD") 2;
             sample.cartItem "line-2" "B" (mkMoney 500 "EUR") 1])
       = money.empty
    /\ pricing.PricingResult.Currency r = "USD".
Proof.
  apply (PriceCart_mixed_currencies sample.pricingOnly 5 _
           (sample.cartOf
              [sample.cartItem "line-1" "A" (mkMoney 1000 "USD") 2;
               sample.cartItem "line-2" "B" (mkMoney 500 "EUR") 1])
           (sample.cartItem "line-1" "A" (mkMoney 1000 "USD") 2)
           [sample.cartItem "line-2" "B" (mkMoney 500 "EUR") 1]);
    try reflexivity.
  - repeat constructor; discriminate.
  - constructor. discriminate.
Defined.

(** ** Package orders: the outcomes of CreateFromCart *)

(** [CreateFromCart] returns either an order or an error, never both and
    never neither: the pricing service returns a result on every cart that
    passes the first check.  Without a cart, or with an empty one, the
    error is [ErrEmptyCart]; with a cart that is not empty and an
    incomplete shipping address it is [ErrInvalidAddress]; in both cases
    nothing is reserved, saved or charged and no id is generated. *)
Theorem CreateFromCart_order_or_error {R I G : Type}
    (s : orders.OrderService R I G) (now : Z)
    (req : orders.CreateOrderRequest.t) (w : orders.World R I G) :
  ((exists o, fst (orders.CreateFromCart s now req w) = (Some o, None))
   \/ (exists err, fst (orders.CreateFromCart s now req w) = (None, Some err)))
  /\ (orders.CreateOrderRequest.Cart req = None
      \/ (exists c, orders.CreateOrderRequest.Cart req = Some c
                    /\ cart.Cart.IsEmpty c = true) ->
      orders.CreateFromCart s now req w = ((None, Some ErrEmptyCart), w))
  /\ (forall c : cart.Cart.t,
        orders.CreateOrderRequest.Cart req = Some c ->
        cart.Cart.IsEmpty c = false ->
        orders.Address.IsComplete (orders.CreateOrderRequest.ShippingAddress req)
        = false ->
        orders.CreateFromCart s now req w = ((None, Some ErrInvalidAddress), w)).
Proof.
  split; [| split].
  - destruct (orders.CreateOrderRequest.Cart req) as [c |] eqn:Hc.
    2:{ right. exists ErrEmptyCart. unfold orders.CreateFromCart.
        rewrite Hc. reflexivity. }
    destruct (cart.Cart.Items c) as [| first rest] eqn:Hi.
    { right. exists ErrEmptyCart. unfold orders.CreateFromCart, cart.Cart.IsEmpty.
      rewrite Hc, Hi. reflexivity. }
    destruct (orders.Address.IsComplete
                (orders.CreateOrderRequest.ShippingAddress req)) eqn:Haddr.
    2:{ right. exists ErrInvalidAddress.
        unfold orders.CreateFromCart, cart.Cart.IsEmpty.
        rewrite Hc, Hi, Haddr. reflexivity. }
    rewrite (CreateFromCart_steps s now req c first rest Hc Hi Haddr w).
    destruct (orders.reserveInventory s (first :: rest) w) as [[err |] w1];
      [right; exists err; reflexivity |].
    cbn zeta.
    destruct (orders.buildOrder s now req _ _ _ w1) as [order w2].
    cbn [fst snd].
    destruct (orders.Save (orders.repo s) order (orders.repoState w2))
      as [[err |] r']; [right; exists err; reflexivity |].
    unfold orders.processPayment.
    destruct (orders.paymentGateway s) as [gateway |];
      [| left; eexists; reflexivity].
    destruct (payments.CreateIntent gateway _ _) as [[intent | e] g'];
      [| right; eexists; reflexivity].
    destruct (String.eqb _ _); left; eexists; reflexivity.
  - intros [Hc | (c & Hc & Hempty)]; unfold orders.CreateFromCart; rewrite Hc;
      [| rewrite Hempty]; reflexivity.
  - intros c Hc Hne Haddr. unfold orders.CreateFromCart.
    rewrite Hc, Hne, Haddr. reflexivity.
Qed.

(** ** Package orders: the order that CreateFromCart returns *)

Section CreatedOrder.

Context {R I G : Type}.
Variable s : orders.OrderService R I G.

Lemma createOrderItems_spec (pricingResult : pricing.PricingResult.t)
    (items : list cart.CartItem.t) :
  forall (i : nat) (w : orders.World R I G),
    let res := orders.createOrderItems s pricingResult items i w in
    orders.idCalls (snd res) = (orders.idCalls w + length items)%nat
    /\ orders.orderNumberCalls (snd res) = orders.orderNumberCalls w
    /\ map orders.OrderItem.ID (fst res)
       = map (orders.idGenerator s) (seq (orders.idCalls w) (length items))
    /\ map (fun oi => (orders.OrderItem.ProductID oi, orders.OrderItem.SKU oi,
                       orders.OrderItem.Name oi, orders.OrderItem.UnitPrice oi,
                       orders.OrderItem.Quantity oi))
         (fst res)
       = map (fun ci => (cart.CartItem.ProductID ci, cart.CartItem.SKU ci,
                         cart.CartItem.Name ci, cart.CartItem.Price ci,
                         cart.CartItem.Quantity ci))
           items
    /\ ((i + length items)%nat
        = length (pricing.PricingResult.LineItemPrices pricingResult) ->
        map (fun oi => (orders.OrderItem.DiscountAmount oi,
                        orders.OrderItem.TaxAmount oi, orders.OrderItem.Total oi))
          (fst res)
        = map (fun p => (pricing.LineItemPrice.DiscountAmount p,
                         pricing.LineItemPrice.TaxAmount p,
                         pricing.LineItemPrice.Total p))
            (drop i (pricing.PricingResult.LineItemPrices pricingResult))).
Proof.
  induction items as [| item items IH]; intros i w.
  - cbn. repeat split; try lia.
    intros Hlen. rewrite drop_ge by lia. reflexivity.
  - cbn [orders.createOrderItems]. unfold orders.nextID.
    specialize (IH (S i)
                  (orders.mkWorld (orders.repoState w) (orders.inventoryState w)
                     (orders.gatewayState w) (S (orders.idCalls w))
                     (orders.orderNumberCalls w))).
    destruct (orders.createOrderItems s pricingResult items (S i) _)
      as [orderItems w'].
    cbn [fst snd orders.idCalls orders.orderNumberCalls] in IH |- *.
    destruct IH as (H1 & H2 & H3 & H4 & H5).
    cbn [length seq map]. rewrite H3, H4.
    repeat split; try (lia || assumption).
    intros Hlen.
    destruct (pricing.PricingResult.LineItemPrices pricingResult !! i)
      as [p |] eqn:Hp.
    + rewrite (drop_S _ _ _ Hp). cbn [map]. f_equal. apply H5. lia.
    + apply lookup_ge_None in Hp. lia.
Qed.

Lemma fold_left_quantities {A : Type} (q : A -> Z) (l : list A) (a : Z) :
  fold_left (fun count item => Int64.add count (q item)) l a
  = fold_left Int64.add (map q l) a.
Proof.
  revert a. induction l as [| x l IH]; intros a; [reflexivity |]. cbn. apply IH.
Qed.

Lemma UpdateStatus_pending_paid (now : Z) (o : orders.Order.t) :
  orders.Order.Status o = orders.OrderStatusPending ->
  snd (orders.Order.UpdateStatus now o orders.OrderStatusPaid)
  = orders.Order.set_UpdatedAt now
      (orders.Order.set_Status orders.OrderStatusPaid o).
Proof.
  intros Hst. unfold orders.Order.UpdateStatus.
  assert (Hcan : orders.Order.CanTransitionTo o orders.OrderStatusPaid = true).
  { apply CanTransitionTo_listed. rewrite Hst. constructor. }
  rewrite Hcan. reflexivity.
Qed.

Lemma reserveLoop_success (inv : inventory.Service I) (reservationID : string)
    (items : list cart.CartItem.t) :
  forall w w1 : orders.World R I G,
    orders.reserveLoop s inv reservationID items w = (None, w1) ->
    w1 = orders.set_inventoryState
           (reservedUnder inv reservationID items (orders.inventoryState w)) w.
Proof.
  induction items as [| item items IH]; intros w w1 H.
  - cbn in H. injection H as <-. destruct w; reflexivity.
  - cbn [orders.reserveLoop] in H. cbn [reservedUnder].
    destruct (inventory.Reserve inv _ _ _ _) as [[err |] i']; [discriminate |].
    apply IH in H. rewrite H. reflexivity.
Qed.

(** The steps of a call that returns an order. *)
Lemma CreateFromCart_success (now : Z) (req : orders.CreateOrderRequest.t)
    (w w' : orders.World R I G) (o : orders.Order.t) :
  orders.CreateFromCart s now req w = ((Some o, None), w') ->
  exists (c : cart.Cart.t) (first : cart.CartItem.t)
         (rest : list cart.CartItem.t) (w1 : orders.World R I G),
    orders.CreateOrderRequest.Cart req = Some c
    /\ cart.Cart.Items c = first :: rest
    /\ orders.Address.IsComplete (orders.CreateOrderRequest.ShippingAddress req)
       = true
    /\ orders.reserveInventory s (first :: rest) w = (None, w1)
    /\ let built :=
         orders.buildOrder s now req (orders.billingAddressOf req)
           (pricedResult (orders.pricingService s) now
              (orders.pricingRequest req) (first :: rest))
           (first :: rest) w1 in
       (o = fst built
        \/ (o = orders.Order.set_UpdatedAt now
                  (orders.Order.set_Status orders.OrderStatusPaid (fst built))
            /\ orders.paymentGateway s <> None))
       /\ orders.inventoryState w' = orders.inventoryState w1.
Proof.
  intros H.
  destruct (orders.CreateOrderRequest.Cart req) as [c |] eqn:Hc;
    [| unfold orders.CreateFromCart in H; rewrite Hc in H; discriminate].
  destruct (cart.Cart.Items c) as [| first rest] eqn:Hi;
    [unfold orders.CreateFromCart, cart.Cart.IsEmpty in H;
     rewrite Hc, Hi in H; discriminate |].
  destruct (orders.Address.IsComplete
              (orders.CreateOrderRequest.ShippingAddress req)) eqn:Haddr;
    [| unfold orders.CreateFromCart, cart.Cart.IsEmpty in H;
       rewrite Hc, Hi, Haddr in H; discriminate].
  rewrite (CreateFromCart_steps s now req c first rest Hc Hi Haddr w) in H.
  destruct (orders.reserveInventory s (first :: rest) w) as [[err |] w1] eqn:Hres;
    [discriminate |].
  exists c, first, rest, w1.
  do 4 (split; [first [reflexivity | assumption] |]).
  cbn zeta in H |- *.
  pose proof (buildOrder_world s now req (orders.billingAddressOf req)
                (pricedResult (orders.pricingService s) now
                   (orders.pricingRequest req) (first :: rest))
                (first :: rest) w1) as (Hpending & _ & Hinv & _).
  destruct (orders.buildOrder s now req _ _ _ w1) as [order w2].
  cbn [fst snd] in *.
  destruct (orders.Save (orders.repo s) order (orders.repoState w2))
    as [[err |] r']; [discriminate |].
  unfold orders.processPayment in H.
  destruct (orders.paymentGateway s) as [gateway |].
  - destruct (payments.CreateIntent gateway _ _) as [[intent | e] g'];
      [| discriminate].
    destruct (String.eqb _ _).
    + injection H as <- <-. split; [| exact Hinv]. right.
      split; [apply UpdateStatus_pending_paid, Hpending | discriminate].
    + injection H as <- <-. split; [left; reflexivity | exact Hinv].
  - injection H as <- <-. split; [left; reflexivity | exact Hinv].
Qed.

End CreatedOrder.

(** When [CreateFromCart] returns an order, the cart was not empty and
    the shipping address complete; the order carries the five totals of
    the pricing of the cart, one item per cart line with the product, the
    SKU, the name, the unit price and the quantity of the line and the
    discount, the tax and the total of its price line, and as many units
    as the cart; its billing address is the shipping address when the one
    given is incomplete; and it is pending, or paid, which needs a payment
    gateway. *)
Theorem CreateFromCart_returned_order {R I G : Type}
    (s : orders.OrderService R I G) (now : Z)
    (req : orders.CreateOrderRequest.t) (w w' : orders.World R I G)
    (o : orders.Order.t) :
  orders.CreateFromCart s now req w = ((Some o, None), w') ->
  exists (c : cart.Cart.t) (r : pricing.PricingResult.t),
    orders.CreateOrderRequest.Cart req = Some c
    /\ cart.Cart.IsEmpty c = false
    /\ orders.Address.IsComplete (orders.CreateOrderRequest.ShippingAddress req)
       = true
    /\ pricing.PriceCart (orders.pricingService s) now (orders.pricingRequest req)
       = (Some r, None)
    /\ (orders.Order.Subtotal o, orders.Order.DiscountTotal o,
        orders.Order.TaxTotal o, orders.Order.ShippingTotal o,
        orders.Order.Total o)
       = (pricing.PricingResult.Subtotal r, pricing.PricingResult.DiscountTotal r,
          pricing.PricingResult.TaxTotal r, pricing.PricingResult.ShippingTotal r,
          pricing.PricingResult.Total r)
    /\ map (fun oi => (orders.OrderItem.ProductID oi, orders.OrderItem.SKU oi,
                       orders.OrderItem.Name oi, orders.OrderItem.UnitPrice oi,
                       orders.OrderItem.Quantity oi))
         (orders.Order.Items o)
       = map (fun ci => (cart.CartItem.ProductID ci, cart.CartItem.SKU ci,
                         cart.CartItem.Name ci, cart.CartItem.Price ci,
                         cart.CartItem.Quantity ci))
           (cart.Cart.Items c)
    /\ map (fun oi => (orders.OrderItem.DiscountAmount oi,
                       orders.OrderItem.TaxAmount oi, orders.OrderItem.Total oi))
         (orders.Order.Items o)
       = map (fun p => (pricing.LineItemPrice.DiscountAmount p,
                        pricing.LineItemPrice.TaxAmount p,
                        pricing.LineItemPrice.Total p))
           (pricing.PricingResult.LineItemPrices r)
    /\ orders.Order.ItemCount o = cart.Cart.ItemCount c
    /\ orders.Order.ShippingAddress o
       = orders.CreateOrderRequest.ShippingAddress req
    /\ orders.Order.BillingAddress o
       = (if orders.Address.IsComplete (orders.CreateOrderRequest.BillingAddress req)
          then orders.CreateOrderRequest.BillingAddress req
          else orders.CreateOrderRequest.ShippingAddress req)
    /\ (orders.Order.Status o = orders.OrderStatusPending
        \/ (orders.Order.Status o = orders.OrderStatusPaid
            /\ orders.paymentGateway s <> None)).
Proof.
  intros H.
  destruct (CreateFromCart_success s now req w w' o H)
    as (c & first & rest & w1 & Hc & Hi & Haddr & _ & Ho & _).
  set (r := pricedResult (orders.pricingService s) now
              (orders.pricingRequest req) (first :: rest)) in *.
  exists c, r. split; [exact Hc |].
  split; [unfold cart.Cart.IsEmpty; rewrite Hi; reflexivity |].
  split; [exact Haddr |].
  split; [apply (PriceCart_nonempty (orders.pricingService s) now
                   (orders.pricingRequest req) c first rest Hc Hi) |].
  assert (Hlen : (0 + length (first :: rest))%nat
                 = length (pricing.PricingResult.LineItemPrices r))
    by (subst r; rewrite pricedResult_length; reflexivity).
  clearbody r.
  cbn zeta in Ho. unfold orders.buildOrder in Ho.
  pose proof (createOrderItems_spec s r (first :: rest) 0%nat w1) as Hitems.
  destruct (orders.createOrderItems s r (first :: rest) 0 w1)
    as [orderItems w2].
  cbn zeta in Hitems. cbn [fst snd] in Hitems, Ho.
  destruct Hitems as (_ & _ & _ & Hfields & Hamounts).
  specialize (Hamounts Hlen).
  rewrite drop_0 in Hamounts. unfold orders.nextID, orders.nextOrderNumber in Ho.
  cbn [fst snd] in Ho.
  assert (Hcount : fold_left
                     (fun count item => Int64.add count (orders.OrderItem.Quantity item))
                     orderItems 0
                   = cart.Cart.ItemCount c).
  { unfold cart.Cart.ItemCount. rewrite Hi, (fold_left_quantities orders.OrderItem.Quantity),
      (fold_left_quantities cart.CartItem.Quantity). f_equal.
    apply (f_equal (map snd)) in Hfields. rewrite !map_map in Hfields.
    exact Hfields. }
  assert (Hbilling :
            orders.billingAddressOf req
            = if orders.Address.IsComplete
                   (orders.CreateOrderRequest.BillingAddress req)
              then orders.CreateOrderRequest.BillingAddress req
              else orders.CreateOrderRequest.ShippingAddress req).
  { unfold orders.billingAddressOf.
    destruct (orders.Address.IsComplete
                (orders.CreateOrderRequest.BillingAddress req));
      reflexivity. }
  rewrite <- Hi in Hfields.
  destruct Ho as [-> | (-> & Hgw)];
    cbn [orders.Order.Subtotal orders.Order.DiscountTotal orders.Order.TaxTotal
           orders.Order.ShippingTotal orders.Order.Total orders.Order.Items
           orders.Order.ItemCount orders.Order.ShippingAddress
           orders.Order.BillingAddress orders.Order.Status
           orders.Order.set_UpdatedAt orders.Order.set_Status];
    (split; [reflexivity |]); (split; [exact Hfields |]);
    (split; [exact Hamounts |]); (split; [exact Hcount |]);
    (split; [reflexivity |]); (split; [exact Hbilling |]); auto.
Qed.

Lemma CreateFromCart_returned_order_witness :
  exists (c : cart.Cart.t) (r : pricing.PricingResult.t),
    pricing.PriceCart sample.pricingOnly 5
      (orders.pricingRequest (sample.orderRequest sample.twoLines ["SAVE10"]))
    = (Some r, None)
    /\ orders.Order.Total
         (sample.createdOrder) = pricing.PricingResult.Total r
    /\ orders.Order.ItemCount (sample.createdOrder) = cart.Cart.ItemCount c
    /\ cart.Cart.ItemCount c = 3.
Proof.
  destruct
    (CreateFromCart_returned_order
       (sample.orderService sample.memRepository (Some sample.memInventory)
          (Some sample.acceptingGateway))
       5 (sample.orderRequest sample.twoLines ["SAVE10"])
       (sample.world (sample.stock 5 5) 0%nat)
       (snd (orders.CreateFromCart
               (sample.orderService sample.memRepository
                  (Some sample.memInventory) (Some sample.acceptingGateway))
               5 (sample.orderRequest sample.twoLines ["SAVE10"])
               (sample.world (sample.stock 5 5) 0%nat)))
       sample.createdOrder)
    as (c & r & Hc & _ & _ & Hr & Htotals & _ & _ & Hcount & _).
  - vm_compute. reflexivity.
  - exists c, r. split; [exact Hr |].
    split; [congruence |]. split; [exact Hcount |].
    injection Hc as <-. vm_compute. reflexivity.
Defined.

(** ** Package orders: reservation ids and order ids *)

Section OrderIDs.

Context {R I G : Type}.
Variable s : orders.OrderService R I G.

Lemma buildOrder_ids (now : Z) (req : orders.CreateOrderRequest.t)
    (billingAddress : orders.Address.t)
    (pricingResult : pricing.PricingResult.t) (items : list cart.CartItem.t)
    (w : orders.World R I G) :
  let built := orders.buildOrder s now req billingAddress pricingResult items w in
  orders.Order.ID (fst built)
  = orders.idGenerator s (orders.idCalls w + length items)
  /\ map orders.OrderItem.ID (orders.Order.Items (fst built))
     = map (orders.idGenerator s) (seq (orders.idCalls w) (length items)).
Proof.
  unfold orders.buildOrder.
  pose proof (createOrderItems_spec s pricingResult items 0%nat w)
    as (Hcalls & _ & Hids & _).
  destruct (orders.createOrderItems s pricingResult items 0 w)
    as [orderItems w2].
  cbn [fst snd] in *. unfold orders.nextID. cbn [fst snd orders.Order.ID
    orders.Order.Items]. rewrite Hcalls. auto.
Qed.

Lemma reserveInventory_success (inv : inventory.Service I)
    (items : list cart.CartItem.t) (w w1 : orders.World R I G) :
  orders.inventoryService s = Some inv ->
  orders.reserveInventory s items w = (None, w1) ->
  orders.idCalls w1 = S (orders.idCalls w)
  /\ orders.inventoryState w1
     = reservedUnder inv (orders.idGenerator s (orders.idCalls w)) items
         (orders.inventoryState w).
Proof.
  intros Hinv H. unfold orders.reserveInventory in H. rewrite Hinv in H.
  unfold orders.nextID in H. cbn zeta beta iota in H.
  apply reserveLoop_success in H. rewrite H. cbn. auto.
Qed.

Lemma CancelOrder_cancelable (now : Z) (orderID reason : string)
    (w : orders.World R I G) (o : orders.Order.t) :
  orders.FindByID (orders.repo s) orderID (orders.repoState w) = inl o ->
  orders.Order.IsCancelable o = true ->
  orders.CancelOrder s now orderID reason w
  = match orders.Save (orders.repo s) (canceledOrder now reason o)
            (orders.repoState w) with
    | (Some err, r') =>
        ((None, Some err),
         orders.mkWorld r' (releasedFor s o (orders.inventoryState w))
           (orders.gatewayState w) (orders.idCalls w)
           (orders.orderNumberCalls w))
    | (None, r') =>
        ((Some (canceledOrder now reason o), None),
         orders.mkWorld r' (releasedFor s o (orders.inventoryState w))
           (orders.gatewayState w) (orders.idCalls w)
           (orders.orderNumberCalls w))
    end.
Proof.
  intros Hfind Hcan. unfold orders.CancelOrder. rewrite Hfind, Hcan.
  cbn [negb].
  assert (Hup : snd (orders.Order.UpdateStatus now o orders.OrderStatusCanceled)
                = orders.Order.set_CanceledAt (Some now)
                    (orders.Order.set_UpdatedAt now
                       (orders.Order.set_Status orders.OrderStatusCanceled o))).
  { unfold orders.Order.UpdateStatus.
    rewrite <- (proj1 (IsCancelable_CanTransitionTo o)), Hcan. reflexivity. }
  rewrite Hup. unfold canceledOrder, releasedFor.
  destruct (orders.inventoryService s) as [inv |];
    cbn [orders.repoState orders.set_inventoryState orders.Order.Notes
           orders.Order.set_CanceledAt orders.Order.set_UpdatedAt
           orders.Order.set_Status];
    destruct (orders.Save _ _ _) as [[err |] r']; destruct w; reflexivity.
Qed.

End OrderIDs.

(** When [CreateFromCart] returns an order and an inventory service is
    configured, the stock of every cart line was reserved under one
    reservation id, the first id the call generated; the items of the
    order got the next ids and the order the one after.  With a generator
    that never repeats an id, the id of the order is not the reservation
    id; and it is under the id of the order that [CancelOrder] releases
    the stock of that order. *)
Theorem CreateFromCart_reservation_and_order_ids {R I G : Type}
    (s : orders.OrderService R I G) (now : Z)
    (req : orders.CreateOrderRequest.t) (w w' : orders.World R I G)
    (o : orders.Order.t) (inv : inventory.Service I) :
  orders.CreateFromCart s now req w = ((Some o, None), w') ->
  orders.inventoryService s = Some inv ->
  exists c : cart.Cart.t,
    orders.CreateOrderRequest.Cart req = Some c
    /\ orders.inventoryState w'
       = reservedUnder inv (orders.idGenerator s (orders.idCalls w))
           (cart.Cart.Items c) (orders.inventoryState w)
    /\ map orders.OrderItem.ID (orders.Order.Items o)
       = map (orders.idGenerator s)
           (seq (S (orders.idCalls w)) (length (cart.Cart.Items c)))
    /\ orders.Order.ID o
       = orders.idGenerator s
           (S (orders.idCalls w) + length (cart.Cart.Items c))
    /\ ((forall a b, orders.idGenerator s a = orders.idGenerator s b -> a = b) ->
        orders.Order.ID o <> orders.idGenerator s (orders.idCalls w))
    /\ (forall (now' : Z) (reason : string) (w2 : orders.World R I G),
          orders.FindByID (orders.repo s) (orders.Order.ID o)
            (orders.repoState w2) = inl o ->
          orders.inventoryState
            (snd (orders.CancelOrder s now' (orders.Order.ID o) reason w2))
          = orders.releaseLoop inv (orders.Order.ID o) (orders.Order.Items o)
              (orders.inventoryState w2)).
Proof.
  intros H Hinv.
  destruct (CreateFromCart_success s now req w w' o H)
    as (c & first & rest & w1 & Hc & Hi & _ & Hres & Ho & Hstate).
  destruct (reserveInventory_success s inv (first :: rest) w w1 Hinv Hres)
    as (Hcalls & Hreserved).
  cbn zeta in Ho.
  pose proof (buildOrder_world s now req (orders.billingAddressOf req)
                (pricedResult (orders.pricingService s) now
                   (orders.pricingRequest req) (first :: rest))
                (first :: rest) w1) as (Hpending & _).
  pose proof (buildOrder_ids s now req (orders.billingAddressOf req)
                (pricedResult (orders.pricingService s) now
                   (orders.pricingRequest req) (first :: rest))
                (first :: rest) w1) as (Hid & Hitems).
  cbn zeta in Hid, Hitems. rewrite Hcalls in Hid, Hitems.
  set (order := fst (orders.buildOrder s now req _ _ _ w1)) in *.
  assert (Hfacts : orders.Order.ID o = orders.Order.ID order
                   /\ orders.Order.Items o = orders.Order.Items order
                   /\ orders.Order.IsCancelable o = true).
  { destruct Ho as [-> | (-> & _)].
    - unfold orders.Order.IsCancelable. rewrite Hpending. auto.
    - cbn. auto. }
  destruct Hfacts as (HID & HItems & Hcan).
  exists c. rewrite Hi, HID, HItems.
  split; [exact Hc |]. split; [congruence |].
  split; [exact Hitems |]. split; [exact Hid |]. split.
  - intros Hinj Heq. rewrite Hid in Heq. apply Hinj in Heq. lia.
  - intros now' reason w2 Hfind.
    rewrite <- HID in Hfind |- *. rewrite <- HItems.
    rewrite (CancelOrder_cancelable s now' _ reason w2 o Hfind Hcan).
    unfold releasedFor. rewrite Hinv.
    destruct (orders.Save _ _ _) as [[err |] r']; reflexivity.
Qed.

Lemma CreateFromCart_reservation_and_order_ids_witness :
  sample.held
    (orders.inventoryState
       (snd (orders.CancelOrder
               (sample.orderService sample.memRepository
                  (Some sample.memInventory) (Some sample.acceptingGateway))
               9 "id-3" "changed my mind"
               (snd (orders.CreateFromCart
                       (sample.orderService sample.memRepository
                          (Some sample.memInventory)
                          (Some sample.acceptingGateway))
                       5 (sample.orderRequest sample.twoLines ["SAVE10"])
                       (sample.world (sample.stock 5 5) 0%nat))))))
  = [("A", 2, "id-0"); ("B", 1, "id-0")].
Proof.
  destruct
    (CreateFromCart_reservation_and_order_ids
       (sample.orderService sample.memRepository (Some sample.memInventory)
          (Some sample.acceptingGateway))
       5 (sample.orderRequest sample.twoLines ["SAVE10"])
       (sample.world (sample.stock 5 5) 0%nat)
       (snd (orders.CreateFromCart
               (sample.orderService sample.memRepository
                  (Some sample.memInventory) (Some sample.acceptingGateway))
               5 (sample.orderRequest sample.twoLines ["SAVE10"])
               (sample.world (sample.stock 5 5) 0%nat)))
       sample.createdOrder sample.memInventory)
    as (c & _ & _ & _ & _ & _ & Hcancel).
  - vm_compute. reflexivity.
  - reflexivity.
  - change "id-3" with (orders.Order.ID sample.createdOrder).
    rewrite Hcancel by (vm_compute; reflexivity).
    vm_compute. reflexivity.
Defined.

(** ** Package orders: CancelOrder *)

(** [CancelOrder] on an order that is found: when the order is not
    cancelable it returns an error and changes nothing; when it is, the
    stock of each item is released under the id of the order and the order
    is saved as canceled at this instant, with the reason appended to its
    notes.  The release comes before the save: when the save fails the
    error is returned and no order, and the stock stays released. *)
Theorem CancelOrder_outcomes {R I G : Type} (s : orders.OrderService R I G)
    (now : Z) (orderID reason : string) (w : orders.World R I G)
    (o : orders.Order.t) :
  orders.FindByID (orders.repo s) orderID (orders.repoState w) = inl o ->
  (orders.Order.IsCancelable o = true
   <-> orders.Order.Status o = orders.OrderStatusPending
       \/ orders.Order.Status o = orders.OrderStatusPaid
       \/ orders.Order.Status o = orders.OrderStatusProcessing)
  /\ (orders.Order.IsCancelable o = false ->
      orders.CancelOrder s now orderID reason w
      = ((None, Some (ErrOther "order cannot be canceled")), w))
  /\ (orders.Order.IsCancelable o = true ->
      forall (err : option error) (r' : R),
        orders.Save (orders.repo s) (canceledOrder now reason o)
          (orders.repoState w) = (err, r') ->
        orders.CancelOrder s now orderID reason w
        = ((match err with
            | None => Some (canceledOrder now reason o)
            | Some _ => None
            end, err),
           orders.mkWorld r' (releasedFor s o (orders.inventoryState w))
             (orders.gatewayState w) (orders.idCalls w)
             (orders.orderNumberCalls w)))
  /\ orders.Order.Status (canceledOrder now reason o)
     = orders.OrderStatusCanceled
  /\ orders.Order.CanceledAt (canceledOrder now reason o) = Some now.
Proof.
  intros Hfind. split; [| split; [| split]].
  - unfold orders.Order.IsCancelable.
    rewrite !orb_true_iff, !String.eqb_eq. tauto.
  - intros Hno. unfold orders.CancelOrder. rewrite Hfind, Hno. reflexivity.
  - intros Hcan err r' Hsave.
    rewrite (CancelOrder_cancelable s now orderID reason w o Hfind Hcan), Hsave.
    destruct err; reflexivity.
  - split; reflexivity.
Qed.

Lemma CancelOrder_outcomes_witness :
  orders.CancelOrder
    (sample.orderService sample.failingRepository (Some sample.memInventory)
       (Some sample.decliningGateway))
    7 "o-1" "late" sample.worldWithReservedOrder
  = ((None, Some (ErrOther "database unavailable")),
     orders.mkWorld {[ "o-1" := sample.reservedOrder ]} (sample.mkStock ∅ [])
       0%nat 0%nat 0%nat).
Proof.
  destruct (CancelOrder_outcomes
              (sample.orderService sample.failingRepository
                 (Some sample.memInventory) (Some sample.decliningGateway))
              7 "o-1" "late" sample.worldWithReservedOrder sample.reservedOrder
              eq_refl) as (_ & _ & H & _).
  rewrite (H eq_refl (Some (ErrOther "database unavailable"))
             {[ "o-1" := sample.reservedOrder ]} eq_refl).
  vm_compute. reflexivity.
Defined.

(** A canceled order is final: once [CancelOrder] has returned the
    canceled order and the repository returns it under its id, another
    [CancelOrder] is refused and an [UpdateStatus] to any status is
    refused, and neither changes anything, the inventory included. *)
Theorem canceled_order_is_final {R I G : Type} (s : orders.OrderService R I G)
    (now now' : Z) (orderID reason reason' : string)
    (w w1 : orders.World R I G) (o1 : orders.Order.t) :
  orders.CancelOrder s now orderID reason w = ((Some o1, None), w1) ->
  orders.FindByID (orders.repo s) orderID (orders.repoState w1) = inl o1 ->
  orders.Order.Status o1 = orders.OrderStatusCanceled
  /\ orders.CancelOrder s now' orderID reason' w1
     = ((None, Some (ErrOther "order cannot be canceled")), w1)
  /\ (forall status : orders.OrderStatus,
        orders.UpdateStatus s now' orderID status w1
        = ((None, Some ErrInvalidStatus), w1)).
Proof.
  intros Hcancel Hfind.
  assert (Hst : orders.Order.Status o1 = orders.OrderStatusCanceled).
  { unfold orders.CancelOrder in Hcancel.
    destruct (orders.FindByID (orders.repo s) orderID (orders.repoState w))
      as [o | e] eqn:Hfind0; [| discriminate].
    destruct (orders.Order.IsCancelable o) eqn:Hcan; [| discriminate].
    cbn [negb] in Hcancel.
    assert (Hup : orders.Order.Status
                    (snd (orders.Order.UpdateStatus now o
                            orders.OrderStatusCanceled))
                  = orders.OrderStatusCanceled).
    { unfold orders.Order.UpdateStatus.
      rewrite <- (proj1 (IsCancelable_CanTransitionTo o)), Hcan. reflexivity. }
    destruct (orders.Save _ _ _) as [[err |] r'] in Hcancel; [discriminate |].
    injection Hcancel as <- _. exact Hup. }
  split; [exact Hst |]. split.
  - unfold orders.CancelOrder. rewrite Hfind.
    unfold orders.Order.IsCancelable. rewrite Hst. reflexivity.
  - intros status. unfold orders.UpdateStatus. rewrite Hfind.
    destruct (UpdateStatus_listed now' o1 status) as [(He & _) | (_ & ->)].
    + rewrite Hst in He. inversion He.
    + reflexivity.
Qed.

Lemma canceled_order_is_final_witness :
  orders.CancelOrder
    (sample.orderService sample.memRepository (Some sample.memInventory)
       (Some sample.decliningGateway))
    8 "o-1" "again"
    (snd (orders.CancelOrder
            (sample.orderService sample.memRepository
               (Some sample.memInventory) (Some sample.decliningGateway))
            7 "o-1" "late" sample.worldWithReservedOrder))
  = ((None, Some (ErrOther "order cannot be canceled")),
     snd (orders.CancelOrder
            (sample.orderService sample.memRepository
               (Some sample.memInventory) (Some sample.decliningGateway))
            7 "o-1" "late" sample.worldWithReservedOrder)).
Proof.
  apply (canceled_order_is_final
           (sample.orderService sample.memRepository (Some sample.memInventory)
              (Some sample.decliningGateway))
           7 8 "o-1" "late" "again" sample.worldWithReservedOrder _
           (canceledOrder 7 "late" sample.reservedOrder)).
  - vm_compute. reflexivity.
  - vm_compute. reflexivity.
Defined.

(** ** Package cart: the cart *)

Section CartLines.

Lemma indexWhere_spec (test : nat -> cart.CartItem.t -> bool)
    (items : list cart.CartItem.t) :
  forall i0 : nat,
    match cart.Cart.indexWhere test items i0 with
    | Some i =>
        exists (k : nat) (item : cart.CartItem.t),
          i = (i0 + k)%nat /\ items !! k = Some item /\ test i item = true
          /\ forall j x, (j < k)%nat -> items !! j = Some x ->
                         test (i0 + j)%nat x = false
    | None =>
        forall j x, items !! j = Some x -> test (i0 + j)%nat x = false
    end.
Proof.
  induction items as [| item items IH]; intros i0.
  - cbn. intros j x H. destruct j; discriminate.
  - cbn [cart.Cart.indexWhere]. destruct (test i0 item) eqn:Ht.
    + exists 0%nat, item. rewrite Nat.add_0_r.
      split; [reflexivity | split; [reflexivity | split; [exact Ht |]]].
      intros j x Hj. lia.
    + specialize (IH (S i0)).
      destruct (cart.Cart.indexWhere test items (S i0)) as [i |].
      * destruct IH as (k & x & -> & Hk & Htest & Hbefore).
        exists (S k), x. split; [| split; [| split]].
        -- lia.
        -- exact Hk.
        -- rewrite <- Htest. f_equal; lia.
        -- intros [| j] y Hj Hy.
           ++ injection Hy as <-. rewrite Nat.add_0_r. exact Ht.
           ++ rewrite <- (Hbefore j y); [f_equal; lia | lia | exact Hy].
      * intros [| j] y Hy.
        -- injection Hy as <-. rewrite Nat.add_0_r. exact Ht.
        -- rewrite <- (IH j y Hy). f_equal; lia.
Qed.

Lemma ItemCount_quantities (c : cart.Cart.t) :
  cart.Cart.ItemCount c = Int64.wrap (zsum (quantities (cart.Cart.Items c))).
Proof.
  unfold cart.Cart.ItemCount, quantities.
  rewrite (fold_left_quantities cart.CartItem.Quantity). apply sum_wrap.
Qed.

Lemma zsum_alter (f : cart.CartItem.t -> cart.CartItem.t)
    (items : list cart.CartItem.t) :
  forall (k : nat) (item : cart.CartItem.t),
    items !! k = Some item ->
    zsum (quantities (alter f k items))
    = zsum (quantities items) - cart.CartItem.Quantity item
      + cart.CartItem.Quantity (f item).
Proof.
  unfold zsum, quantities.
  induction items as [| x items IH]; intros k item Hk; [discriminate |].
  destruct k as [| k].
  - injection Hk as ->. cbn. lia.
  - change (alter f (S k) (x :: items)) with (x :: alter f k items).
    cbn [map fold_right]. rewrite (IH k item Hk). lia.
Qed.

Lemma zsum_delete (items : list cart.CartItem.t) :
  forall (k : nat) (item : cart.CartItem.t),
    items !! k = Some item ->
    zsum (quantities (take k items ++ drop (S k) items))
    = zsum (quantities items) - cart.CartItem.Quantity item.
Proof.
  unfold zsum, quantities.
  induction items as [| x items IH]; intros k item Hk; [discriminate |].
  destruct k as [| k].
  - injection Hk as ->. cbn. rewrite drop_0. lia.
  - change (take (S k) (x :: items) ++ drop (S (S k)) (x :: items))
      with (x :: (take k items ++ drop (S k) items)).
    cbn [map fold_right]. rewrite (IH k item Hk). lia.
Qed.

Lemma identity_alter (f : cart.CartItem.t -> cart.CartItem.t)
    (items : list cart.CartItem.t) (k : nat) :
  (forall item, lineIdentity (f item) = lineIdentity item) ->
  map lineIdentity (alter f k items) = map lineIdentity items.
Proof.
  intros Hf. revert k. induction items as [| x items IH]; intros k;
    [reflexivity |].
  destruct k as [| k]; cbn; [rewrite Hf | rewrite IH]; reflexivity.
Qed.

(** The outcome of one round of adding: the quantity goes to an existing
    line, all else of the lines staying as it was, or the item becomes the
    last line; either way the units grow by the quantity of the item. *)
Lemma addOrAppend_spec (aliased : nat -> bool) (item : cart.CartItem.t)
    (items : list cart.CartItem.t) :
  (map lineIdentity (cart.Cart.addOrAppend aliased item items)
   = map lineIdentity items
   \/ cart.Cart.addOrAppend aliased item items = items ++ [item])
  /\ eqm64 (zsum (quantities (cart.Cart.addOrAppend aliased item items)))
       (zsum (quantities items) + cart.CartItem.Quantity item).
Proof.
  unfold cart.Cart.addOrAppend.
  pose proof (indexWhere_spec
                (fun i existing => cart.Cart.sameProduct (aliased i) existing item)
                items 0) as H.
  destruct (cart.Cart.indexWhere _ items 0) as [i |].
  - destruct H as (k & existing & -> & Hk & _). cbn [Nat.add]. split.
    + left. apply identity_alter. intros []. reflexivity.
    + rewrite (zsum_alter _ items k existing Hk).
      unfold cart.Cart.addQuantity, Int64.add. cbn [cart.CartItem.Quantity
        cart.CartItem.set_Quantity].
      setoid_rewrite wrap_eqm. eqm_lia.
  - split; [right; reflexivity |].
    unfold quantities. rewrite map_app, zsum_app. cbn. eqm_lia.
Qed.

Lemma AddItem_units_sum (now : Z) (aliased : nat -> bool)
    (item : cart.CartItem.t) (c : cart.Cart.t) :
  cart.Cart.ItemCount (cart.Cart.AddItem now aliased item c)
  = Int64.add (cart.Cart.ItemCount c) (cart.CartItem.Quantity item).
Proof.
  destruct (addOrAppend_spec aliased item (cart.Cart.Items c)) as (_ & Hsum).
  rewrite !ItemCount_quantities. unfold cart.Cart.AddItem.
  cbn [cart.Cart.Items cart.Cart.set_UpdatedAt cart.Cart.set_Items].
  unfold Int64.add. rewrite wrap_add_l. apply wrap_proper. exact Hsum.
Qed.

End CartLines.

(** [AddItem] adds the quantity of the item to the units of the cart, in
    wrap-around arithmetic, and stamps the cart.  Either the item becomes
    the last line, or the quantity goes to an existing line and nothing
    else of any line changes: the line keeps its own id, SKU, name and
    price, whatever those of the item are.  An item without variant goes
    to an existing line exactly when the cart has a line of its product
    without variant. *)
Theorem AddItem_units_and_lines (now : Z) (aliased : nat -> bool)
    (item : cart.CartItem.t) (c : cart.Cart.t) :
  cart.Cart.ItemCount (cart.Cart.AddItem now aliased item c)
  = Int64.add (cart.Cart.ItemCount c) (cart.CartItem.Quantity item)
  /\ cart.Cart.UpdatedAt (cart.Cart.AddItem now aliased item c) = now
  /\ (map lineIdentity (cart.Cart.Items (cart.Cart.AddItem now aliased item c))
      = map lineIdentity (cart.Cart.Items c)
      \/ cart.Cart.Items (cart.Cart.AddItem now aliased item c)
         = cart.Cart.Items c ++ [item])
  /\ (cart.CartItem.VariantID item = None ->
      (Exists (plainLineOf item) (cart.Cart.Items c) ->
       map lineIdentity (cart.Cart.Items (cart.Cart.AddItem now aliased item c))
       = map lineIdentity (cart.Cart.Items c))
      /\ (~ Exists (plainLineOf item) (cart.Cart.Items c) ->
          cart.Cart.Items (cart.Cart.AddItem now aliased item c)
          = cart.Cart.Items c ++ [item])).
Proof.
  destruct (addOrAppend_spec aliased item (cart.Cart.Items c)) as (Hlines & Hsum).
  split; [apply AddItem_units_sum |].
  split; [reflexivity | split; [exact Hlines |]].
  intros Hvar. unfold cart.Cart.AddItem.
    cbn [cart.Cart.Items cart.Cart.set_UpdatedAt cart.Cart.set_Items].
    unfold cart.Cart.addOrAppend.
    pose proof (indexWhere_spec
                  (fun i existing =>
                     cart.Cart.sameProduct (aliased i) existing item)
                  (cart.Cart.Items c) 0) as H.
    destruct (cart.Cart.indexWhere _ (cart.Cart.Items c) 0) as [i |].
    + split.
      * intros _. apply identity_alter. intros []. reflexivity.
      * intros Hno. exfalso. apply Hno.
        destruct H as (k & existing & _ & Hk & Htest & _).
        apply Exists_exists. exists existing.
        split; [apply (list_elem_of_lookup_2 _ k), Hk |].
        unfold cart.Cart.sameProduct, cart.Cart.samePointer in Htest.
        rewrite Hvar in Htest. apply andb_true_iff in Htest as (Hp & Hv).
        apply String.eqb_eq in Hp. split; [exact Hp |].
        destruct (cart.CartItem.VariantID existing); [discriminate | reflexivity].
    + split; [| reflexivity].
      intros Hex. exfalso. apply Exists_exists in Hex as (existing & Hin & Hp & Hv).
      apply list_elem_of_lookup_1 in Hin as (j & Hj).
      specialize (H j existing Hj). cbn in H.
      unfold cart.Cart.sameProduct, cart.Cart.samePointer in H.
      rewrite Hp, Hv, Hvar, String.eqb_refl in H. discriminate.
Qed.

(** [AddItem] tells variants apart by pointer: an item whose variant
    pointer is not nil and is the pointer of no line of the cart becomes a
    new line, also when the cart has a line of the same product whose
    variant id reads the same; only when the pointer is that of a line of
    the same product does the quantity go to that line. *)
Theorem AddItem_compares_variant_pointers (now : Z) (aliased : nat -> bool)
    (item : cart.CartItem.t) (c : cart.Cart.t) (variantID : string) :
  cart.CartItem.VariantID item = Some variantID ->
  ((forall i, aliased i = false) ->
   cart.Cart.Items (cart.Cart.AddItem now aliased item c)
   = cart.Cart.Items c ++ [item])
  /\ (forall (k : nat) (existing : cart.CartItem.t),
        cart.Cart.Items c !! k = Some existing ->
        cart.CartItem.ProductID existing = cart.CartItem.ProductID item ->
        cart.CartItem.VariantID existing = Some variantID ->
        aliased k = true ->
        length (cart.Cart.Items (cart.Cart.AddItem now aliased item c))
        = length (cart.Cart.Items c)).
Proof.
  intros Hvar. unfold cart.Cart.AddItem.
  cbn [cart.Cart.Items cart.Cart.set_UpdatedAt cart.Cart.set_Items].
  unfold cart.Cart.addOrAppend.
  pose proof (indexWhere_spec
                (fun i existing =>
                   cart.Cart.sameProduct (aliased i) existing item)
                (cart.Cart.Items c) 0) as H.
  destruct (cart.Cart.indexWhere _ (cart.Cart.Items c) 0) as [i |].
  - split.
    + intros Hno. exfalso. destruct H as (k & existing & -> & _ & Htest & _).
      unfold cart.Cart.sameProduct, cart.Cart.samePointer in Htest.
      rewrite Hvar, Hno in Htest.
      destruct (cart.CartItem.VariantID existing);
        rewrite andb_false_r in Htest; discriminate.
    + intros. apply length_alter.
  - split; [reflexivity |].
    intros k existing Hk Hp Hv Ha. exfalso.
    specialize (H k existing Hk). cbn in H.
    unfold cart.Cart.sameProduct, cart.Cart.samePointer in H.
    rewrite Hp, Hv, Hvar, Ha, String.eqb_refl in H. discriminate.
Qed.

Lemma AddItem_compares_variant_pointers_witness :
  cart.Cart.Items
    (cart.Cart.AddItem 3 (fun _ => false)
       (cart.CartItem.mk "line-2" "product-A" (Some "red") "A-red" "A"
          (mkMoney 1000 "USD") 1 ∅ 3)
       (sample.cartOf
          [cart.CartItem.mk "line-1" "product-A" (Some "red") "A-red" "A"
             (mkMoney 1000 "USD") 2 ∅ 0]))
  = [cart.CartItem.mk "line-1" "product-A" (Some "red") "A-red" "A"
       (mkMoney 1000 "USD") 2 ∅ 0;
     cart.CartItem.mk "line-2" "product-A" (Some "red") "A-red" "A"
       (mkMoney 1000 "USD") 1 ∅ 3].
Proof.
  apply (AddItem_compares_variant_pointers 3 (fun _ => false)
           (cart.CartItem.mk "line-2" "product-A" (Some "red") "A-red" "A"
              (mkMoney 1000 "USD") 1 ∅ 3)
           (sample.cartOf
              [cart.CartItem.mk "line-1" "product-A" (Some "red") "A-red" "A"
                 (mkMoney 1000 "USD") 2 ∅ 0])
           "red" eq_refl).
  reflexivity.
Defined.

(** ** Package cart: finding, removing and updating a line *)

Section LinesByID.

Variable itemID : string.

Lemma indexWhere_byID (items : list cart.CartItem.t) :
  forall i0 : nat,
    match
      cart.Cart.indexWhere
        (fun _ item => String.eqb (cart.CartItem.ID item) itemID) items i0
    with
    | Some i =>
        (i0 <= i)%nat
        /\ items !! (i - i0)%nat = lineWithID items itemID
        /\ lineWithID items itemID <> None
        /\ take (i - i0) items ++ drop (S (i - i0)) items
           = withoutLine items itemID
        /\ forall quantity,
             alter (cart.CartItem.set_Quantity quantity) (i - i0)%nat items
             = withQuantity items itemID quantity
    | None => lineWithID items itemID = None
    end.
Proof.
  induction items as [| item items IH]; intros i0; [reflexivity |].
  cbn [cart.Cart.indexWhere lineWithID withoutLine withQuantity].
  destruct (String.eqb (cart.CartItem.ID item) itemID).
  - rewrite Nat.sub_diag. cbn. rewrite drop_0. repeat split; try lia.
    discriminate.
  - specialize (IH (S i0)).
    destruct (cart.Cart.indexWhere _ items (S i0)) as [i |]; [| exact IH].
    destruct IH as (Hle & Hlook & Hsome & Hdel & Halter).
    replace (i - i0)%nat with (S (i - S i0)) by lia.
    cbn [take drop app]. rewrite Hdel.
    split; [lia |]. split; [exact Hlook |]. split; [exact Hsome |].
    split; [reflexivity |].
    intros quantity. rewrite <- Halter. reflexivity.
Qed.

Lemma FindItem_lineWithID (c : cart.Cart.t) :
  cart.Cart.FindItem c itemID = lineWithID (cart.Cart.Items c) itemID.
Proof.
  unfold cart.Cart.FindItem.
  pose proof (indexWhere_byID (cart.Cart.Items c) 0) as H.
  destruct (cart.Cart.indexWhere _ (cart.Cart.Items c) 0) as [i |];
    [| symmetry; exact H].
  destruct H as (_ & H & _). rewrite Nat.sub_0_r in H. exact H.
Qed.

Lemma RemoveItem_withoutLine (now : Z) (c : cart.Cart.t) :
  cart.Cart.RemoveItem now itemID c
  = match lineWithID (cart.Cart.Items c) itemID with
    | Some _ =>
        (true,
         cart.Cart.set_UpdatedAt now
           (cart.Cart.set_Items (withoutLine (cart.Cart.Items c) itemID) c))
    | None => (false, c)
    end.
Proof.
  unfold cart.Cart.RemoveItem.
  pose proof (indexWhere_byID (cart.Cart.Items c) 0) as H.
  destruct (cart.Cart.indexWhere _ (cart.Cart.Items c) 0) as [i |].
  - destruct H as (_ & _ & Hsome & Hdel & _). rewrite Nat.sub_0_r in Hdel.
    rewrite Hdel. destruct (lineWithID _ _); [reflexivity | contradiction].
  - rewrite H. reflexivity.
Qed.

Lemma UpdateItemQuantity_withQuantity (now quantity : Z) (c : cart.Cart.t) :
  0 < quantity ->
  cart.Cart.UpdateItemQuantity now itemID quantity c
  = match lineWithID (cart.Cart.Items c) itemID with
    | Some _ =>
        (true,
         cart.Cart.set_UpdatedAt now
           (cart.Cart.set_Items
              (withQuantity (cart.Cart.Items c) itemID quantity) c))
    | None => (false, c)
    end.
Proof.
  intros Hq. unfold cart.Cart.UpdateItemQuantity.
  destruct (Z.leb_spec quantity 0) as [Hle | _]; [lia |].
  pose proof (indexWhere_byID (cart.Cart.Items c) 0) as H.
  destruct (cart.Cart.indexWhere _ (cart.Cart.Items c) 0) as [i |].
  - destruct H as (_ & _ & Hsome & _ & Halter).
    specialize (Halter quantity). rewrite Nat.sub_0_r in Halter.
    rewrite Halter. destruct (lineWithID _ _); [reflexivity | contradiction].
  - rewrite H. reflexivity.
Qed.

Lemma lineWithID_absent (items : list cart.CartItem.t) :
  ~ In itemID (map cart.CartItem.ID items) -> lineWithID items itemID = None.
Proof.
  induction items as [| item items IH]; intros Hno; [reflexivity |].
  cbn [lineWithID]. cbn [map In] in Hno.
  destruct (String.eqb_spec (cart.CartItem.ID item) itemID); [tauto |].
  apply IH. tauto.
Qed.

Lemma withoutLine_other (other : string) (items : list cart.CartItem.t) :
  other <> itemID ->
  lineWithID (withoutLine items itemID) other = lineWithID items other.
Proof.
  intros Hne. induction items as [| item items IH]; [reflexivity |].
  cbn [withoutLine lineWithID].
  destruct (String.eqb_spec (cart.CartItem.ID item) itemID) as [He | Hd].
  - destruct (String.eqb_spec (cart.CartItem.ID item) other); [congruence |].
    reflexivity.
  - cbn [lineWithID]. rewrite IH. reflexivity.
Qed.

Lemma withoutLine_same (items : list cart.CartItem.t) :
  List.NoDup (map cart.CartItem.ID items) ->
  lineWithID (withoutLine items itemID) itemID = None.
Proof.
  induction items as [| item items IH]; intros Hnd; [reflexivity |].
  cbn [withoutLine]. cbn [map] in Hnd. inversion Hnd as [| ? ? Hnotin Hnd']; subst.
  destruct (String.eqb_spec (cart.CartItem.ID item) itemID) as [He | Hd].
  - apply lineWithID_absent. rewrite <- He. exact Hnotin.
  - cbn [lineWithID]. apply String.eqb_neq in Hd. rewrite Hd. apply IH, Hnd'.
Qed.

Lemma withoutLine_units (items : list cart.CartItem.t) (item : cart.CartItem.t) :
  lineWithID items itemID = Some item ->
  zsum (quantities (withoutLine items itemID))
  = zsum (quantities items) - cart.CartItem.Quantity item
  /\ S (length (withoutLine items itemID)) = length items.
Proof.
  unfold zsum, quantities.
  induction items as [| x items IH]; intros H; [discriminate |].
  cbn [lineWithID withoutLine] in H |- *.
  destruct (String.eqb (cart.CartItem.ID x) itemID).
  - injection H as ->. cbn. split; [lia | reflexivity].
  - destruct (IH H) as (IH1 & IH2). cbn [map fold_right length].
    rewrite IH1, IH2. split; [lia | reflexivity].
Qed.

Lemma withQuantity_same (quantity : Z) (items : list cart.CartItem.t)
    (item : cart.CartItem.t) :
  lineWithID items itemID = Some item ->
  lineWithID (withQuantity items itemID quantity) itemID
  = Some (cart.CartItem.set_Quantity quantity item)
  /\ map lineIdentity (withQuantity items itemID quantity)
     = map lineIdentity items.
Proof.
  induction items as [| x items IH]; intros H; [discriminate |].
  cbn [lineWithID withQuantity] in H |- *.
  destruct (String.eqb (cart.CartItem.ID x) itemID) eqn:He.
  - injection H as ->. cbn [lineWithID cart.CartItem.ID cart.CartItem.set_Quantity].
    rewrite He. split; [reflexivity |]. cbn [map].
    f_equal; destruct item; reflexivity.
  - cbn [lineWithID map]. rewrite He. destruct (IH H) as (IH1 & IH2).
    rewrite IH2. auto.
Qed.

Lemma withQuantity_other (quantity : Z) (other : string)
    (items : list cart.CartItem.t) :
  other <> itemID ->
  lineWithID (withQuantity items itemID quantity) other = lineWithID items other.
Proof.
  intros Hne. induction items as [| item items IH]; [reflexivity |].
  cbn [withQuantity lineWithID].
  destruct (String.eqb_spec (cart.CartItem.ID item) itemID) as [He | Hd].
  - cbn [lineWithID cart.CartItem.ID cart.CartItem.set_Quantity].
    destruct (String.eqb_spec (cart.CartItem.ID item) other); [congruence |].
    reflexivity.
  - cbn [lineWithID]. rewrite IH. reflexivity.
Qed.

End LinesByID.

(** [RemoveItem] succeeds exactly when [FindItem] finds a line with the
    id.  When there is none it returns false and leaves the cart as it
    was, stamp included.  When there is one it takes the first such line
    out: the cart has one line less and the units of that line less, every
    line with another id is found as before, and when the ids of the lines
    are distinct no line with the id is left. *)
Theorem RemoveItem_FindItem (now : Z) (itemID : string) (c : cart.Cart.t) :
  (cart.Cart.FindItem c itemID = None ->
   cart.Cart.RemoveItem now itemID c = (false, c))
  /\ (forall item : cart.CartItem.t,
        cart.Cart.FindItem c itemID = Some item ->
        let c' := snd (cart.Cart.RemoveItem now itemID c) in
        fst (cart.Cart.RemoveItem now itemID c) = true
        /\ S (length (cart.Cart.Items c')) = length (cart.Cart.Items c)
        /\ cart.Cart.ItemCount c'
           = Int64.sub (cart.Cart.ItemCount c) (cart.CartItem.Quantity item)
        /\ cart.Cart.UpdatedAt c' = now
        /\ (forall other : string,
              other <> itemID ->
              cart.Cart.FindItem c' other = cart.Cart.FindItem c other)
        /\ (List.NoDup (map cart.CartItem.ID (cart.Cart.Items c)) ->
            cart.Cart.FindItem c' itemID = None)).
Proof.
  rewrite (FindItem_lineWithID itemID c), (RemoveItem_withoutLine itemID now c).
  split.
  - intros ->. reflexivity.
  - intros item Hitem. rewrite Hitem. cbn [fst snd].
    destruct (withoutLine_units itemID (cart.Cart.Items c) item Hitem)
      as (Hunits & Hlen).
    split; [reflexivity |]. split; [exact Hlen |]. split; [| split; [reflexivity |]].
    + rewrite !ItemCount_quantities.
      cbn [cart.Cart.Items cart.Cart.set_UpdatedAt cart.Cart.set_Items].
      rewrite Hunits. unfold Int64.sub. rewrite wrap_sub_l. reflexivity.
    + split.
      * intros other Hne. rewrite !FindItem_lineWithID.
        apply withoutLine_other, Hne.
      * intros Hnd. rewrite FindItem_lineWithID.
        apply withoutLine_same, Hnd.
Qed.

(** [UpdateItemQuantity] with a quantity that is not positive is
    [RemoveItem].  With a positive quantity it fails, leaving the cart as
    it was, when no line has the id; otherwise the first line with the id
    gets the quantity and nothing else of any line changes: [FindItem]
    then finds that line with the new quantity, and every line with
    another id as before. *)
Theorem UpdateItemQuantity_FindItem (now : Z) (itemID : string)
    (quantity : Z) (c : cart.Cart.t) :
  (quantity <= 0 ->
   cart.Cart.UpdateItemQuantity now itemID quantity c
   = cart.Cart.RemoveItem now itemID c)
  /\ (0 < quantity ->
      (cart.Cart.FindItem c itemID = None ->
       cart.Cart.UpdateItemQuantity now itemID quantity c = (false, c))
      /\ (forall item : cart.CartItem.t,
            cart.Cart.FindItem c itemID = Some item ->
            let c' := snd (cart.Cart.UpdateItemQuantity now itemID quantity c) in
            fst (cart.Cart.UpdateItemQuantity now itemID quantity c) = true
            /\ cart.Cart.FindItem c' itemID
               = Some (cart.CartItem.set_Quantity quantity item)
            /\ map lineIdentity (cart.Cart.Items c')
               = map lineIdentity (cart.Cart.Items c)
            /\ (forall other : string,
                  other <> itemID ->
                  cart.Cart.FindItem c' other = cart.Cart.FindItem c other))).
Proof.
  split.
  - intros Hq. unfold cart.Cart.UpdateItemQuantity.
    destruct (Z.leb_spec quantity 0); [reflexivity | lia].
  - intros Hq.
    rewrite (FindItem_lineWithID itemID c),
      (UpdateItemQuantity_withQuantity itemID now quantity c Hq).
    split.
    + intros ->. reflexivity.
    + intros item Hitem. rewrite Hitem. cbn [fst snd].
      destruct (withQuantity_same itemID quantity (cart.Cart.Items c) item Hitem)
        as (Hsame & Hid).
      split; [reflexivity |]. rewrite !FindItem_lineWithID.
      cbn [cart.Cart.Items cart.Cart.set_UpdatedAt cart.Cart.set_Items].
      split; [exact Hsame |]. split; [exact Hid |].
      intros other Hne. rewrite !FindItem_lineWithID.
      apply withQuantity_other, Hne.
Qed.

(** ** Package cart: subtotal and merge *)

Lemma zsum_map_wrap {A : Type} (f : A -> Z) (l : list A) :
  eqm64 (zsum (map (fun x => Int64.wrap (f x)) l)) (zsum (map f l)).
Proof.
  induction l as [| x l IH]; [reflexivity |].
  cbn [map zsum fold_right]. fold (zsum (map (fun x => Int64.wrap (f x)) l)).
  fold (zsum (map f l)). rewrite IH. setoid_rewrite wrap_eqm. reflexivity.
Qed.

(** The subtotal of a cart without lines is zero US dollars, whatever
    the currency of the lines it had: so it is after [Clear], which leaves
    the cart empty with no units.  The subtotal of a cart whose lines are
    all priced in one currency is, in that currency, the sum over the
    lines of unit price times quantity, in wrap-around arithmetic. *)
Theorem Cart_Subtotal (now : Z) (c : cart.Cart.t) (cur : string) :
  (cart.Cart.Items c = [] -> cart.Cart.Subtotal c = Zero "USD")
  /\ (cart.Cart.Subtotal (cart.Cart.Clear now c) = Zero "USD"
      /\ cart.Cart.IsEmpty (cart.Cart.Clear now c) = true
      /\ cart.Cart.ItemCount (cart.Cart.Clear now c) = 0)
  /\ (cart.Cart.Items c <> [] ->
      Forall (fun item => inCurrency cur (cart.CartItem.Price item))
        (cart.Cart.Items c) ->
      cart.Cart.Subtotal c
      = mkMoney
          (Int64.wrap
             (zsum (map (fun item => Amount (cart.CartItem.Price item)
                                     * cart.CartItem.Quantity item)
                      (cart.Cart.Items c))))
          cur).
Proof.
  split; [| split].
  - intros Hi. unfold cart.Cart.Subtotal. rewrite Hi. reflexivity.
  - repeat split.
  - intros Hne Hcur. unfold cart.Cart.Subtotal.
    destruct (cart.Cart.Items c) as [| first rest] eqn:Hi; [contradiction |].
    rewrite <- subtotalLoop_cart.
    assert (Hfirst : Currency (cart.CartItem.Price first) = cur)
      by (inversion Hcur; assumption).
    rewrite (subtotalLoop_inCur cur (cartLines (first :: rest)) (Zero _) Hfirst).
    2:{ unfold cartLines. apply Forall_map. exact Hcur. }
    f_equal. cbn [Zero Amount]. fold (Int64.sum
      (map (fun item => Int64.mul (Amount (pricing.LineItem.UnitPrice item))
                          (pricing.LineItem.Quantity item))
         (cartLines (first :: rest)))).
    rewrite sum_wrap. apply wrap_proper. unfold cartLines. rewrite map_map.
    unfold Int64.mul.
    apply (zsum_map_wrap
             (fun item => Amount (cart.CartItem.Price item)
                          * cart.CartItem.Quantity item)).
Qed.

Lemma Cart_Subtotal_witness :
  cart.Cart.Subtotal (sample.cartOf sample.twoLines) = mkMoney 2500 "USD".
Proof.
  destruct (Cart_Subtotal 0 (sample.cartOf sample.twoLines) "USD")
    as (_ & _ & H).
  rewrite H.
  - vm_compute. reflexivity.
  - discriminate.
  - repeat constructor.
Defined.

Section MergeLoop.

Variable aliased : nat -> nat -> bool.

Lemma mergeLoop_spec (otherItems : list cart.CartItem.t) :
  forall (j : nat) (items : list cart.CartItem.t),
    let merged := cart.Cart.mergeLoop aliased otherItems j items in
    eqm64 (zsum (quantities merged))
      (zsum (quantities items) + zsum (quantities otherItems))
    /\ (length items <= length merged <= length items + length otherItems)%nat
    /\ map lineIdentity (take (length items) merged) = map lineIdentity items.
Proof.
  induction otherItems as [| otherItem rest IH]; intros j items.
  - cbn [cart.Cart.mergeLoop length]. cbn zeta. rewrite firstn_all.
    split; [| split; [lia | reflexivity]].
    change (zsum (quantities [])) with 0. eqm_lia.
  - cbn [cart.Cart.mergeLoop].
    destruct (addOrAppend_spec (aliased j) otherItem items) as (Hlines & Hsum).
    destruct (IH (S j) (cart.Cart.addOrAppend (aliased j) otherItem items))
      as (IHsum & IHlen & IHid).
    cbn zeta.
    set (items' := cart.Cart.addOrAppend (aliased j) otherItem items) in *.
    set (merged := cart.Cart.mergeLoop aliased rest (S j) items') in *.
    assert (Hlen : (length items <= length items' <= S (length items))%nat
                   /\ take (length items) (map lineIdentity items')
                      = map lineIdentity items).
    { destruct Hlines as [Hsame | Happ].
      - pose proof (f_equal (@length _) Hsame) as Hl. rewrite !length_map in Hl.
        split; [lia |]. rewrite Hsame. apply take_ge.
        rewrite length_map. lia.
      - split; [rewrite Happ, length_app; cbn [length]; lia |].
        rewrite Happ, map_app. apply take_app_length'.
        rewrite length_map. reflexivity. }
    destruct Hlen as (Hlen & Htake).
    split; [| split].
    + rewrite IHsum, Hsum.
      change (zsum (quantities (otherItem :: rest)))
        with (cart.CartItem.Quantity otherItem + zsum (quantities rest)).
      eqm_lia.
    + cbn [length]. lia.
    + rewrite <- Htake, <- IHid, <- !firstn_map, take_take.
      f_equal; lia.
Qed.

End MergeLoop.

Lemma Merge_units_sum (now : Z) (aliased : nat -> nat -> bool)
    (other c : cart.Cart.t) :
  cart.Cart.ItemCount (cart.Cart.Merge now aliased other c)
  = Int64.add (cart.Cart.ItemCount c) (cart.Cart.ItemCount other).
Proof.
  destruct (mergeLoop_spec aliased (cart.Cart.Items other) 0 (cart.Cart.Items c))
    as (Hsum & _).
  rewrite !ItemCount_quantities. unfold cart.Cart.Merge.
  cbn [cart.Cart.Items cart.Cart.set_UpdatedAt cart.Cart.set_Items].
  unfold Int64.add. rewrite wrap_add_l, wrap_add_r. apply wrap_proper.
  exact Hsum.
Qed.

(** [Merge] adds the units of the other cart to the units of the cart,
    in wrap-around arithmetic, and stamps the cart.  The lines the cart
    had stay where they were, each with its own id, SKU, name and price;
    the lines it gets come after them, at most one per line of the other
    cart; merging an empty cart changes no line. *)
Theorem Merge_units_and_lines (now : Z) (aliased : nat -> nat -> bool)
    (other c : cart.Cart.t) :
  let merged := cart.Cart.Merge now aliased other c in
  cart.Cart.ItemCount merged
  = Int64.add (cart.Cart.ItemCount c) (cart.Cart.ItemCount other)
  /\ cart.Cart.UpdatedAt merged = now
  /\ map lineIdentity (take (length (cart.Cart.Items c)) (cart.Cart.Items merged))
     = map lineIdentity (cart.Cart.Items c)
  /\ (length (cart.Cart.Items c) <= length (cart.Cart.Items merged)
      <= length (cart.Cart.Items c) + length (cart.Cart.Items other))%nat
  /\ (cart.Cart.Items other = [] ->
      cart.Cart.Items merged = cart.Cart.Items c).
Proof.
  cbn zeta. unfold cart.Cart.Merge.
  cbn [cart.Cart.Items cart.Cart.UpdatedAt cart.Cart.set_UpdatedAt
         cart.Cart.set_Items].
  destruct (mergeLoop_spec aliased (cart.Cart.Items other) 0 (cart.Cart.Items c))
    as (Hsum & Hlen & Hid).
  split; [apply (Merge_units_sum now aliased other c) |].
  split; [reflexivity | split; [exact Hid | split; [exact Hlen |]]].
  intros ->. reflexivity.
Qed.

(** ** Package cart: the cart service *)

Section CartServiceFacts.

Context {C I : Type}.
Variable s : CartService.t C I.

Lemma save_outcome (c : cart.Cart.t) (w0 w : CartService.World C I) :
  CartService.repoState w = CartService.repoState w0 ->
  savedOrUntouched s w0 (CartService.save s c w).
Proof.
  intros Hr. unfold CartService.save, savedOrUntouched.
  destruct (cart.Save (CartService.repo s) c (CartService.repoState w))
    as [[err |] r'] eqn:Hsave; cbn [CartService.repoState CartService.set_repoState].
  - right. exists c. rewrite <- Hr. exact Hsave.
  - rewrite <- Hr. exact Hsave.
Qed.

Lemma outOfStock_spec (sku : string) (quantity : Z)
    (w : CartService.World C I) :
  CartService.outOfStock s sku quantity w = true
  <-> exists (inv : inventory.Reader I) (available : Z),
        CartService.inventoryService s = Some inv
        /\ inventory.GetAvailableStock inv sku (CartService.inventoryState w)
           = (available, None)
        /\ available < quantity.
Proof.
  unfold CartService.outOfStock.
  destruct (CartService.inventoryService s) as [inv |].
  - destruct (inventory.GetAvailableStock inv sku _) as [available [err |]] eqn:Hs.
    + split; [discriminate |]. intros (inv' & a & [= <-] & Hs' & _).
      congruence.
    + rewrite Z.ltb_lt. split.
      * intros Hlt. exists inv, available. auto.
      * intros (inv' & a & [= <-] & Hs' & Hlt). congruence.
  - split; [discriminate |]. intros (inv' & a & H & _). discriminate.
Qed.

End CartServiceFacts.

(** [AddItem] of the cart service refuses a quantity that is not
    positive before it reads anything.  For a request without variant, on
    a cart that is found and a product that is found and active, it
    refuses with [ErrOutOfStock] exactly when an inventory service is
    configured, answers without error and reports less stock than the
    quantity of the request.  The units the cart already holds of the
    product play no part, and a failure of the inventory lets the item
    through: otherwise the line of the request, priced at the base price
    of the product, is added to the cart and the cart is saved, so that
    its units grow by the quantity of the request. *)
Theorem CartService_AddItem_stock_check {C I : Type} (s : CartService.t C I)
    (now : Z) (aliased : nat -> bool) (cartID : string)
    (req : cart.AddItemRequest.t) (w : CartService.World C I)
    (c : cart.Cart.t) (product : catalog.Product.t) :
  cart.FindByID (CartService.repo s) cartID (CartService.repoState w) = inl c ->
  catalog.ProductRepository.FindByID (CartService.productRepo s)
    (cart.AddItemRequest.ProductID req) = inl product ->
  catalog.Product.IsActive product = true ->
  cart.AddItemRequest.VariantID req = None ->
  (cart.AddItemRequest.Quantity req <= 0 ->
   CartService.AddItem s now aliased cartID req w
   = ((None, Some CartService.ErrInvalidQuantity), w))
  /\ (0 < cart.AddItemRequest.Quantity req ->
      let added :=
        cart.Cart.AddItem now aliased (requestedLine s now req product w) c in
      (CartService.outOfStock s (catalog.Product.SKU product)
         (cart.AddItemRequest.Quantity req) w = true ->
       CartService.AddItem s now aliased cartID req w
       = ((None, Some CartService.ErrOutOfStock), w))
      /\ (CartService.outOfStock s (catalog.Product.SKU product)
            (cart.AddItemRequest.Quantity req) w = false ->
          forall r' : C,
            cart.Save (CartService.repo s) added (CartService.repoState w)
            = (None, r') ->
            CartService.AddItem s now aliased cartID req w
            = ((Some added, None),
               CartService.mkWorld r' (CartService.inventoryState w)
                 (S (CartService.idCalls w)))
            /\ cart.Cart.ItemCount added
               = Int64.add (cart.Cart.ItemCount c)
                   (cart.AddItemRequest.Quantity req)))
  /\ (CartService.outOfStock s (catalog.Product.SKU product)
        (cart.AddItemRequest.Quantity req) w = true
      <-> exists (inv : inventory.Reader I) (available : Z),
            CartService.inventoryService s = Some inv
            /\ inventory.GetAvailableStock inv (catalog.Product.SKU product)
                 (CartService.inventoryState w)
               = (available, None)
            /\ available < cart.AddItemRequest.Quantity req).
Proof.
  intros Hcart Hproduct Hactive Hvar.
  split; [| split; [| apply outOfStock_spec]].
  - intros Hq. unfold CartService.AddItem.
    destruct (Z.leb_spec (cart.AddItemRequest.Quantity req) 0); [reflexivity | lia].
  - intros Hq. cbn zeta. unfold CartService.AddItem.
    destruct (Z.leb_spec (cart.AddItemRequest.Quantity req) 0) as [Hle | _];
      [lia |].
    rewrite Hcart, Hproduct, Hactive. cbn [negb].
    unfold CartService.skuAndPrice. rewrite Hvar.
    split.
    + intros ->. reflexivity.
    + intros -> r' Hsave. unfold CartService.nextID, CartService.save.
      cbn [CartService.repoState]. unfold requestedLine in Hsave.
      rewrite Hsave. split; [reflexivity |].
      apply (AddItem_units_sum now aliased (requestedLine s now req product w) c).
Qed.

Lemma CartService_AddItem_stock_check_witness :
  exists added : cart.Cart.t,
    CartService.AddItem sample.cartService 3 (fun _ => false) "cart-1"
      (sample.addRequest 3) sample.cartWorld
    = ((Some added, None),
       CartService.mkWorld {[ "cart-1" := added ]} {[ "A" := 5 ]} 1%nat)
    /\ cart.Cart.ItemCount added = 7.
Proof.
  destruct (CartService_AddItem_stock_check sample.cartService 3 (fun _ => false)
              "cart-1" (sample.addRequest 3) sample.cartWorld sample.cartOfFour
              sample.productA eq_refl eq_refl eq_refl eq_refl)
    as (_ & H & _).
  destruct (H ltac:(reflexivity)) as (_ & Hadd).
  destruct (Hadd eq_refl _ eq_refl) as (Hresult & Hcount).
  exists (cart.Cart.AddItem 3 (fun _ => false)
            (requestedLine sample.cartService 3 (sample.addRequest 3)
               sample.productA sample.cartWorld)
            sample.cartOfFour).
  split; [rewrite Hresult; vm_compute; reflexivity |].
  rewrite Hcount. vm_compute. reflexivity.
Defined.

(** [AddItem], [UpdateItemQuantity], [RemoveItem] and [Clear] of the
    cart service return either a cart or an error, never both and never
    neither.  The cart returned is the cart that was saved.  An error
    leaves the repository and the id generator as they were, unless it is
    the error of the save itself. *)
Theorem CartService_saves_or_leaves_untouched {C I : Type}
    (s : CartService.t C I) (now : Z) (aliased : nat -> bool)
    (cartID itemID : string) (req : cart.AddItemRequest.t) (quantity : Z)
    (w : CartService.World C I) :
  savedOrUntouched s w (CartService.AddItem s now aliased cartID req w)
  /\ savedOrUntouched s w
       (CartService.UpdateItemQuantity s now cartID itemID quantity w)
  /\ savedOrUntouched s w (CartService.RemoveItem s now cartID itemID w)
  /\ savedOrUntouched s w (CartService.Clear s now cartID w).
Proof.
  split; [| split; [| split]].
  - unfold CartService.AddItem.
    destruct (cart.AddItemRequest.Quantity req <=? 0); [left; reflexivity |].
    destruct (cart.FindByID _ _ _) as [c | e]; [| left; reflexivity].
    destruct (catalog.ProductRepository.FindByID _ _) as [product | e];
      [| left; reflexivity].
    destruct (negb (catalog.Product.IsActive product)); [left; reflexivity |].
    destruct (CartService.skuAndPrice s req product) as [[sku price] | e];
      [| left; reflexivity].
    destruct (CartService.outOfStock s sku _ w); [left; reflexivity |].
    unfold CartService.nextID. apply save_outcome. reflexivity.
  - unfold CartService.UpdateItemQuantity.
    destruct (cart.FindByID _ _ _) as [c | e]; [| left; reflexivity].
    destruct (cart.Cart.FindItem c itemID) as [item |]; [| left; reflexivity].
    destruct (_ && _); [left; reflexivity |].
    apply save_outcome. reflexivity.
  - unfold CartService.RemoveItem.
    destruct (cart.FindByID _ _ _) as [c | e]; [| left; reflexivity].
    destruct (cart.Cart.RemoveItem now itemID c) as [[|] c'];
      [| left; reflexivity].
    apply save_outcome. reflexivity.
  - unfold CartService.Clear.
    destruct (cart.FindByID _ _ _) as [c | e]; [| left; reflexivity].
    apply save_outcome. reflexivity.
Qed.

(** [MergeCarts] on two carts that are found merges the source into the
    target and saves the target, whose units are then those of the two
    carts together.  The source is deleted once the target is saved, and
    the error of the deletion is dropped; when the save fails the error is
    returned and the source is not deleted.  When either cart is not
    found, the error of the lookup is returned and nothing changes. *)
Theorem MergeCarts_outcomes {C I : Type} (s : CartService.t C I) (now : Z)
    (aliased : nat -> nat -> bool) (sourceCartID targetCartID : string)
    (w : CartService.World C I) :
  (forall sourceCart targetCart : cart.Cart.t,
      cart.FindByID (CartService.repo s) sourceCartID (CartService.repoState w)
      = inl sourceCart ->
      cart.FindByID (CartService.repo s) targetCartID (CartService.repoState w)
      = inl targetCart ->
      let merged := cart.Cart.Merge now aliased sourceCart targetCart in
      cart.Cart.ItemCount merged
      = Int64.add (cart.Cart.ItemCount targetCart)
          (cart.Cart.ItemCount sourceCart)
      /\ (forall r' : C,
            cart.Save (CartService.repo s) merged (CartService.repoState w)
            = (None, r') ->
            CartService.MergeCarts s now aliased sourceCartID targetCartID w
            = ((Some merged, None),
               CartService.set_repoState
                 (snd (cart.Delete (CartService.repo s) sourceCartID r')) w))
      /\ (forall (err : error) (r' : C),
            cart.Save (CartService.repo s) merged (CartService.repoState w)
            = (Some err, r') ->
            CartService.MergeCarts s now aliased sourceCartID targetCartID w
            = ((None, Some err), CartService.set_repoState r' w)))
  /\ (forall err : error,
        cart.FindByID (CartService.repo s) sourceCartID (CartService.repoState w)
        = inr err
        \/ (exists sourceCart,
              cart.FindByID (CartService.repo s) sourceCartID
                (CartService.repoState w) = inl sourceCart)
           /\ cart.FindByID (CartService.repo s) targetCartID
                (CartService.repoState w) = inr err ->
        CartService.MergeCarts s now aliased sourceCartID targetCartID w
        = ((None, Some err), w)).
Proof.
  split.
  - intros sourceCart targetCart Hs Ht. cbn zeta.
    split; [apply (Merge_units_sum now aliased sourceCart targetCart) |].
    unfold CartService.MergeCarts. rewrite Hs, Ht.
    split; [intros r' -> | intros err r' ->]; reflexivity.
  - intros err [Hs | ((sourceCart & Hs) & Ht)]; unfold CartService.MergeCarts;
      rewrite Hs; [| rewrite Ht]; reflexivity.
Qed.

(** [GetOrCreateCart] needs a user id or a session id, and looks the
    cart up by user whenever there is a user id.  A cart that is found is
    returned as it is and nothing is written.  In every other case, an
    error of the lookup included, a cart without lines is made for the
    user and the session, under a fresh id and expiring thirty days from
    now, and saved; the error of the save, if any, is the error
    returned. *)
Theorem GetOrCreateCart_outcomes {C I : Type} (s : CartService.t C I)
    (now : Z) (userID sessionID : string) (w : CartService.World C I) :
  (userID = "" -> sessionID = "" ->
   CartService.GetOrCreateCart s now userID sessionID w
   = ((None, Some (ErrOther "userID or sessionID required")), w))
  /\ (userID <> "" \/ sessionID <> "" ->
      (forall c : cart.Cart.t,
          cartLookup s userID sessionID w = (Some c, None) ->
          CartService.GetOrCreateCart s now userID sessionID w
          = ((Some c, None), w))
      /\ (forall (found : option cart.Cart.t) (err : option error),
            cartLookup s userID sessionID w = (found, err) ->
            found = None \/ err <> None ->
            CartService.GetOrCreateCart s now userID sessionID w
            = CartService.save s (freshCart s now userID sessionID w)
                (CartService.mkWorld (CartService.repoState w)
                   (CartService.inventoryState w)
                   (S (CartService.idCalls w))))
      /\ cart.Cart.IsEmpty (freshCart s now userID sessionID w) = true
      /\ cart.Cart.ExpiresAt (freshCart s now userID sessionID w)
         = Some (now + 2592000000000000)).
Proof.
  split.
  - intros -> ->. reflexivity.
  - intros Hid.
    assert (Hlookup :
      CartService.GetOrCreateCart s now userID sessionID w
      = match cartLookup s userID sessionID w with
        | (Some c, None) => ((Some c, None), w)
        | _ =>
            CartService.save s (freshCart s now userID sessionID w)
              (CartService.mkWorld (CartService.repoState w)
                 (CartService.inventoryState w) (S (CartService.idCalls w)))
        end).
    { unfold CartService.GetOrCreateCart, cartLookup.
      destruct (String.eqb_spec userID "") as [-> | Hu]; cbn [negb].
      - destruct (String.eqb_spec sessionID "") as [-> | Hs]; cbn [negb].
        + destruct Hid; contradiction.
        + destruct (cart.FindBySessionID _ _ _) as [[c |] [e |]]; reflexivity.
      - destruct (cart.FindByUserID _ _ _) as [[c |] [e |]]; reflexivity. }
    rewrite Hlookup. split; [| split; [| split; reflexivity]].
    + intros c ->. reflexivity.
    + intros found err -> [-> | Herr]; [destruct err; reflexivity |].
      destruct found, err; try reflexivity. contradiction.
Qed.

Lemma GetOrCreateCart_outcomes_witness :
  CartService.GetOrCreateCart sample.cartService 3 "user-1" "" sample.cartWorld
  = ((Some sample.cartOfFour, None), sample.cartWorld).
Proof.
  destruct (GetOrCreateCart_outcomes sample.cartService 3 "user-1" ""
              sample.cartWorld) as (_ & H).
  destruct (H ltac:(left; discriminate)) as (Hfound & _).
  apply Hfound. vm_compute. reflexivity.
Defined.
